(** * Excel Data Manager: record store and CRUD operations

    A shallow embedding of [github_streamlit.py]: the functions
    [get_table_data], [display_data_editor], [check_pk_exists],
    [add_new_record_form], [update_table] and [delete_record], over a model
    of the pandas frames they manipulate, of the spreadsheet file they read
    and rewrite, and of the Streamlit messages they show; then the login
    page and the entry point. *)

From Stdlib Require Import List String Ascii Bool Arith NArith ZArith Lia.
From Stdlib Require Import DecimalString.
Import ListNotations.
Local Open Scope string_scope.
Local Open Scope list_scope.

(** ** Python text

    A [string] is read as a sequence of code points below 256.  [strip] is
    [str.strip()] (no argument: Python's white space), [lower] is
    [str.lower()], [contains sub s] is [sub in s]. *)

Module Py.

Definition isspace (c : ascii) : bool :=
  let n := N_of_ascii c in
  (((9 <=? n) && (n <=? 13)) || ((28 <=? n) && (n <=? 32))
   || (n =? 133) || (n =? 160))%N.

Definition lower_char (c : ascii) : ascii :=
  let n := N_of_ascii c in
  if (((65 <=? n) && (n <=? 90))
      || ((192 <=? n) && (n <=? 222) && negb (n =? 215)))%N
  then ascii_of_N (n + 32) else c.

Fixpoint lower (s : string) : string :=
  match s with
  | EmptyString => EmptyString
  | String c s' => String (lower_char c) (lower s')
  end.

Fixpoint lstrip (s : string) : string :=
  match s with
  | EmptyString => EmptyString
  | String c s' => if isspace c then lstrip s' else s
  end.

Fixpoint rstrip (s : string) : string :=
  match s with
  | EmptyString => EmptyString
  | String c s' =>
      match rstrip s' with
      | EmptyString => if isspace c then EmptyString else String c EmptyString
      | t => String c t
      end
  end.

Definition strip (s : string) : string := rstrip (lstrip s).

Fixpoint contains (sub s : string) : bool :=
  prefix sub s ||
  match s with
  | EmptyString => false
  | String _ s' => contains sub s'
  end.

(** Truth value of a [str]: non-empty. *)
Definition nonempty (s : string) : bool :=
  match s with EmptyString => false | _ => true end.

(** [str(n)] for an [int]. *)
Definition str_of_int (z : Z) : string := NilZero.string_of_int (Z.to_int z).

(** [x in xs] for text. *)
Definition mem (x : string) (xs : list string) : bool :=
  existsb (String.eqb x) xs.

(** Number of occurrences of a label. *)
Definition count (x : string) (xs : list string) : nat :=
  List.length (filter (String.eqb x) xs).

End Py.


(** ** Cells and frames

    A cell holds what pandas holds after [pd.read_excel]: text, an integer,
    a float (carried by the text Python prints for it: the program never
    computes with one), a timestamp (nanoseconds since the epoch; a
    [datetime.date] of a form is the timestamp of its midnight), or one of
    the three null markers [NaN], [None] and [NaT].  Column dtypes are not
    modelled beyond [is_object]: a frame that comes from [pd.read_excel]
    lists each cell in the form pandas holds it, so a numeric column that
    also holds [NaN] is a column of floats.  Labels are text. *)

Inductive cell : Type :=
| CStr (s : string)
| CInt (z : Z)
| CFloat (repr : string)
| CTime (ns : Z)
| CNaN
| CNone
| CNaT.

(** A frame: the column labels in order, and the rows, each row aligned
    with the labels.  [len(df)] is [length (rows df)]. *)
Record DataFrame : Type := { columns : list string; rows : list (list cell) }.

(** What the program takes from pandas and openpyxl without being part of
    it:
    - [strftime]: the text of a timestamp;
    - [to_datetime]: [pd.to_datetime(series, errors='coerce')] on the cells
      of one column.  It works on the column as a whole (the format it
      infers from the column decides what each cell becomes) and answers,
      cell by cell, a timestamp or nothing ([NaT]);
    - [read_back]: what [pd.read_excel] makes of the workbook that
      [df.to_excel] wrote for [df].  Cells are typed again from their
      content on the way: text of digits comes back as a number, a null as
      [NaN], a column of integers with a [NaN] as floats. *)
Class Pandas : Type := {
  strftime : Z -> string;
  to_datetime : list cell -> list (option Z);
  to_datetime_length :
    forall cells, List.length (to_datetime cells) = List.length cells;
  read_back : DataFrame -> DataFrame
}.

(** [pd.DataFrame()] *)
Definition empty_frame : DataFrame := {| columns := []; rows := [] |}.

(** [df.empty]: some axis has length 0. *)
Definition df_empty (df : DataFrame) : bool :=
  match columns df, rows df with
  | [], _ | _, [] => true
  | _, _ => false
  end.

Definition cell_eq_dec (a b : cell) : {a = b} + {a <> b}.
Proof.
  decide equality; try apply string_dec; apply Z.eq_dec.
Defined.

Definition frame_eq_dec (a b : DataFrame) : {a = b} + {a <> b}.
Proof.
  decide equality;
    repeat (apply list_eq_dec; intros); try apply string_dec; apply cell_eq_dec.
Defined.

(** [a.equals(b)]: same labels, same cells, nulls equal to themselves. *)
Definition df_equals (a b : DataFrame) : bool :=
  if frame_eq_dec a b then true else false.

(** [series.isnull()] on one cell. *)
Definition isnull (c : cell) : bool :=
  match c with CNaN | CNone | CNaT => true | _ => false end.

(** [df.columns.str.strip().str.lower()] *)
Definition normalize_labels (labels : list string) : list string :=
  map (fun l => Py.lower (Py.strip l)) labels.

Definition with_columns (df : DataFrame) (labels : list string) : DataFrame :=
  {| columns := labels; rows := rows df |}.

(** Position of the first column carrying a label. *)
Fixpoint index_of (l : string) (labels : list string) : option nat :=
  match labels with
  | [] => None
  | l' :: rest =>
      if String.eqb l l' then Some 0
      else match index_of l rest with Some i => Some (S i) | None => None end
  end.

Definition cell_at (labels : list string) (row : list cell) (l : string) : cell :=
  match index_of l labels with
  | Some i => nth i row CNaN
  | None => CNaN
  end.

(** [df[l]]: pandas answers a series when exactly one column carries the
    label, a frame when several do, and raises [KeyError] when none does. *)
Inductive selection : Type :=
| NoColumn
| Series (cells : list cell)
| SubFrame.

Definition getitem (df : DataFrame) (l : string) : selection :=
  match Py.count l (columns df) with
  | 0 => NoColumn
  | 1 => Series (map (fun r => cell_at (columns df) r l) (rows df))
  | _ => SubFrame
  end.

(** Apply [f] to the cells of a row according to the label above each. *)
Fixpoint map_labelled (f : string -> cell -> cell)
    (labels : list string) (row : list cell) : list cell :=
  match labels, row with
  | l :: labels', c :: row' => f l c :: map_labelled f labels' row'
  | _, _ => row
  end.

(** [df[l] = g(df[l])] for a cell-wise [g]. *)
Definition assign (df : DataFrame) (l : string) (g : cell -> cell) : DataFrame :=
  {| columns := columns df;
     rows := map (map_labelled (fun l' c => if String.eqb l' l then g c else c)
                    (columns df)) (rows df) |}.

(** [f 0 x0; f 1 x1; ...] counted from [j]. *)
Fixpoint map_indexed {A B} (f : nat -> A -> B) (j : nat) (xs : list A) : list B :=
  match xs with
  | [] => []
  | x :: rest => f j x :: map_indexed f (S j) rest
  end.

(** [df[l] = cells] for a series as long as the frame: the cells go down
    the column, one a row. *)
Definition set_column (df : DataFrame) (l : string) (cells : list cell) : DataFrame :=
  {| columns := columns df;
     rows := map_indexed
               (fun j => map_labelled
                           (fun l' c => if String.eqb l' l then nth j cells c else c)
                           (columns df))
               0 (rows df) |}.

(** [df[l] = c] for a label the frame does not have: a new last column. *)
Definition add_column (df : DataFrame) (l : string) (c : cell) : DataFrame :=
  {| columns := columns df ++ [l];
     rows := map (fun r => r ++ [c]) (rows df) |}.

(** [df[labels]] once every label is known to be present. *)
Definition take_columns (df : DataFrame) (labels : list string) : DataFrame :=
  {| columns := labels;
     rows := map (fun r => map (cell_at (columns df) r) labels) (rows df) |}.

(** [df[mask]] with the mask computed row by row from the cell under [l]. *)
Definition filter_rows (df : DataFrame) (l : string) (keep : cell -> bool) : DataFrame :=
  {| columns := columns df;
     rows := filter (fun r => keep (cell_at (columns df) r l)) (rows df) |}.

(** A record is a Python [dict]: keys in insertion order. *)
Definition record : Type := list (string * cell).

(** [pd.DataFrame([r])] *)
Definition frame_of_record (r : record) : DataFrame :=
  {| columns := map fst r; rows := [map snd r] |}.

(** [pd.concat([a, b], ignore_index=True)]: with the same labels the rows of
    [b] follow those of [a]; otherwise the labels are united and each row is
    re-indexed, a missing cell being [NaN].  The cells keep their values:
    that pandas turns a column of integers into floats when it receives a
    [NaN] is not seen before the frame is written, and the workbook is the
    same; what comes back from it is [read_back]'s. *)
Definition pd_concat (a b : DataFrame) : DataFrame :=
  if list_eq_dec string_dec (columns a) (columns b) then
    {| columns := columns a; rows := rows a ++ rows b |}
  else
    let labels :=
      columns a ++ filter (fun l => negb (Py.mem l (columns a))) (columns b) in
    {| columns := labels;
       rows := map (fun r => map (cell_at (columns a) r) labels) (rows a)
               ++ map (fun r => map (cell_at (columns b) r) labels) (rows b) |}.

(** Column dtype [object]: text or [None] somewhere, integers mixed with
    timestamps, or no cell at all. *)
Definition is_object (cells : list cell) : bool :=
  match cells with
  | [] => true
  | _ =>
      existsb (fun c => match c with CStr _ | CNone => true | _ => false end) cells
      || (existsb (fun c => match c with CInt _ | CFloat _ => true | _ => false end) cells
          && existsb (fun c => match c with CTime _ => true | _ => false end) cells)
  end.

(** The cells of the column at position [i]. *)
Definition column (df : DataFrame) (i : nat) : list cell :=
  map (fun r => nth i r CNaN) (rows df).

(** [df.select_dtypes(include=['object']).columns]: the label of every
    column of dtype [object], column by column (a label that names two
    columns is listed for each that qualifies). *)
Definition object_labels (df : DataFrame) : list string :=
  map snd
    (filter (fun il => is_object (column df (fst il)))
       (combine (seq 0 (List.length (columns df))) (columns df))).

(** [series.str.strip()] on one cell: what is not text becomes [NaN]. *)
Definition str_strip (c : cell) : cell :=
  match c with
  | CStr s => CStr (Py.strip s)
  | _ => CNaN
  end.

(** The date-like test of [update_table], line 260. *)
Definition date_like (label : string) : bool :=
  Py.contains "date" (Py.lower label) || Py.contains "dob" (Py.lower label).

(** [series.duplicated()]: every occurrence after the first. *)
Fixpoint duplicated (seen : list string) (xs : list string) : list bool :=
  match xs with
  | [] => []
  | x :: rest => Py.mem x seen :: duplicated (x :: seen) rest
  end.

(** [series.duplicated(keep=False)]: every value that occurs twice or more. *)
Definition duplicated_all (xs : list string) : list bool :=
  map (fun x => Nat.ltb 1 (Py.count x xs)) xs.

(** [df[mask]] for a mask given as a list aligned with the rows. *)
Fixpoint mask_rows (mask : list bool) (rs : list (list cell)) : list (list cell) :=
  match mask, rs with
  | m :: mask', r :: rs' => if m then r :: mask_rows mask' rs' else mask_rows mask' rs'
  | _, _ => []
  end.

Section Dates.
Context `{Pandas}.

(** [series.astype(str)] on one cell. *)
Definition astype_str (c : cell) : string :=
  match c with
  | CStr s => s
  | CInt z => Py.str_of_int z
  | CFloat repr => repr
  | CTime ns => strftime ns
  | CNaN => "nan"
  | CNone => "None"
  | CNaT => "NaT"
  end.

(** [pd.to_datetime(series, errors='coerce')] as the cells of a column. *)
Definition datetimes (cells : list cell) : list cell :=
  map (fun t => match t with Some ns => CTime ns | None => CNaT end)
      (to_datetime cells).

End Dates.

(** ** The file, the screen and the effects of the script

    One path is in play during a call: [disk] is what lies at [file_path].
    [Sheet df] is a workbook that [pd.read_excel] parses to [df].
    [df.to_excel] replaces the file by the workbook of [df], which
    [pd.read_excel] parses to [read_back df]; the write itself is taken to
    succeed (the path is writable).  [screen] collects what the script
    shows, oldest first. *)

Inductive file : Type :=
| Missing
| Corrupt
| Sheet (df : DataFrame).

Inductive message : Type :=
| FileNotFound          (* get_table_data, line 46 *)
| ReadError             (* get_table_data, line 49 *)
| NoFileToDisplay       (* line 57 *)
| EmptyOrUnreadable     (* line 60 *)
| EditHint              (* line 62 *)
| EditorFailed          (* line 71 *)
| EditorHint            (* line 72 *)
| NoChanges             (* line 77 *)
| PkUndefined           (* lines 81, 133, 279 *)
| SchemaError           (* lines 88, 121, 289: the key column is absent *)
| EmptyKeyError         (* lines 93, 161, 208 *)
| DuplicateKeyError     (* lines 100, 165, 212 *)
| Saved                 (* line 106 *)
| WriteError            (* line 108 *)
| CheckFailed           (* line 125 *)
| FillRequired          (* lines 157, 205 *)
| AppendReadFailed      (* line 252 *)
| OverwriteWithNewOnly  (* line 253 *)
| CreatingFile          (* line 257 *)
| RecordAdded           (* line 264 *)
| AddFailed             (* line 267 *)
| Traceback             (* lines 269, 306 *)
| DeleteNoFile          (* line 274 *)
| Removed               (* line 297 *)
| NotFoundError         (* line 300 *)
| DeleteFailed          (* line 304 *)
| AddRecordHeading      (* line 130 *)
| FormIntro             (* lines 140, 185 *)
| NoAddForm.            (* line 233 *)

Inductive widget : Type :=
| st_error_w (m : message)
| st_warning_w (m : message)
| st_info_w (m : message)
| st_success_w (m : message)
| st_subheader_w (m : message)
| st_dataframe_w (df : DataFrame)
| st_rerun_w.

Inductive exn : Type :=
| NameError (name : string)
| KeyError (label : string)
| AttributeError
| ValueError
| FileNotFoundError
| BadWorkbook.

Record world : Type := { disk : file; screen : list widget }.

Inductive outcome (A : Type) : Type :=
| Returned (a : A)
| Raised (e : exn).
Arguments Returned {A} a.
Arguments Raised {A} e.

Definition M (A : Type) : Type := world -> outcome A * world.

Definition ret {A} (a : A) : M A := fun w => (Returned a, w).

Definition bind {A B} (c : M A) (k : A -> M B) : M B :=
  fun w =>
    match c w with
    | (Returned a, w') => k a w'
    | (Raised e, w') => (Raised e, w')
    end.

Definition raise {A} (e : exn) : M A := fun w => (Raised e, w).

(** [try: body / except Exception as e: handler e] *)
Definition try_except {A} (body : M A) (handler : exn -> M A) : M A :=
  fun w =>
    match body w with
    | (Returned a, w') => (Returned a, w')
    | (Raised e, w') => handler e w'
    end.

Declare Scope py_scope.
Delimit Scope py_scope with py.
Notation "x <- c ;; k" := (bind c (fun x => k))
  (at level 61, c at next level, right associativity) : py_scope.
Notation "c ;; k" := (bind c (fun _ => k))
  (at level 61, right associativity) : py_scope.
Local Open Scope py_scope.

Definition show (x : widget) : M unit :=
  fun w => (Returned tt, {| disk := disk w; screen := screen w ++ [x] |}).

Definition st_error (m : message) : M unit := show (st_error_w m).
Definition st_warning (m : message) : M unit := show (st_warning_w m).
Definition st_info (m : message) : M unit := show (st_info_w m).
Definition st_success (m : message) : M unit := show (st_success_w m).
Definition st_subheader (m : message) : M unit := show (st_subheader_w m).
Definition st_dataframe (df : DataFrame) : M unit := show (st_dataframe_w df).
Definition st_rerun : M unit := show st_rerun_w.

(** [os.path.exists(file_path)] *)
Definition path_exists : M bool :=
  fun w => (Returned (match disk w with Missing => false | _ => true end), w).

(** [pd.read_excel(file_path, engine='openpyxl')] *)
Definition read_excel : M DataFrame :=
  fun w =>
    match disk w with
    | Sheet df => (Returned df, w)
    | Corrupt => (Raised BadWorkbook, w)
    | Missing => (Raised FileNotFoundError, w)
    end.

(** The workbook [df.to_excel] leaves at [file_path]. *)
Definition written `{Pandas} (df : DataFrame) : file := Sheet (read_back df).

(** [df.to_excel(file_path, index=False, engine='openpyxl')] *)
Definition to_excel `{Pandas} (df : DataFrame) : M unit :=
  fun w => (Returned tt, {| disk := written df; screen := screen w |}).

(** [df.columns = df.columns.str.strip().str.lower()].  The labels of a
    frame without columns (an empty sheet, [pd.DataFrame()]) are a
    [RangeIndex], on which [.str] raises [AttributeError]. *)
Definition normalize_columns (df : DataFrame) : M DataFrame :=
  match columns df with
  | [] => raise AttributeError
  | labels => ret (with_columns df (normalize_labels labels))
  end.

(** A [for] loop that threads the value its body rebinds. *)
Fixpoint for_each {A S} (xs : list A) (body : S -> A -> M S) (s : S) : M S :=
  match xs with
  | [] => ret s
  | x :: rest => s' <- body s x ;; for_each rest body s'
  end.

(** Lines 26-29. *)
Definition PRIMARY_KEYS (table_name : string) : option string :=
  if String.eqb table_name "students" then Some "student_id"
  else if String.eqb table_name "college_admin_data" then Some "admin_id"
  else None.

(** ** Values of the form widgets and the names bound to them *)

Inductive pyval : Type :=
| PStr (s : string)
| PInt (z : Z)
| PFloat (repr : string)
| PDate (ns : Z).

(** [isinstance(v, (int, float, pd.Timestamp, datetime))]: a
    [datetime.date] is none of these. *)
Definition is_number_or_datetime (v : pyval) : bool :=
  match v with PInt _ | PFloat _ => true | _ => false end.

(** Truth value of [str(v).strip()]; the text of a date is never blank. *)
Definition str_strip_truthy (v : pyval) : bool :=
  match v with
  | PStr s => Py.nonempty (Py.strip s)
  | PInt _ | PFloat _ | PDate _ => true
  end.

(** Truth value of [v]. *)
Definition truthy (v : pyval) : bool :=
  match v with
  | PStr s => Py.nonempty s
  | PInt z => negb (Z.eqb z 0)
  | PFloat repr => negb (String.eqb repr "0.0") && negb (String.eqb repr "-0.0")
  | PDate _ => true
  end.

Definition scope : Type := list (string * pyval).

Fixpoint lookup_name (names : scope) (n : string) : option pyval :=
  match names with
  | [] => None
  | (n', v) :: rest => if String.eqb n n' then Some v else lookup_name rest n
  end.

(** Reading a variable: [NameError] when nothing binds the name. *)
Definition load_name (names : scope) (n : string) : M pyval :=
  match lookup_name names n with
  | Some v => ret v
  | None => raise (NameError n)
  end.

(** A list display [[a, b, ...]] of variables, evaluated left to right. *)
Fixpoint load_names (names : scope) (ns : list string) : M (list pyval) :=
  match ns with
  | [] => ret []
  | n :: rest =>
      v <- load_name names n ;;
      vs <- load_names names rest ;;
      ret (v :: vs)
  end.

(** [str(v).strip() if v else None] *)
Definition strip_or_none (s : string) : cell :=
  if Py.nonempty s then CStr (Py.strip s) else CNone.

Module Student.
(** The widgets of the student form, lines 141-150, under the names the
    script binds them to. *)
Record form : Type := {
  student_id : string;
  student_Name : string;
  student_class : Z;
  gender : string;
  dob : Z;
  email : string;
  phone : string;
  address : string;
  admission_date : Z;
  fee_status : string
}.

Definition locals (f : form) : scope :=
  [ ("student_id", PStr (student_id f));
    ("student_Name", PStr (student_Name f));
    ("student_class", PInt (student_class f));
    ("gender", PStr (gender f));
    ("dob", PDate (dob f));
    ("email", PStr (email f));
    ("phone", PStr (phone f));
    ("address", PStr (address f));
    ("admission_date", PDate (admission_date f));
    ("fee_status", PStr (fee_status f)) ].

(** Lines 167-179. *)
Definition new_record (f : form) (last_updated : string) : record :=
  [ ("student_id", CStr (Py.strip (student_id f)));
    ("studentName", CStr (Py.strip (student_Name f)));
    ("class", CInt (student_class f));
    ("gender", CStr (gender f));
    ("dob", CTime (dob f));
    ("email", CStr (Py.strip (email f)));
    ("phone", strip_or_none (phone f));
    ("address", strip_or_none (address f));
    ("admission_date", CTime (admission_date f));
    ("fee_status", CStr (fee_status f));
    ("last_updated", CStr last_updated) ].

(** Some required text field of the form was left empty (the class and the
    two dates always hold a value). *)
Definition some_required_empty (f : form) : bool :=
  existsb (fun s => negb (Py.nonempty s))
    [student_id f; student_Name f; gender f; email f; fee_status f].
End Student.

Module Admin.
(** The widgets of the staff form, lines 186-198. *)
Record form : Type := {
  admin_id : string;
  full_name : string;
  email : string;
  phone_number : string;
  gender : string;
  dob : Z;
  address : string;
  position : string;
  department : string;
  date_joined : Z;
  employment_status : string;
  salary : string;
  work_shift : string
}.

Definition locals (f : form) : scope :=
  [ ("admin_id", PStr (admin_id f));
    ("full_name", PStr (full_name f));
    ("email", PStr (email f));
    ("phone_number", PStr (phone_number f));
    ("gender", PStr (gender f));
    ("dob", PDate (dob f));
    ("address", PStr (address f));
    ("position", PStr (position f));
    ("department", PStr (department f));
    ("date_joined", PDate (date_joined f));
    ("employment_status", PStr (employment_status f));
    ("salary", PFloat (salary f));
    ("work_shift", PStr (work_shift f)) ].

(** Lines 214-229. *)
Definition new_record (f : form) (last_updated : string) : record :=
  [ ("admin_id", CStr (Py.strip (admin_id f)));
    ("full_name", CStr (Py.strip (full_name f)));
    ("email", CStr (Py.strip (email f)));
    ("phone_number", strip_or_none (phone_number f));
    ("gender", CStr (gender f));
    ("date_of_birth", CTime (dob f));
    ("address", strip_or_none (address f));
    ("position", CStr (Py.strip (position f)));
    ("department", CStr (Py.strip (department f)));
    ("date_joined", CTime (date_joined f));
    ("employment_status", CStr (employment_status f));
    ("salary", CFloat (salary f));
    ("work_shift", CStr (work_shift f));
    ("last_updated", CStr last_updated) ].
End Admin.

(** What the user did in the "Add New Record" tab: the content of the form
    that is shown and whether its submit button was pressed. *)
Record add_input : Type := {
  student_form : Student.form;
  admin_form : Admin.form;
  submitted : bool
}.

(** ** The script *)

Section Script.
Context `{Pandas}.

(** Lines 41-43: [df[col] = df[col].str.strip()] for an object column. *)
Definition strip_object_column (df : DataFrame) (col : string) : M DataFrame :=
  match getitem df col with
  | Series cells =>
      if is_object cells then ret (assign df col str_strip) else ret df
  | SubFrame => raise AttributeError
  | NoColumn => raise (KeyError col)
  end.

(** Lines 34-50. *)
Definition get_table_data (table_name : string) : M DataFrame :=
  try_except
    (ex <- path_exists ;;
     if ex then
       df <- read_excel ;;
       df <- normalize_columns df ;;
       df <- for_each (object_labels df) strip_object_column df ;;
       ret df
     else
       st_warning FileNotFound ;;
       ret empty_frame)
    (fun _ =>
       st_error ReadError ;;
       ret empty_frame).

(** The test of lines 92 and 94 on one key cell. *)
Definition invalid_key (c : cell) : bool :=
  isnull c
  || String.eqb (astype_str c) ""
  || String.eqb (Py.lower (astype_str c)) "nan"
  || String.eqb (Py.lower (astype_str c)) "nat".

(** Lines 52-108.  [data_editor df] is the frame the grid hands back for
    [df] ([None] when the widget raises); [save_clicked] is the button. *)
Definition display_data_editor (table_name : string)
    (data_editor : DataFrame -> option DataFrame) (save_clicked : bool) : M unit :=
  df <- get_table_data table_name ;;
  ex <- path_exists ;;
  if df_empty df && negb ex then
    st_warning NoFileToDisplay
  else
    (if df_empty df && ex then st_info EmptyOrUnreadable else ret tt) ;;
    st_info EditHint ;;
    match data_editor df with
    | None =>
        st_error EditorFailed ;;
        st_info EditorHint
    | Some edited_df =>
        if save_clicked then
          if df_equals edited_df df then
            st_info NoChanges
          else
            match PRIMARY_KEYS table_name with
            | None => st_error PkUndefined
            | Some pk_col =>
                edited_df <- normalize_columns edited_df ;;
                if negb (Py.mem pk_col (columns edited_df)) then
                  st_error SchemaError
                else
                  match getitem edited_df pk_col with
                  | Series pk =>
                      let pk_series_str := map astype_str pk in
                      if existsb invalid_key pk then
                        st_error EmptyKeyError ;;
                        let invalid_rows :=
                          {| columns := columns edited_df;
                             rows := mask_rows (map invalid_key pk) (rows edited_df) |} in
                        if negb (df_empty invalid_rows) then st_dataframe invalid_rows
                        else ret tt
                      else if existsb (fun b => b) (duplicated [] pk_series_str) then
                        st_error DuplicateKeyError ;;
                        st_dataframe
                          {| columns := columns edited_df;
                             rows := mask_rows (duplicated_all pk_series_str) (rows edited_df) |}
                      else
                        try_except
                          (to_excel edited_df ;;
                           st_success Saved)
                          (fun _ => st_error WriteError)
                  | SubFrame => raise ValueError
                  | NoColumn => raise (KeyError pk_col)
                  end
            end
        else ret tt
    end.

(** The two sides of the membership test of line 123. *)
Definition normalize_key (s : string) : string := Py.lower (Py.strip s).

(** Lines 110-126. *)
Definition check_pk_exists (pk_column_name pk_value : string) : M bool :=
  ex <- path_exists ;;
  if negb ex then ret false
  else
    try_except
      (df <- read_excel ;;
       df <- normalize_columns df ;;
       let pk_column_name := Py.lower pk_column_name in
       if negb (Py.mem pk_column_name (columns df)) then
         st_warning SchemaError ;;
         ret false
       else
         match getitem df pk_column_name with
         | Series cells =>
             ret (Py.mem (normalize_key pk_value)
                         (map (fun c => normalize_key (astype_str c)) cells))
         | SubFrame => raise AttributeError
         | NoColumn => raise (KeyError pk_column_name)
         end)
      (fun _ =>
         st_error CheckFailed ;;
         ret false).

(** [df[labels]]: [KeyError] on a label the frame does not have. *)
Definition getitem_list (df : DataFrame) (labels : list string) : M DataFrame :=
  match find (fun l => negb (Py.mem l (columns df))) labels with
  | Some l => raise (KeyError l)
  | None => ret (take_columns df labels)
  end.

(** Lines 246-248: give the new row every column of the table it lacks. *)
Definition fill_missing (labels : list string) (new_df_row : DataFrame) : DataFrame :=
  fold_left
    (fun row col => if Py.mem col (columns row) then row else add_column row col CNaN)
    labels new_df_row.

(** Lines 259-261.  [pd.to_datetime] takes the column as a whole; it
    refuses a frame with repeated labels, which is what [df[col]] is when
    [col] labels several columns. *)
Definition coerce_date_columns (df : DataFrame) : M DataFrame :=
  for_each (columns df)
    (fun df col =>
       if date_like col then
         match getitem df col with
         | Series cells => ret (set_column df col (datetimes cells))
         | SubFrame => raise ValueError
         | NoColumn => raise (KeyError col)
         end
       else ret df)
    df.

(** Lines 235-269. *)
Definition update_table (table_name : string) (new_record : record) : M unit :=
  try_except
    (let new_df_row := frame_of_record new_record in
     ex <- path_exists ;;
     df <- (if ex then
              try_except
                (df <- read_excel ;;
                 df <- normalize_columns df ;;
                 let new_df_row := fill_missing (columns df) new_df_row in
                 new_df_row <- getitem_list new_df_row (columns df) ;;
                 ret (pd_concat df new_df_row))
                (fun _ =>
                   st_error AppendReadFailed ;;
                   st_info OverwriteWithNewOnly ;;
                   ret new_df_row)
            else
              st_info CreatingFile ;;
              ret new_df_row) ;;
     df <- coerce_date_columns df ;;
     to_excel df ;;
     st_success RecordAdded)
    (fun _ =>
       st_error AddFailed ;;
       st_error Traceback).

(** Lines 271-307. *)
Definition delete_record (table_name : string) (record_id_to_delete : string) : M bool :=
  ex <- path_exists ;;
  if negb ex then
    st_error DeleteNoFile ;;
    ret false
  else
    match PRIMARY_KEYS table_name with
    | None =>
        st_error PkUndefined ;;
        ret false
    | Some pk_column =>
        try_except
          (df <- read_excel ;;
           df <- normalize_columns df ;;
           let pk_column := Py.lower pk_column in
           if negb (Py.mem pk_column (columns df)) then
             st_error SchemaError ;;
             ret false
           else
             match getitem df pk_column with
             | Series _ =>
                 let original_row_count := List.length (rows df) in
                 let df_filtered :=
                   filter_rows df pk_column
                     (fun c => negb (String.eqb (astype_str c) record_id_to_delete)) in
                 if Nat.ltb (List.length (rows df_filtered)) original_row_count then
                   to_excel df_filtered ;;
                   st_success Removed ;;
                   ret true
                 else
                   st_warning NotFoundError ;;
                   ret false
             | SubFrame =>
                 (* the mask is then a frame: [df[mask]] blanks cells and
                    keeps every row *)
                 st_warning NotFoundError ;;
                 ret false
             | NoColumn => raise (KeyError pk_column)
             end)
          (fun _ =>
             st_error DeleteFailed ;;
             st_error Traceback ;;
             ret false)
    end.

(** Lines 153-181: the student form once submitted. *)
Definition add_student (pk_column table_name : string)
    (f : Student.form) (last_updated : string) : M unit :=
  required_fields <-
    load_names (Student.locals f)
      ["student_id"; "student_name"; "student_class"; "gender"; "dob"; "email";
       "admission_date"; "fee_status"] ;;
  let after_required_check : M unit :=
    if negb (Py.nonempty (Py.strip (Student.student_id f))) then
      st_error EmptyKeyError
    else
      found <- check_pk_exists pk_column (Student.student_id f) ;;
      if found then st_error DuplicateKeyError
      else
        update_table table_name (Student.new_record f last_updated) ;;
        st_rerun in
  if negb (forallb str_strip_truthy
             (filter (fun v => negb (is_number_or_datetime v)) required_fields))
  then
    if negb (forallb truthy required_fields) then st_error FillRequired
    else after_required_check
  else after_required_check.

(** Lines 201-231: the staff form once submitted. *)
Definition add_admin (pk_column table_name : string)
    (f : Admin.form) (last_updated : string) : M unit :=
  required <-
    load_names (Admin.locals f)
      ["admin_id"; "full_name"; "email"; "position"; "department"; "date_joined"] ;;
  let after_required_check : M unit :=
    if negb (Py.nonempty (Py.strip (Admin.admin_id f))) then
      st_error EmptyKeyError
    else
      found <- check_pk_exists pk_column (Admin.admin_id f) ;;
      if found then st_error DuplicateKeyError
      else
        update_table table_name (Admin.new_record f last_updated) ;;
        st_rerun in
  if negb (forallb str_strip_truthy
             (filter (fun v => match v with PStr _ => true | _ => false end) required))
  then
    if negb (forallb truthy required) then st_error FillRequired
    else after_required_check
  else after_required_check.

(** Lines 128-233.  [last_updated] is the clock reading of line 136. *)
Definition add_new_record_form (table_name : string) (ui : add_input)
    (last_updated : string) : M unit :=
  st_subheader AddRecordHeading ;;
  match PRIMARY_KEYS table_name with
  | None => st_error PkUndefined
  | Some pk_column =>
      if String.eqb table_name "students" then
        st_info FormIntro ;;
        if submitted ui then add_student pk_column table_name (student_form ui) last_updated
        else ret tt
      else if String.eqb table_name "college_admin_data" then
        st_info FormIntro ;;
        if submitted ui then add_admin pk_column table_name (admin_form ui) last_updated
        else ret tt
      else st_warning NoAddForm
  end.

(** [series.unique()] on text: first occurrences, in order. *)
Fixpoint unique (seen : list string) (xs : list string) : list string :=
  match xs with
  | [] => []
  | x :: rest => if Py.mem x seen then unique seen rest else x :: unique (x :: seen) rest
  end.

(** Lines 380-393 of [show_main_app]: the keys the "Delete Record" tab
    offers, before they are sorted for display. *)
Definition valid_ids_to_delete (table_name : string) : M (list string) :=
  df_delete <- get_table_data table_name ;;
  match PRIMARY_KEYS table_name with
  | Some pk_column_delete =>
      if negb (df_empty df_delete) then
        match find (fun col => String.eqb (Py.lower col) (Py.lower pk_column_delete))
                   (columns df_delete) with
        | Some actual_pk_column =>
            match getitem df_delete actual_pk_column with
            | Series cells =>
                let ids := unique [] (map astype_str (filter (fun c => negb (isnull c)) cells)) in
                ret (filter (fun i => Py.nonempty (Py.strip i)
                                      && negb (Py.mem (Py.lower i) ["nan"; "nat"])) ids)
            | SubFrame => raise AttributeError
            | NoColumn => raise (KeyError actual_pk_column)
            end
        | None => ret []
        end
      else ret []
  | None => ret []
  end.

End Script.

(** ** Characterisations used by the statements *)

Section Views.
Context `{Pandas}.

(** The key column of a stored table as the script compares it: the text
    of each cell under the (normalised) label [pk]; empty when no single
    column carries the label. *)
Definition key_strings (pk : string) (T : DataFrame) : list string :=
  match getitem (with_columns T (normalize_labels (columns T))) pk with
  | Series cells => map astype_str cells
  | _ => []
  end.

(** The cells under a label, row by row ([df[l]] when one column carries
    the label). *)
Definition column_of (df : DataFrame) (l : string) : list cell :=
  map (fun r => cell_at (columns df) r l) (rows df).

(** Date coercion of a whole frame: in row [j], the cell under a date-like
    label [l] becomes the [j]-th cell of [pd.to_datetime] applied to the
    column [l]; the other cells stay. *)
Definition coerced (df : DataFrame) : DataFrame :=
  {| columns := columns df;
     rows := map_indexed
               (fun j => map_labelled
                           (fun l c => if date_like l
                                       then nth j (datetimes (column_of df l)) c
                                       else c)
                           (columns df))
               0 (rows df) |}.

(** The same for a frame of one row, where each date-like cell is a column
    of its own. *)
Definition coerce_row (labels : list string) (row : list cell) : list cell :=
  map_labelled (fun l c => if date_like l then hd c (datetimes [c]) else c) labels row.

(** A date/time cell: a timestamp or [NaT]. *)
Definition is_datetime (c : cell) : bool :=
  match c with CTime _ | CNaT => true | _ => false end.

(** The workbook written from [F] is read back with the header and the
    keys that were written: [pd.read_excel] has not typed the cells of the
    key column into something that reads differently (as it does for the
    text [007], which comes back as the number [7], or for [NA], which
    comes back as a null). *)
Definition keys_survive (pk : string) (F : DataFrame) : Prop :=
  columns (read_back F) = columns F
  /\ key_strings pk (read_back F) = key_strings pk F.

End Views.

(** The cell a record contributes under a label: its own, or [NaN]. *)
Fixpoint record_get (r : record) (l : string) : cell :=
  match r with
  | [] => CNaN
  | (l', c) :: rest => if String.eqb l l' then c else record_get rest l
  end.

(** The table [update_table] gets out of the file (lines 241-243): none
    when the file is missing or unreadable, and none when the sheet has no
    column, since line 243 then raises. *)
Definition readable (d : file) : option DataFrame :=
  match d with
  | Sheet T => match columns T with [] => None | _ => Some T end
  | _ => None
  end.

(** The frame [update_table] has in hand before the date coercion. *)
Definition appended (d : file) (r : record) : DataFrame :=
  match readable d with
  | Some T =>
      let labels := normalize_labels (columns T) in
      {| columns := labels; rows := rows T ++ [map (record_get r) labels] |}
  | None => frame_of_record r
  end.

(** A one-row frame that holds, under every label, what the record holds. *)
Definition represents (fr : DataFrame) (r : record) : Prop :=
  exists row,
    rows fr = [row]
    /\ List.length row = List.length (columns fr)
    /\ forall l, cell_at (columns fr) row l = record_get r l.

(** No date-like label names two columns. *)
Definition dates_unambiguous (labels : list string) : Prop :=
  forall l, In l labels -> date_like l = true -> Py.count l labels = 1.

(** What [update_table] shows on a successful run. *)
Definition add_messages (d : file) : list widget :=
  match d, readable d with
  | Missing, _ => [st_info_w CreatingFile; st_success_w RecordAdded]
  | _, Some _ => [st_success_w RecordAdded]
  | _, None => [st_error_w AppendReadFailed; st_info_w OverwriteWithNewOnly;
                st_success_w RecordAdded]
  end.

(** ** A calendar and a reader for the examples

    An instance of [Pandas] for the sample tables.  Its [to_datetime]
    reads text of the shapes [YYYY-MM-DD] and [YYYY-MM-DD HH:MM:SS], the
    shape of the first value of the column deciding which, takes an
    integer as nanoseconds, and its [strftime] prints
    [YYYY-MM-DD HH:MM:SS].  Its [read_back] types a column from its cells:
    a null and the texts pandas lists as missing values come back as
    [NaN]; a column of whole numbers (integers, floats such as [7.0] and
    text of digits such as [007]) comes back as integers, or as floats
    when it has a null; anything else comes back as written, and labels
    that repeat come back numbered. *)

Module Calendar.
Local Open Scope Z_scope.

Definition days_from_civil (y m d : Z) : Z :=
  let y' := if m <=? 2 then y - 1 else y in
  let era := y' / 400 in
  let yoe := y' - era * 400 in
  let doy := (153 * (if 2 <? m then m - 3 else m + 9) + 2) / 5 + d - 1 in
  let doe := yoe * 365 + yoe / 4 - yoe / 100 + doy in
  era * 146097 + doe - 719468.

Definition civil_from_days (z : Z) : Z * Z * Z :=
  let z := z + 719468 in
  let era := z / 146097 in
  let doe := z - era * 146097 in
  let yoe := (doe - doe / 1460 + doe / 36524 - doe / 146096) / 365 in
  let doy := doe - (365 * yoe + yoe / 4 - yoe / 100) in
  let mp := (5 * doy + 2) / 153 in
  let d := doy - (153 * mp + 2) / 5 + 1 in
  let m := if mp <? 10 then mp + 3 else mp - 9 in
  (yoe + era * 400 + (if m <=? 2 then 1 else 0), m, d).

Definition digit (c : ascii) : option Z :=
  let n := Z.of_N (N_of_ascii c) in
  if (48 <=? n) && (n <=? 57) then Some (n - 48) else None.

Fixpoint number (acc : Z) (cs : list ascii) : option Z :=
  match cs with
  | [] => Some acc
  | c :: rest =>
      match digit c with
      | Some v => number (10 * acc + v) rest
      | None => None
      end
  end.

Definition ns_per_day : Z := 86400 * 1000000000.

Definition parse_date (cs : list ascii) : option Z :=
  match cs with
  | [y1; y2; y3; y4; "-"%char; m1; m2; "-"%char; d1; d2] =>
      match number 0 [y1; y2; y3; y4], number 0 [m1; m2], number 0 [d1; d2] with
      | Some y, Some m, Some d =>
          let days := days_from_civil y m d in
          match civil_from_days days with
          | (y', m', d') =>
              if (y' =? y) && (m' =? m) && (d' =? d) then Some (days * ns_per_day)
              else None
          end
      | _, _, _ => None
      end
  | _ => None
  end.

Definition parse_time (cs : list ascii) : option Z :=
  match cs with
  | [h1; h2; ":"%char; m1; m2; ":"%char; s1; s2] =>
      match number 0 [h1; h2], number 0 [m1; m2], number 0 [s1; s2] with
      | Some h, Some m, Some s =>
          if (h <? 24) && (m <? 60) && (s <? 60)
          then Some ((h * 3600 + m * 60 + s) * 1000000000) else None
      | _, _, _ => None
      end
  | _ => None
  end.

Definition parse (s : string) : option Z :=
  let cs := list_ascii_of_string s in
  match skipn 10 cs with
  | [] => parse_date cs
  | " "%char :: time =>
      match parse_date (firstn 10 cs), parse_time time with
      | Some d, Some t => Some (d + t)
      | _, _ => None
      end
  | _ => None
  end.

Definition pad (width : nat) (z : Z) : string :=
  let s := Py.str_of_int z in
  string_of_list_ascii (repeat "0"%char (width - String.length s)) ++ s.

Definition print (ns : Z) : string :=
  let days := ns / ns_per_day in
  let secs := (ns - days * ns_per_day) / 1000000000 in
  match civil_from_days days with
  | (y, m, d) =>
      pad 4 y ++ "-" ++ pad 2 m ++ "-" ++ pad 2 d ++ " "
      ++ pad 2 (secs / 3600) ++ ":" ++ pad 2 (secs / 60 mod 60) ++ ":" ++ pad 2 (secs mod 60)
  end.

Definition read (c : cell) : option Z :=
  match c with
  | CStr s => parse s
  | CInt z => Some z
  | CTime ns => Some ns
  | _ => None
  end.

(** The format of a column: the shape of its first value, when that is
    text that reads as a date. *)
Fixpoint guess_format (cells : list cell) : option nat :=
  match cells with
  | [] => None
  | CStr s :: _ =>
      match parse s with
      | Some _ => Some (String.length s)
      | None => None
      end
  | (CNaN | CNone | CNaT) :: rest => guess_format rest
  | _ :: _ => None
  end.

Definition read_column (cells : list cell) : list (option Z) :=
  let format := guess_format cells in
  map (fun c =>
         match c, format with
         | CStr s, Some n => if Nat.eqb (String.length s) n then parse s else None
         | _, _ => read c
         end)
      cells.

End Calendar.

Module Reader.

(** The texts [pd.read_excel] takes for a missing value. *)
Definition na_values : list string :=
  [""; "#N/A"; "#N/A N/A"; "#NA"; "-1.#IND"; "-1.#QNAN"; "-NaN"; "-nan";
   "1.#IND"; "1.#QNAN"; "<NA>"; "N/A"; "NA"; "NULL"; "NaN"; "None"; "n/a";
   "nan"; "null"].

Definition blank (c : cell) : bool :=
  match c with
  | CNaN | CNone | CNaT => true
  | CStr s => Py.mem s na_values
  | _ => false
  end.

Definition digits (s : string) : option Z :=
  match s with
  | EmptyString => None
  | _ => Calendar.number 0 (list_ascii_of_string s)
  end.

(** The whole number a cell holds: an integer, a float printed [d.0], or
    text of digits (white space around it set aside). *)
Definition whole (c : cell) : option Z :=
  match c with
  | CInt z => Some z
  | CFloat repr =>
      let n := String.length repr in
      if String.eqb (substring (n - 2) 2 repr) ".0"
      then digits (substring 0 (n - 2) repr) else None
  | CStr s => digits (Py.strip s)
  | _ => None
  end.

Definition is_whole (c : cell) : bool :=
  match whole c with Some _ => true | None => false end.

Definition is_number (c : cell) : bool :=
  match c with CFloat _ => true | _ => is_whole c end.

Definition is_time (c : cell) : bool :=
  match c with CTime _ => true | _ => false end.

Definition as_float (c : cell) : cell :=
  match c, whole c with
  | CFloat repr, _ => CFloat repr
  | _, Some z => CFloat (Py.str_of_int z ++ ".0")%string
  | _, None => CNaN
  end.

(** One column, from the cells written to the cells read. *)
Definition retype (cells : list cell) : list cell :=
  let filled := filter (fun c => negb (blank c)) cells in
  match filled with
  | [] => map (fun _ => CNaN) cells
  | _ =>
      if forallb is_whole cells then
        map (fun c => match whole c with Some z => CInt z | None => c end) cells
      else if forallb is_number filled then
        map (fun c => if blank c then CNaN else as_float c) cells
      else if forallb is_time filled then
        map (fun c => if blank c then CNaT else c) cells
      else
        map (fun c => if blank c then CNaN else c) cells
  end.

(** Labels as read: the second column of a label comes back as [label.1],
    the third as [label.2]. *)
Fixpoint mangle (seen : list string) (labels : list string) : list string :=
  match labels with
  | [] => []
  | l :: rest =>
      (match Py.count l seen with
       | 0 => l
       | n => (l ++ "." ++ Py.str_of_int (Z.of_nat n))%string
       end) :: mangle (l :: seen) rest
  end.

Definition read_back (F : DataFrame) : DataFrame :=
  match columns F with
  | [] => empty_frame
  | labels =>
      let cols :=
        map (fun i => retype (column F i)) (seq 0 (List.length labels)) in
      {| columns := mangle [] labels;
         rows := map (fun j => map (fun col => nth j col CNaN) cols)
                     (seq 0 (List.length (rows F))) |}
  end.

End Reader.

#[export] Instance calendar : Pandas :=
  {| strftime := Calendar.print;
     to_datetime := Calendar.read_column;
     to_datetime_length := fun cells => length_map _ cells;
     read_back := Reader.read_back |}.

(** When a record's key survives [update_table]: a readable table must
    have exactly one key column and no ambiguous date column; otherwise the
    record alone becomes the table, and its own labels must do. *)
Definition keeps_key (pk : string) (d : file) (r : record) : Prop :=
  match readable d with
  | Some T =>
      Py.count pk (normalize_labels (columns T)) = 1
      /\ dates_unambiguous (normalize_labels (columns T))
  | None =>
      NoDup (map fst r)
      /\ Py.count pk (normalize_labels (map fst r)) = 1
  end.

(** ** Sample data *)

Module Sample.

Definition staff : Admin.form :=
  {| Admin.admin_id := "A1"; Admin.full_name := "Bo Li"; Admin.email := "bo@school.org";
     Admin.phone_number := ""; Admin.gender := "Other"; Admin.dob := 0;
     Admin.address := ""; Admin.position := "Clerk"; Admin.department := "Office";
     Admin.date_joined := 0; Admin.employment_status := "Active";
     Admin.salary := "1500.0"; Admin.work_shift := "Morning" |}.

Definition pupil : Student.form :=
  {| Student.student_id := "S1"; Student.student_Name := ""; Student.student_class := 3;
     Student.gender := "Female"; Student.dob := 0; Student.email := "ann@school.org";
     Student.phone := ""; Student.address := ""; Student.admission_date := 0;
     Student.fee_status := "Paid" |}.

Definition clock : string := "2024-01-01 10:00:00".

Definition on_disk (d : file) : world := {| disk := d; screen := [] |}.

(** A staff sheet whose header lacks [admin_id]. *)
Definition staff_without_key : DataFrame :=
  {| columns := ["Full_Name"; "Email"];
     rows := [[CStr "Ann Wu"; CStr "ann@school.org"]] |}.

Definition staff_with_key : DataFrame :=
  {| columns := ["Admin_ID"; "Full_Name"; "Date_Joined"];
     rows := [[CStr "A0"; CStr "Ann Wu"; CStr "2020-09-01"]] |}.

Definition one_student : DataFrame :=
  {| columns := ["student_id"]; rows := [[CStr "S1"]] |}.

Definition short_record : record :=
  [("student_id", CStr "S2"); ("email", CStr "s2@school.org"); ("dob", CStr "n/a")].

(** A key with white space around it, in a column that holds text. *)
Definition padded_key : DataFrame :=
  {| columns := ["student_id"]; rows := [[CStr " 7 "]; [CStr "A8"]] |}.

Definition two_students : DataFrame :=
  {| columns := ["student_id"]; rows := [[CStr "A1"]; [CStr "B2"]] |}.

Definition case_variants : DataFrame :=
  {| columns := ["student_id"]; rows := [[CStr "A1"]; [CStr "a1 "]] |}.

Definition with_birthday : DataFrame :=
  {| columns := ["student_id"; "dob"]; rows := [[CStr "S1"; CStr "2010-05-04"]] |}.

Definition birthday_unknown : DataFrame :=
  {| columns := ["student_id"; "dob"]; rows := [[CStr "S1"; CStr "unknown"]] |}.

Definition two_admins : DataFrame :=
  {| columns := ["admin_id"]; rows := [[CInt 1]; [CInt 2]] |}.

End Sample.

(** ** The frame [get_table_data] hands out

    Lines 40-43 in closed form: the labels trimmed and lowercased; in every
    column of dtype [object] the text trimmed and whatever is not text
    replaced by [NaN]; the other columns as they are. *)
Definition loaded (T : DataFrame) : DataFrame :=
  let df := with_columns T (normalize_labels (columns T)) in
  {| columns := columns df;
     rows := map (map_labelled
                    (fun l c => if Py.mem l (object_labels df) then str_strip c else c)
                    (columns df))
                 (rows df) |}.

(** ** Login, logout and the entry point

    The part of the script that runs before any table is touched: lines
    9-13, 311-335, 339-353 and 425-435.  [st.session_state] is a dictionary
    of which the script uses the keys ['logged_in'] and ['username']; a key
    that is absent is [None] in [state]. *)

Module Session.

(** Lines 10-13. *)
Definition USERS : list (string * string) :=
  [("admin", "password123"); ("user1", "pass")].

Record state : Type := { logged_in : option bool; username : option string }.

Inductive note : Type :=
| LoginTitle            (* line 313 *)
| LoggedIn              (* line 323 *)
| IncorrectLogin        (* line 326 *)
| LoggedOut             (* line 334 *)
| DatasetSelection      (* line 341 *)
| Welcome (user : string).  (* line 342 *)

(** How a run of the script ends: at its last line, by [st.rerun()], or by
    an exception that nothing catches. *)
Inductive ending : Type :=
| Completed
| Rerun
| Uncaught (e : exn).

Definition result : Type := (ending * state * list note)%type.

(** [d[k]] for a dictionary given by its items. *)
Fixpoint dict_get (d : list (string * string)) (k : string) : option string :=
  match d with
  | [] => None
  | (k', v) :: rest => if String.eqb k k' then Some v else dict_get rest k
  end.

(** What the user typed on the login page and whether "Login" was pressed. *)
Record login_input : Type := {
  typed_username : string;
  typed_password : string;
  login_clicked : bool
}.

(** Lines 311-326. *)
Definition login_form (ui : login_input) (s : state) : result :=
  if login_clicked ui then
    match dict_get USERS (typed_username ui) with
    | Some password =>
        if String.eqb password (typed_password ui) then
          (Rerun,
           {| logged_in := Some true; username := Some (typed_username ui) |},
           [LoginTitle; LoggedIn])
        else (Completed, s, [LoginTitle; IncorrectLogin])
    | None => (Completed, s, [LoginTitle; IncorrectLogin])
    end
  else (Completed, s, [LoginTitle]).

(** Lines 328-335: both keys are deleted when present. *)
Definition logout (s : state) : result :=
  (Rerun, {| logged_in := None; username := None |}, [LoggedOut]).

(** The names bound at module level (imports, the three dictionaries and
    the functions). *)
Definition module_names : list string :=
  ["os"; "pd"; "st"; "datetime"; "np"; "USERS"; "EXCEL_FILES"; "PRIMARY_KEYS";
   "get_table_data"; "display_data_editor"; "check_pk_exists";
   "add_new_record_form"; "update_table"; "delete_record"; "login_form";
   "logout"; "show_main_app"; "main"].

(** Lines 339-353.  [tabs] stands for what follows the reading of
    [excel_folder] on line 353 (lines 355-423). *)
Definition show_main_app (logout_clicked : bool) (tabs : state -> result)
    (s : state) : result :=
  let head :=
    [DatasetSelection;
     Welcome (match username s with Some u => u | None => "User" end)] in
  if logout_clicked then
    match logout s with
    | (e, s', notes) => (e, s', head ++ notes)
    end
  else if Py.mem "excel_folder" module_names then
    match tabs s with
    | (e, s', notes) => (e, s', head ++ notes)
    end
  else (Uncaught (NameError "excel_folder"), s, head).

(** What the user did during one run of the script. *)
Record input : Type := {
  login : login_input;
  logout_clicked : bool
}.

(** Lines 425-432. *)
Definition main (ui : input) (tabs : state -> result) (s : state) : result :=
  let s :=
    match logged_in s with
    | None => {| logged_in := Some false; username := username s |}
    | Some _ => s
    end in
  if negb (match logged_in s with Some b => b | None => false end) then
    login_form (login ui) s
  else show_main_app (logout_clicked ui) tabs s.

(** The session after a sequence of runs, each with its own input. *)
Fixpoint session_after (uis : list input) (tabs : state -> result) (s : state) : state :=
  match uis with
  | [] => s
  | ui :: rest => session_after rest tabs (snd (fst (main ui tabs s)))
  end.

(** A fresh browser session. *)
Definition fresh : state := {| logged_in := None; username := None |}.

(** An authenticated session names a user of [USERS]. *)
Definition authentic (s : state) : Prop :=
  logged_in s = Some true ->
  exists u p, username s = Some u /\ In (u, p) USERS.

End Session.

(** The texts the staff form marks as required (line 202, the date
    apart). *)
Definition staff_required_texts (f : Admin.form) : list string :=
  [Admin.admin_id f; Admin.full_name f; Admin.email f; Admin.position f;
   Admin.department f].

(** What the "Add New Record" tab shows before it looks at the submission
    (lines 130 and 140 or 185). *)
Definition add_tab_heading : list widget :=
  [st_subheader_w AddRecordHeading; st_info_w FormIntro].

(** ** More sample data *)

Module Cases.

Definition valid_pupil : Student.form :=
  {| Student.student_id := "S7"; Student.student_Name := "Cy Roe"; Student.student_class := 2;
     Student.gender := "Male"; Student.dob := 0; Student.email := "cy@school.org";
     Student.phone := "555-0101"; Student.address := "1 Elm St";
     Student.admission_date := 0; Student.fee_status := "Unpaid" |}.

(** A staff form whose name is white space only. *)
Definition blank_name : Admin.form :=
  {| Admin.admin_id := "A2"; Admin.full_name := "   "; Admin.email := "x@school.org";
     Admin.phone_number := ""; Admin.gender := "Other"; Admin.dob := 0;
     Admin.address := ""; Admin.position := "Cook"; Admin.department := "Kitchen";
     Admin.date_joined := 0; Admin.employment_status := "Active";
     Admin.salary := "900.0"; Admin.work_shift := "Morning" |}.

Definition empty_email : Admin.form :=
  {| Admin.admin_id := "A3"; Admin.full_name := "Di Poe"; Admin.email := "";
     Admin.phone_number := ""; Admin.gender := "Other"; Admin.dob := 0;
     Admin.address := ""; Admin.position := "Cook"; Admin.department := "Kitchen";
     Admin.date_joined := 0; Admin.employment_status := "Active";
     Admin.salary := "900.0"; Admin.work_shift := "Morning" |}.

Definition blank_id : Admin.form :=
  {| Admin.admin_id := "  "; Admin.full_name := "Di Poe"; Admin.email := "d@school.org";
     Admin.phone_number := ""; Admin.gender := "Other"; Admin.dob := 0;
     Admin.address := ""; Admin.position := "Cook"; Admin.department := "Kitchen";
     Admin.date_joined := 0; Admin.employment_status := "Active";
     Admin.salary := "900.0"; Admin.work_shift := "Morning" |}.

Definition submit_staff (f : Admin.form) : add_input :=
  {| student_form := valid_pupil; admin_form := f; submitted := true |}.

Definition submit_pupil (f : Student.form) : add_input :=
  {| student_form := f; admin_form := blank_name; submitted := true |}.

(** Keys that repeat, and keys that differ in case only. *)
Definition repeated_keys : DataFrame :=
  {| columns := ["Admin_ID"; "Full_Name"];
     rows := [[CStr "A1"; CStr "Ann"]; [CStr "B2"; CStr "Bob"]; [CStr "A1"; CStr "Al"]] |}.

Definition three_admins : DataFrame :=
  {| columns := ["Admin_ID"; "Full_Name"];
     rows := [[CStr "A1"; CStr "Ann"]; [CInt 7; CStr " Bob "]; [CStr "c3"; CStr "Cy"]] |}.

(** Grid contents a user may hand back for [Sample.two_students]. *)
Definition null_key : DataFrame :=
  {| columns := ["student_id"]; rows := [[CStr "A1"]; [CNaN]] |}.

Definition same_key_twice : DataFrame :=
  {| columns := ["student_id"]; rows := [[CStr "A1"]; [CStr "A1"]] |}.

(** A staff form whose id is that of [Sample.staff_with_key], in another
    case and padded. *)
Definition existing_id : Admin.form :=
  {| Admin.admin_id := " a0"; Admin.full_name := "Al Wu"; Admin.email := "al@school.org";
     Admin.phone_number := ""; Admin.gender := "Other"; Admin.dob := 0;
     Admin.address := ""; Admin.position := "Cook"; Admin.department := "Kitchen";
     Admin.date_joined := 0; Admin.employment_status := "Active";
     Admin.salary := "900.0"; Admin.work_shift := "Morning" |}.

Definition type_login (u p : string) : Session.input :=
  {| Session.login := {| Session.typed_username := u; Session.typed_password := p;
                         Session.login_clicked := true |};
     Session.logout_clicked := false |}.

Definition press_logout : Session.input :=
  {| Session.login := {| Session.typed_username := ""; Session.typed_password := "";
                         Session.login_clicked := false |};
     Session.logout_clicked := true |}.

Definition just_look : Session.input :=
  {| Session.login := {| Session.typed_username := ""; Session.typed_password := "";
                         Session.login_clicked := false |};
     Session.logout_clicked := false |}.

(** A stand-in for the tabs, which no run reaches. *)
Definition no_tabs (s : Session.state) : Session.result := (Session.Completed, s, []).

End Cases.

(** Two results that differ at most in the rows of the frame returned. *)
Ltac same_frame :=
  match goal with
  | |- (Returned ?a, ?w) = (Returned ?b, ?w) =>
      cut (a = b); [intros ->; reflexivity |]; simpl;
      apply (f_equal (Build_DataFrame _))
  end.

(** * Properties *)

(** ** Membership and counting *)

Lemma mem_true_iff (x : string) (xs : list string) : Py.mem x xs = true <-> In x xs.
Proof.
  unfold Py.mem. rewrite existsb_exists. split.
  - intros [y [Hy E]]. apply String.eqb_eq in E. now subst.
  - intros Hx. exists x. split; [assumption | apply String.eqb_refl].
Qed.

Lemma mem_false_iff (x : string) (xs : list string) : Py.mem x xs = false <-> ~ In x xs.
Proof.
  rewrite <- mem_true_iff. destruct (Py.mem x xs); split; congruence.
Qed.

Lemma count_zero_iff (x : string) (xs : list string) : Py.count x xs = 0 <-> ~ In x xs.
Proof.
  unfold Py.count. induction xs as [|y ys IH]; simpl.
  - tauto.
  - destruct (String.eqb_spec x y) as [->|Hne]; simpl.
    + split; [discriminate | intros Hn; exfalso; apply Hn; now left].
    + rewrite IH. split; [intros Hn [E|Hin]; [congruence | tauto] | tauto].
Qed.

(** ** The labels of a frame *)

Lemma normalize_columns_some (df : DataFrame) (w : world) :
  columns df <> [] ->
  normalize_columns df w
  = (Returned (with_columns df (normalize_labels (columns df))), w).
Proof.
  unfold normalize_columns. destruct (columns df); [congruence | reflexivity].
Qed.

Lemma normalize_columns_none (df : DataFrame) (w : world) :
  columns df = [] -> normalize_columns df w = (Raised AttributeError, w).
Proof.
  unfold normalize_columns. now intros ->.
Qed.

Lemma count_one_nonempty (l : string) (labels : list string) :
  Py.count l (normalize_labels labels) = 1 -> labels <> [].
Proof.
  intros Hc ->. discriminate Hc.
Qed.

Lemma strip_loop_keeps_world (labels : list string) :
  forall df w, exists o, for_each labels strip_object_column df w = (o, w).
Proof.
  induction labels as [|l ls IH]; intros df w; simpl.
  - eexists. reflexivity.
  - unfold bind, strip_object_column.
    destruct (getitem df l) as [|cells|]; simpl.
    + eexists. reflexivity.
    + destruct (is_object cells); simpl; apply IH.
    + eexists. reflexivity.
Qed.

(** ** Loading a table *)

Lemma get_table_data_total (table_name : string) (w : world) :
  exists df w', get_table_data table_name w = (Returned df, w') /\ disk w' = disk w.
Proof.
  destruct w as [d scr]. unfold get_table_data, try_except, bind, path_exists, read_excel.
  destruct d as [| |T]; cbn [disk].
  - do 2 eexists; split; reflexivity.
  - do 2 eexists; split; reflexivity.
  - destruct (list_eq_dec string_dec (columns T) []) as [Hnil|Hsome].
    + rewrite normalize_columns_none by assumption.
      do 2 eexists; split; reflexivity.
    + rewrite normalize_columns_some by assumption.
      destruct (strip_loop_keeps_world
                  (object_labels (with_columns T (normalize_labels (columns T))))
                  (with_columns T (normalize_labels (columns T)))
                  {| disk := Sheet T; screen := scr |}) as [o Ho].
      rewrite Ho. destruct o; do 2 eexists; split; reflexivity.
Qed.

(** C8: [get_table_data] returns the empty frame, with a warning and no
    failure, when the backing file does not exist; when the file exists
    but cannot be parsed it reports the read error and still returns the
    empty frame; whatever the file, it returns a frame, raises nothing and
    leaves the file as it was. *)
Theorem get_table_data_missing_or_unreadable (table_name : string) (scr : list widget) :
  get_table_data table_name {| disk := Missing; screen := scr |}
    = (Returned empty_frame,
       {| disk := Missing; screen := scr ++ [st_warning_w FileNotFound] |})
  /\ get_table_data table_name {| disk := Corrupt; screen := scr |}
    = (Returned empty_frame,
       {| disk := Corrupt; screen := scr ++ [st_error_w ReadError] |})
  /\ (forall w, exists df w',
        get_table_data table_name w = (Returned df, w') /\ disk w' = disk w).
Proof.
  split; [reflexivity | split; [reflexivity |]].
  apply get_table_data_total.
Qed.

Lemma getitem_series_mem (df : DataFrame) (l : string) (cells : list cell) :
  getitem df l = Series cells -> Py.mem l (columns df) = true.
Proof.
  unfold getitem. intros Hg.
  destruct (Py.mem l (columns df)) eqn:Hm; [reflexivity | exfalso].
  apply mem_false_iff, count_zero_iff in Hm. rewrite Hm in Hg. discriminate.
Qed.

Lemma getitem_count_one (df : DataFrame) (l : string) :
  Py.count l (columns df) = 1 ->
  getitem df l = Series (map (fun r => cell_at (columns df) r l) (rows df)).
Proof.
  unfold getitem. intros ->. reflexivity.
Qed.

(** ** The existence check *)

Section ExistenceCheck.
Context `{Pandas}.

Lemma check_pk_exists_sheet (pk k : string) (T : DataFrame) (scr : list widget)
    (cells : list cell) :
  getitem (with_columns T (normalize_labels (columns T))) (Py.lower pk) = Series cells ->
  check_pk_exists pk k {| disk := Sheet T; screen := scr |}
  = (Returned (Py.mem (normalize_key k)
                      (map (fun c => normalize_key (astype_str c)) cells)),
     {| disk := Sheet T; screen := scr |}).
Proof.
  intros Hg. unfold check_pk_exists, try_except, bind, path_exists, read_excel.
  cbn [disk negb].
  pose proof (getitem_series_mem _ _ _ Hg) as Hm. cbn [columns with_columns] in Hm.
  rewrite normalize_columns_some.
  - cbn [columns with_columns]. rewrite Hm. cbn [negb]. rewrite Hg. reflexivity.
  - intros E. rewrite E in Hm. discriminate Hm.
Qed.

(** C9: the existence check answers [False], and never raises, when the
    backing file does not exist or when the loaded table has no
    primary-key column (with the warning that the column is not found; on
    a sheet without any column, with the error the failed check shows);
    whatever the file, it returns a Boolean and leaves the file as it
    was. *)
Theorem check_pk_exists_false_not_error (pk k : string) :
  (forall scr,
      check_pk_exists pk k {| disk := Missing; screen := scr |}
      = (Returned false, {| disk := Missing; screen := scr |}))
  /\ (forall T scr,
      ~ In (Py.lower pk) (normalize_labels (columns T)) ->
      check_pk_exists pk k {| disk := Sheet T; screen := scr |}
      = (Returned false,
         {| disk := Sheet T;
            screen := scr ++ [match columns T with
                              | [] => st_error_w CheckFailed
                              | _ => st_warning_w SchemaError
                              end] |}))
  /\ (forall w, exists b w',
      check_pk_exists pk k w = (Returned b, w') /\ disk w' = disk w).
Proof.
  split; [reflexivity | split].
  - intros T scr Habsent. apply mem_false_iff in Habsent.
    unfold check_pk_exists, try_except, bind, path_exists, read_excel.
    cbn [disk negb].
    destruct (list_eq_dec string_dec (columns T) []) as [Hnil|Hsome].
    + rewrite normalize_columns_none by assumption. now rewrite Hnil.
    + rewrite normalize_columns_some by assumption.
      cbn [columns with_columns]. rewrite Habsent. cbn [negb].
      destruct (columns T); [congruence | reflexivity].
  - intros [d scr]. unfold check_pk_exists, try_except, bind, path_exists, read_excel.
    destruct d as [| |T]; cbn [disk negb].
    + do 2 eexists; split; reflexivity.
    + do 2 eexists; split; reflexivity.
    + destruct (list_eq_dec string_dec (columns T) []) as [Hnil|Hsome].
      * rewrite normalize_columns_none by assumption.
        do 2 eexists; split; reflexivity.
      * rewrite normalize_columns_some by assumption.
        cbn [columns with_columns].
        destruct (Py.mem (Py.lower pk) (normalize_labels (columns T))); cbn [negb].
        -- destruct (getitem _ _); do 2 eexists; split; reflexivity.
        -- do 2 eexists; split; reflexivity.
Qed.

End ExistenceCheck.

Lemma check_pk_exists_false_not_error_witness :
  ~ In (Py.lower "admin_id") (normalize_labels (columns Sample.staff_without_key))
  /\ check_pk_exists "admin_id" "A1" (Sample.on_disk (Sheet Sample.staff_without_key))
     = (Returned false,
        {| disk := Sheet Sample.staff_without_key;
           screen := [st_warning_w SchemaError] |}).
Proof.
  assert (Habsent : ~ In (Py.lower "admin_id")
                      (normalize_labels (columns Sample.staff_without_key))).
  { simpl. intros [E|[E|[]]]; discriminate E. }
  split; [exact Habsent |].
  exact (proj1 (proj2 (check_pk_exists_false_not_error "admin_id" "A1"))
           Sample.staff_without_key [] Habsent).
Defined.
(** ** Rows under their labels *)

Lemma map_labelled_ext_in (f g : string -> cell -> cell) (labels : list string) :
  (forall l c, In l labels -> f l c = g l c) ->
  forall row, map_labelled f labels row = map_labelled g labels row.
Proof.
  induction labels as [|l ls IH]; intros Hfg row; simpl.
  - reflexivity.
  - destruct row as [|c row']; [reflexivity |].
    rewrite Hfg by (now left). f_equal. apply IH.
    intros l' c' Hin. apply Hfg. now right.
Qed.

Lemma map_labelled_id (labels : list string) (row : list cell) :
  map_labelled (fun _ c => c) labels row = row.
Proof.
  revert row. induction labels as [|l ls IH]; intros [|c row']; simpl; try reflexivity.
  now rewrite IH.
Qed.

Lemma map_rows_id (f : string -> cell -> cell) (labels : list string)
    (rs : list (list cell)) :
  (forall l c, In l labels -> f l c = c) ->
  map (map_labelled f labels) rs = rs.
Proof.
  intros Hf. induction rs as [|row rs IH]; simpl; [reflexivity |].
  rewrite IH. f_equal.
  rewrite (map_labelled_ext_in f (fun _ c => c)) by assumption.
  apply map_labelled_id.
Qed.

Lemma map_labelled_compose (f g : string -> cell -> cell) (labels : list string)
    (row : list cell) :
  map_labelled f labels (map_labelled g labels row)
  = map_labelled (fun l c => f l (g l c)) labels row.
Proof.
  revert row. induction labels as [|l ls IH]; intros [|c row']; simpl; try reflexivity.
  now rewrite IH.
Qed.

Lemma count_cons (x y : string) (xs : list string) :
  Py.count x (y :: xs) = (if String.eqb x y then 1 else 0) + Py.count x xs.
Proof.
  unfold Py.count. simpl. destruct (String.eqb x y); reflexivity.
Qed.

Lemma count_pos_iff (x : string) (xs : list string) : 0 < Py.count x xs <-> In x xs.
Proof.
  pose proof (count_zero_iff x xs) as Hz.
  destruct (in_dec string_dec x xs) as [Hin|Hout].
  - split; [tauto | intros _]. destruct (Py.count x xs); [tauto | lia].
  - split; [intros Hp | tauto]. apply Hz in Hout. lia.
Qed.

(** ** Rows counted from the top *)

Lemma map_indexed_ext {A B} (f g : nat -> A -> B) (xs : list A) :
  forall j, (forall i x, f i x = g i x) -> map_indexed f j xs = map_indexed g j xs.
Proof.
  induction xs as [|x xs IH]; intros j Hfg; simpl; [reflexivity |].
  now rewrite Hfg, IH.
Qed.

Lemma map_indexed_compose {A B C} (f : nat -> B -> C) (g : nat -> A -> B) (xs : list A) :
  forall j, map_indexed f j (map_indexed g j xs) = map_indexed (fun i x => f i (g i x)) j xs.
Proof.
  induction xs as [|x xs IH]; intros j; simpl; [reflexivity |]. now rewrite IH.
Qed.

Lemma map_indexed_const {A B} (f : A -> B) (xs : list A) :
  forall j, map_indexed (fun _ => f) j xs = map f xs.
Proof.
  induction xs as [|x xs IH]; intros j; simpl; [reflexivity |]. now rewrite IH.
Qed.

Lemma map_map_indexed {A B C} (h : B -> C) (f : nat -> A -> B) (xs : list A) :
  forall j, map h (map_indexed f j xs) = map_indexed (fun i x => h (f i x)) j xs.
Proof.
  induction xs as [|x xs IH]; intros j; simpl; [reflexivity |]. now rewrite IH.
Qed.

Lemma length_map_indexed {A B} (f : nat -> A -> B) (xs : list A) :
  forall j, List.length (map_indexed f j xs) = List.length xs.
Proof.
  induction xs as [|x xs IH]; intros j; simpl; [reflexivity |]. now rewrite IH.
Qed.

Lemma nth_error_map_indexed {A B} (f : nat -> A -> B) (xs : list A) :
  forall j i x,
    nth_error xs i = Some x -> nth_error (map_indexed f j xs) i = Some (f (j + i) x).
Proof.
  induction xs as [|y ys IH]; intros j i x Hx; [destruct i; discriminate |].
  destruct i as [|i]; simpl in *.
  - inversion Hx. now rewrite Nat.add_0_r.
  - rewrite (IH (S j) i x Hx). now rewrite Nat.add_succ_r.
Qed.

Lemma length_map_labelled (g : string -> cell -> cell) (labels : list string) :
  forall row, List.length (map_labelled g labels row) = List.length row.
Proof.
  induction labels as [|l ls IH]; intros [|c row]; simpl; auto.
Qed.

(** A cell read under its label after a label-wise change of the row. *)
Lemma cell_at_map_labelled (g : string -> cell -> cell) (labels : list string)
    (row : list cell) (l : string) :
  g l CNaN = CNaN ->
  cell_at labels (map_labelled g labels row) l = g l (cell_at labels row l).
Proof.
  intros Hg. unfold cell_at.
  destruct (index_of l labels) as [i|] eqn:Hi; [| now rewrite Hg].
  destruct (Nat.lt_ge_cases i (List.length row)) as [Hlt|Hge].
  - revert row i Hi Hlt. induction labels as [|l' ls IH]; intros row i Hi Hlt;
      simpl in Hi; [discriminate |].
    destruct row as [|c row']; [simpl in Hlt; lia |].
    destruct (String.eqb_spec l l') as [->|Hne].
    + injection Hi as <-. reflexivity.
    + destruct (index_of l ls) as [j|]; [| discriminate].
      injection Hi as <-. simpl. apply IH; [reflexivity | simpl in Hlt; lia].
  - rewrite (nth_overflow row) by assumption. rewrite Hg.
    apply nth_overflow. now rewrite length_map_labelled.
Qed.

(** ** The date coercion of [update_table] *)

Section Coercion.
Context `{Pandas}.

Lemma length_datetimes (cells : list cell) :
  List.length (datetimes cells) = List.length cells.
Proof.
  unfold datetimes. rewrite length_map. apply to_datetime_length.
Qed.

Lemma datetimes_are_datetime (cells : list cell) :
  Forall (fun c => is_datetime c = true) (datetimes cells).
Proof.
  unfold datetimes. apply Forall_forall. intros c Hc. apply in_map_iff in Hc.
  destruct Hc as ([ns|] & <- & _); reflexivity.
Qed.

(** Setting a column leaves the cells under the other labels. *)
Lemma column_of_set_column_other (df : DataFrame) (l l' : string) (cells : list cell) :
  l' <> l -> column_of (set_column df l cells) l' = column_of df l'.
Proof.
  intros Hne. unfold column_of, set_column. cbn [columns rows].
  rewrite map_map_indexed. rewrite <- (map_indexed_const _ (rows df) 0).
  apply map_indexed_ext. intros j r.
  rewrite cell_at_map_labelled; destruct (String.eqb_spec l' l); congruence.
Qed.

Lemma coerce_loop (ls : list string) :
  forall df w,
    (forall l, In l ls -> date_like l = true ->
               Py.count l ls = 1 /\ Py.count l (columns df) = 1) ->
    for_each ls
      (fun df col =>
         if date_like col then
           match getitem df col with
           | Series cells => ret (set_column df col (datetimes cells))
           | SubFrame => raise ValueError
           | NoColumn => raise (KeyError col)
           end
         else ret df) df w
    = (Returned
         {| columns := columns df;
            rows := map_indexed
                      (fun j => map_labelled
                                  (fun l c => if date_like l && Py.mem l ls
                                              then nth j (datetimes (column_of df l)) c
                                              else c)
                                  (columns df))
                      0 (rows df) |}, w).
Proof.
  induction ls as [|l ls IH]; intros df w Hls.
  - simpl. unfold ret. destruct df as [cs rs]; simpl.
    rewrite (map_indexed_ext _ (fun _ r => r)).
    + now rewrite map_indexed_const, map_id.
    + intros j r. rewrite (map_labelled_ext_in _ (fun _ c => c)).
      * apply map_labelled_id.
      * intros l c _. now rewrite andb_false_r.
  - assert (Hrest : forall df', columns df' = columns df ->
              forall l', In l' ls -> date_like l' = true ->
                Py.count l' ls = 1 /\ Py.count l' (columns df')  = 1).
    { intros df' Hc l' Hin Hd. rewrite Hc.
      destruct (Hls l' (or_intror Hin) Hd) as [H1 H2]. split; [|assumption].
      rewrite count_cons in H1. apply count_pos_iff in Hin.
      destruct (String.eqb l' l); lia. }
    cbn [for_each]. unfold bind at 1.
    destruct (date_like l) eqn:Hd.
    + destruct (Hls l (or_introl eq_refl) Hd) as [H1 H2].
      rewrite (getitem_count_one df l H2). unfold ret at 1.
      fold (column_of df l).
      rewrite (IH (set_column df l (datetimes (column_of df l))) w (Hrest _ eq_refl)).
      same_frame. cbn [set_column rows columns].
      rewrite map_indexed_compose. apply map_indexed_ext. intros j row.
      rewrite map_labelled_compose. apply map_labelled_ext_in.
      intros l0 c _. cbn [Py.mem existsb].
      fold (Py.mem l0 ls).
      destruct (String.eqb_spec l0 l) as [->|Hne].
      * rewrite Hd. cbn [andb orb].
        rewrite count_cons, String.eqb_refl in H1.
        assert (Hz : Py.count l ls = 0) by lia.
        apply count_zero_iff, mem_false_iff in Hz. rewrite Hz. reflexivity.
      * cbn [orb]. now rewrite column_of_set_column_other.
    + unfold ret at 1. rewrite (IH df w (Hrest _ eq_refl)).
      same_frame. apply map_indexed_ext. intros j row. apply map_labelled_ext_in.
      intros l0 c _. cbn [Py.mem existsb]. fold (Py.mem l0 ls).
      destruct (String.eqb_spec l0 l) as [->|Hne]; [now rewrite Hd | reflexivity].
Qed.

Lemma coerce_date_columns_ok (df : DataFrame) (w : world) :
  dates_unambiguous (columns df) ->
  coerce_date_columns df w = (Returned (coerced df), w).
Proof.
  intros Hu. unfold coerce_date_columns.
  rewrite coerce_loop by (intros l Hin Hd; split; apply Hu; assumption).
  unfold coerced. same_frame. apply map_indexed_ext. intros j row.
  apply map_labelled_ext_in. intros l c Hin.
  apply mem_true_iff in Hin. rewrite Hin. now rewrite andb_true_r.
Qed.

End Coercion.

(** ** Aligning the new record with the table (lines 246-249) *)

Lemma index_of_none_iff (l : string) (labels : list string) :
  index_of l labels = None <-> ~ In l labels.
Proof.
  induction labels as [|l' ls IH]; simpl.
  - tauto.
  - destruct (String.eqb_spec l l') as [->|Hne].
    + split; [discriminate | intros Hn; exfalso; apply Hn; now left].
    + destruct (index_of l ls) as [i|].
      * split; [discriminate |]. intros Hn. exfalso. apply Hn. right.
        destruct (in_dec string_dec l ls) as [Hin|Hout]; [assumption |].
        apply IH in Hout. discriminate.
      * split; [intros _ [E|Hin] | reflexivity]; [congruence |].
        now apply (proj1 IH).
Qed.

Lemma index_of_bound (l : string) (labels : list string) (i : nat) :
  index_of l labels = Some i -> i < List.length labels.
Proof.
  revert i. induction labels as [|l' ls IH]; simpl; intros i Hi; [discriminate |].
  destruct (String.eqb l l').
  - injection Hi as <-. lia.
  - destruct (index_of l ls) as [j|]; [| discriminate].
    injection Hi as <-. specialize (IH j eq_refl). lia.
Qed.

Lemma index_of_app_in (l : string) (ls extra : list string) :
  In l ls -> index_of l (ls ++ extra) = index_of l ls.
Proof.
  induction ls as [|l' ls IH]; simpl; intros Hin; [contradiction |].
  destruct (String.eqb_spec l l') as [->|Hne]; [reflexivity |].
  destruct Hin as [E|Hin]; [congruence |]. now rewrite IH.
Qed.

Lemma index_of_app_out (l : string) (ls extra : list string) :
  ~ In l ls ->
  index_of l (ls ++ extra)
  = match index_of l extra with Some i => Some (List.length ls + i) | None => None end.
Proof.
  induction ls as [|l' ls IH]; simpl; intros Hout.
  - destruct (index_of l extra); reflexivity.
  - destruct (String.eqb_spec l l') as [->|Hne]; [exfalso; apply Hout; now left |].
    rewrite IH by tauto. destruct (index_of l extra); reflexivity.
Qed.

Lemma cell_at_record (r : record) (l : string) :
  cell_at (map fst r) (map snd r) l = record_get r l.
Proof.
  unfold cell_at. induction r as [|[l' c] rest IH]; simpl; [reflexivity |].
  destruct (String.eqb l l'); [reflexivity |].
  destruct (index_of l (map fst rest)); assumption.
Qed.

Lemma frame_of_record_represents (r : record) : represents (frame_of_record r) r.
Proof.
  exists (map snd r). simpl. split; [reflexivity | split].
  - now rewrite !length_map.
  - apply cell_at_record.
Qed.

Lemma add_column_represents (fr : DataFrame) (r : record) (l0 : string) :
  represents fr r -> ~ In l0 (columns fr) -> represents (add_column fr l0 CNaN) r.
Proof.
  intros (row & Hrows & Hlen & Hcells) Hnew.
  exists (row ++ [CNaN]). simpl. rewrite Hrows. split; [reflexivity | split].
  - rewrite !length_app. simpl. lia.
  - intros l. rewrite <- Hcells. unfold cell_at.
    destruct (in_dec string_dec l (columns fr)) as [Hin|Hout].
    + rewrite index_of_app_in by assumption.
      destruct (index_of l (columns fr)) as [i|] eqn:Hi; [| reflexivity].
      apply app_nth1. apply index_of_bound in Hi. lia.
    + rewrite index_of_app_out by assumption.
      rewrite (proj2 (index_of_none_iff l (columns fr)) Hout). simpl.
      destruct (String.eqb l l0); [| reflexivity].
      rewrite Nat.add_0_r, <- Hlen. rewrite app_nth2 by lia.
      now rewrite Nat.sub_diag.
Qed.

Lemma fill_missing_spec (r : record) (labels : list string) :
  forall fr,
    represents fr r ->
    represents (fill_missing labels fr) r
    /\ (forall l, In l labels \/ In l (columns fr) ->
                  In l (columns (fill_missing labels fr))).
Proof.
  unfold fill_missing.
  induction labels as [|l0 ls IH]; intros fr Hrep; simpl.
  - split; [assumption | tauto].
  - destruct (Py.mem l0 (columns fr)) eqn:Hm.
    + destruct (IH fr Hrep) as [Hr Hin]. split; [assumption |].
      intros l [[<-|Hl]|Hl]; apply Hin; auto.
      right. now apply mem_true_iff.
    + apply mem_false_iff in Hm.
      destruct (IH _ (add_column_represents fr r l0 Hrep Hm)) as [Hr Hin].
      split; [assumption |].
      intros l [[<-|Hl]|Hl]; apply Hin; auto; right; simpl; apply in_or_app.
      * right. now left.
      * now left.
Qed.

Lemma find_absent (f : string -> bool) (ls : list string) :
  (forall l, In l ls -> f l = false) -> find f ls = None.
Proof.
  induction ls as [|l ls IH]; simpl; intros Hf; [reflexivity |].
  rewrite Hf by (now left). apply IH. intros l' Hl'. apply Hf. now right.
Qed.

Lemma getitem_list_aligned (fr : DataFrame) (r : record) (labels : list string)
    (w : world) :
  represents fr r ->
  (forall l, In l labels -> In l (columns fr)) ->
  getitem_list fr labels w
  = (Returned {| columns := labels; rows := [map (record_get r) labels] |}, w).
Proof.
  intros (row & Hrows & _ & Hcells) Hall. unfold getitem_list.
  rewrite find_absent.
  - unfold ret, take_columns. rewrite Hrows. simpl.
    now rewrite (map_ext _ _ Hcells).
  - intros l Hl. apply Hall, mem_true_iff in Hl. now rewrite Hl.
Qed.

Lemma align_new_row (r : record) (labels : list string) (w : world) :
  getitem_list (fill_missing labels (frame_of_record r)) labels w
  = (Returned {| columns := labels; rows := [map (record_get r) labels] |}, w).
Proof.
  destruct (fill_missing_spec r labels _ (frame_of_record_represents r)) as [Hr Hin].
  apply getitem_list_aligned; [assumption |]. intros l Hl. apply Hin. now left.
Qed.

Lemma pd_concat_same_labels (labels : list string) (rs1 rs2 : list (list cell)) :
  pd_concat {| columns := labels; rows := rs1 |} {| columns := labels; rows := rs2 |}
  = {| columns := labels; rows := rs1 ++ rs2 |}.
Proof.
  unfold pd_concat. simpl.
  destruct (list_eq_dec string_dec labels labels); [reflexivity | congruence].
Qed.

(** ** What [update_table] writes *)

Lemma readable_sheet (T : DataFrame) : columns T <> [] -> readable (Sheet T) = Some T.
Proof.
  unfold readable. destruct (columns T); [congruence | reflexivity].
Qed.

Lemma readable_empty (T : DataFrame) : columns T = [] -> readable (Sheet T) = None.
Proof.
  unfold readable. now intros ->.
Qed.

Section Append.
Context `{Pandas}.

Lemma update_table_writes (table_name : string) (r : record) (d : file)
    (scr : list widget) :
  dates_unambiguous (columns (appended d r)) ->
  update_table table_name r {| disk := d; screen := scr |}
  = (Returned tt,
     {| disk := written (coerced (appended d r)); screen := scr ++ add_messages d |}).
Proof.
  intros Hu. unfold update_table, try_except, bind at 1 2, path_exists.
  destruct d as [| |T]; cbn [disk].
  - unfold st_info, show, bind, ret; cbn [disk screen].
    rewrite coerce_date_columns_ok by exact Hu.
    unfold to_excel, st_success, show; cbn [disk screen].
    now rewrite <- app_assoc.
  - unfold read_excel, st_error, st_info, show, bind, ret; cbn [disk screen].
    rewrite coerce_date_columns_ok by exact Hu.
    unfold to_excel, st_success, show; cbn [disk screen].
    now rewrite <- !app_assoc.
  - unfold read_excel. unfold bind at 1. cbn [disk screen].
    destruct (list_eq_dec string_dec (columns T) []) as [Hnil|Hsome].
    + unfold bind at 1. rewrite normalize_columns_none by assumption.
      assert (Ha : appended (Sheet T) r = frame_of_record r)
        by (unfold appended; now rewrite readable_empty).
      assert (Hm : add_messages (Sheet T)
                   = [st_error_w AppendReadFailed; st_info_w OverwriteWithNewOnly;
                      st_success_w RecordAdded])
        by (unfold add_messages; now rewrite readable_empty).
      rewrite Ha in *. rewrite Hm.
      unfold st_error, st_info, show, bind, ret; cbn [disk screen].
      rewrite coerce_date_columns_ok by exact Hu.
      unfold to_excel, st_success, show; cbn [disk screen].
      now rewrite <- !app_assoc.
    + unfold bind at 1. rewrite normalize_columns_some by assumption.
      assert (Ha : appended (Sheet T) r
                   = {| columns := normalize_labels (columns T);
                        rows := rows T ++ [map (record_get r) (normalize_labels (columns T))] |})
        by (unfold appended; now rewrite readable_sheet).
      assert (Hm : add_messages (Sheet T) = [st_success_w RecordAdded])
        by (unfold add_messages; now rewrite readable_sheet).
      rewrite Ha in *. rewrite Hm.
      unfold bind; cbn [columns with_columns].
      rewrite align_new_row. unfold ret.
      unfold with_columns. rewrite pd_concat_same_labels.
      rewrite coerce_date_columns_ok by exact Hu.
      unfold to_excel, st_success, show; cbn [disk screen]. reflexivity.
Qed.

End Append.

(** ** Trimming and lowercasing *)

Lemma isspace_lower_char (c : ascii) : Py.isspace (Py.lower_char c) = Py.isspace c.
Proof.
  destruct c as [[] [] [] [] [] [] [] []]; reflexivity.
Qed.

Lemma lower_char_idem (c : ascii) : Py.lower_char (Py.lower_char c) = Py.lower_char c.
Proof.
  destruct c as [[] [] [] [] [] [] [] []]; reflexivity.
Qed.

Lemma lower_idem (s : string) : Py.lower (Py.lower s) = Py.lower s.
Proof.
  induction s as [|c s IH]; simpl; [reflexivity |].
  now rewrite lower_char_idem, IH.
Qed.

Lemma lstrip_lower (s : string) : Py.lstrip (Py.lower s) = Py.lower (Py.lstrip s).
Proof.
  induction s as [|c s IH]; simpl; [reflexivity |].
  rewrite isspace_lower_char. destruct (Py.isspace c); [assumption | reflexivity].
Qed.

Lemma rstrip_lower (s : string) : Py.rstrip (Py.lower s) = Py.lower (Py.rstrip s).
Proof.
  induction s as [|c s IH]; simpl; [reflexivity |].
  rewrite IH, isspace_lower_char.
  destruct (Py.rstrip s); simpl; [destruct (Py.isspace c) |]; reflexivity.
Qed.

Lemma strip_lower (s : string) : Py.strip (Py.lower s) = Py.lower (Py.strip s).
Proof.
  unfold Py.strip. now rewrite lstrip_lower, rstrip_lower.
Qed.

Lemma lstrip_idem (s : string) : Py.lstrip (Py.lstrip s) = Py.lstrip s.
Proof.
  induction s as [|c s IH]; simpl; [reflexivity |].
  destruct (Py.isspace c) eqn:Hc; [assumption |]. simpl. now rewrite Hc.
Qed.

Lemma rstrip_idem (s : string) : Py.rstrip (Py.rstrip s) = Py.rstrip s.
Proof.
  induction s as [|c s IH]; simpl; [reflexivity |].
  destruct (Py.rstrip s) as [|c' t] eqn:Hr.
  - destruct (Py.isspace c) eqn:Hc; simpl; [reflexivity | now rewrite Hc].
  - change (Py.rstrip (String c (String c' t))) with
      (match Py.rstrip (String c' t) with
       | EmptyString => if Py.isspace c then EmptyString else String c EmptyString
       | u => String c u
       end).
    now rewrite IH.
Qed.

Lemma lstrip_rstrip (s : string) : Py.lstrip (Py.rstrip s) = Py.rstrip (Py.lstrip s).
Proof.
  induction s as [|c s IH]; [reflexivity |].
  cbn [Py.lstrip]. destruct (Py.isspace c) eqn:Hc.
  - rewrite <- IH. cbn [Py.rstrip]. rewrite Hc.
    destruct (Py.rstrip s); [reflexivity |]. cbn [Py.lstrip]. now rewrite Hc.
  - cbn [Py.rstrip]. rewrite Hc.
    destruct (Py.rstrip s); cbn [Py.lstrip]; now rewrite Hc.
Qed.

Lemma strip_idem (s : string) : Py.strip (Py.strip s) = Py.strip s.
Proof.
  unfold Py.strip. now rewrite lstrip_rstrip, rstrip_idem, lstrip_idem.
Qed.

Lemma normalize_key_idem (s : string) : normalize_key (normalize_key s) = normalize_key s.
Proof.
  unfold normalize_key. now rewrite strip_lower, lower_idem, strip_idem.
Qed.

Lemma normalize_key_strip (s : string) : normalize_key (Py.strip s) = normalize_key s.
Proof.
  unfold normalize_key. now rewrite strip_idem.
Qed.

Lemma normalize_labels_idem (labels : list string) :
  normalize_labels (normalize_labels labels) = normalize_labels labels.
Proof.
  unfold normalize_labels. rewrite map_map. apply map_ext. intros l.
  apply normalize_key_idem.
Qed.

Lemma primary_key_shape (table_name pk : string) :
  PRIMARY_KEYS table_name = Some pk ->
  Py.lower pk = pk /\ Py.strip pk = pk /\ date_like pk = false.
Proof.
  unfold PRIMARY_KEYS.
  destruct (String.eqb table_name "students");
    [| destruct (String.eqb table_name "college_admin_data")];
    intros E; inversion E; subst; repeat split.
Qed.

(** ** Reading a cell back *)

Lemma nodup_count_one (x : string) (xs : list string) :
  NoDup xs -> In x xs -> Py.count x xs = 1.
Proof.
  induction 1 as [|y ys Hy Hnd IH]; intros Hin; [contradiction |].
  rewrite count_cons. destruct (String.eqb_spec x y) as [->|Hne].
  - apply count_zero_iff in Hy. now rewrite Hy.
  - destruct Hin as [E|Hin]; [congruence |]. now rewrite IH.
Qed.

Lemma nodup_dates_unambiguous (labels : list string) :
  NoDup labels -> dates_unambiguous labels.
Proof.
  intros Hnd l Hin _. now apply nodup_count_one.
Qed.

Lemma index_of_some (l : string) (labels : list string) :
  In l labels -> exists i, index_of l labels = Some i.
Proof.
  intros Hin. destruct (index_of l labels) as [i|] eqn:Hi; [now exists i |].
  now apply index_of_none_iff in Hi.
Qed.

Lemma nth_map_labels (g : string -> cell) (l : string) (labels : list string) :
  forall i, index_of l labels = Some i -> nth i (map g labels) CNaN = g l.
Proof.
  induction labels as [|l' ls IH]; intros i Hi; simpl in Hi; [discriminate |].
  destruct (String.eqb_spec l l') as [->|Hne].
  - injection Hi as <-. reflexivity.
  - destruct (index_of l ls) as [j|]; [| discriminate].
    injection Hi as <-. simpl. now apply IH.
Qed.

(** The position of a key label does not move when the labels of a record
    are normalised, as long as the normalised label stays unique. *)
Lemma index_of_normalized (pk : string) (raw : list string) :
  Py.lower (Py.strip pk) = pk ->
  In pk raw ->
  Py.count pk (normalize_labels raw) = 1 ->
  index_of pk (normalize_labels raw) = index_of pk raw.
Proof.
  intros Hpk. induction raw as [|l rest IH]; intros Hin Hcount; [contradiction |].
  simpl in *. rewrite count_cons in Hcount.
  destruct (String.eqb_spec pk l) as [<-|Hne].
  - now rewrite Hpk, String.eqb_refl.
  - destruct Hin as [E|Hin]; [congruence |].
    assert (Hin' : In pk (normalize_labels rest)).
    { rewrite <- Hpk. unfold normalize_labels.
      apply (in_map (fun l => Py.lower (Py.strip l))). assumption. }
    apply count_pos_iff in Hin'.
    destruct (String.eqb pk (Py.lower (Py.strip l))); [lia |].
    simpl in Hcount. rewrite (IH Hin Hcount). reflexivity.
Qed.

Lemma index_of_unique (l : string) (labels : list string) :
  forall i, nth_error labels i = Some l -> Py.count l labels = 1 ->
            index_of l labels = Some i.
Proof.
  induction labels as [|l' ls IH]; intros i Hi Hc; [destruct i; discriminate |].
  rewrite count_cons in Hc. simpl.
  destruct i as [|i]; simpl in Hi.
  - inversion Hi. now rewrite String.eqb_refl.
  - assert (Hin : In l ls) by (eapply nth_error_In; eassumption).
    apply count_pos_iff in Hin.
    destruct (String.eqb l l'); [lia |].
    now rewrite (IH i Hi Hc).
Qed.

(** Two label-wise changes of a row that agree at every position of the
    row. *)
Lemma map_labelled_ext_pos (f g : string -> cell -> cell) :
  forall (labels : list string) (row : list cell),
    (forall i l c, nth_error labels i = Some l -> nth_error row i = Some c ->
                   f l c = g l c) ->
    map_labelled f labels row = map_labelled g labels row.
Proof.
  induction labels as [|l ls IH]; intros row Hfg; [reflexivity |].
  destruct row as [|c row']; [reflexivity |]. simpl.
  rewrite (Hfg 0 l c eq_refl eq_refl). f_equal.
  apply IH. intros i l' c' Hl Hc. exact (Hfg (S i) l' c' Hl Hc).
Qed.

Lemma nth_error_map_labelled (f : string -> cell -> cell) (labels : list string) :
  forall (row : list cell) (i : nat) (l : string) (c : cell),
    nth_error labels i = Some l -> nth_error row i = Some c ->
    nth_error (map_labelled f labels row) i = Some (f l c).
Proof.
  induction labels as [|l' ls IH]; intros row i l c Hl Hc.
  - destruct i; discriminate.
  - destruct row as [|c' row']; [destruct i; discriminate |].
    destruct i as [|i]; simpl in *.
    + now inversion Hl; inversion Hc.
    + now apply IH.
Qed.

Lemma record_get_absent (r : record) (l : string) :
  ~ In l (map fst r) -> record_get r l = CNaN.
Proof.
  induction r as [|[l' c] rest IH]; simpl; intros Hout; [reflexivity |].
  destruct (String.eqb_spec l l') as [->|Hne]; [exfalso; apply Hout; now left |].
  apply IH. tauto.
Qed.

(** A key label is found at the same place under the raw labels and under
    the normalised ones. *)
Lemma cell_at_normalized (pk : string) (raw : list string) (row : list cell) :
  Py.lower (Py.strip pk) = pk ->
  In pk raw ->
  Py.count pk (normalize_labels raw) = 1 ->
  cell_at (normalize_labels raw) row pk = cell_at raw row pk.
Proof.
  intros Hpk Hin Hc. unfold cell_at. now rewrite index_of_normalized.
Qed.

(** ** The keys of a table *)

Section Keys.
Context `{Pandas}.

Lemma key_strings_unfold (pk : string) (T : DataFrame) :
  Py.count pk (normalize_labels (columns T)) = 1 ->
  key_strings pk T
  = map (fun r => astype_str (cell_at (normalize_labels (columns T)) r pk)) (rows T).
Proof.
  intros Hc. unfold key_strings.
  rewrite (getitem_count_one (with_columns T (normalize_labels (columns T))) pk Hc).
  simpl. now rewrite map_map.
Qed.

Lemma key_strings_nil (pk : string) (T : DataFrame) :
  Py.count pk (normalize_labels (columns T)) <> 1 -> key_strings pk T = [].
Proof.
  intros Hc. unfold key_strings, getitem. cbn [columns with_columns].
  destruct (Py.count pk (normalize_labels (columns T))) as [|[|n]];
    [reflexivity | congruence | reflexivity].
Qed.

Lemma key_strings_some (pk s : string) (T : DataFrame) :
  In s (key_strings pk T) -> Py.count pk (normalize_labels (columns T)) = 1.
Proof.
  intros Hin.
  destruct (Nat.eq_dec (Py.count pk (normalize_labels (columns T))) 1) as [Hc|Hc];
    [exact Hc |].
  rewrite (key_strings_nil pk T Hc) in Hin. contradiction.
Qed.

(** The existence check on a table that has its key column is a
    membership test on the normalised text of the keys. *)
Lemma check_pk_exists_keys (pk k : string) (T : DataFrame) (scr : list widget) :
  Py.lower pk = pk ->
  Py.count pk (normalize_labels (columns T)) = 1 ->
  check_pk_exists pk k {| disk := Sheet T; screen := scr |}
  = (Returned (Py.mem (normalize_key k) (map normalize_key (key_strings pk T))),
     {| disk := Sheet T; screen := scr |}).
Proof.
  intros Hlow Hc.
  pose proof (getitem_count_one (with_columns T (normalize_labels (columns T))) pk Hc)
    as Hg.
  rewrite (check_pk_exists_sheet pk k T scr _ ltac:(rewrite Hlow; exact Hg)).
  unfold key_strings. rewrite Hg. now rewrite !map_map.
Qed.

Lemma check_pk_exists_absent (pk k : string) (T : DataFrame) (scr : list widget) :
  ~ In (Py.lower pk) (normalize_labels (columns T)) ->
  fst (check_pk_exists pk k {| disk := Sheet T; screen := scr |}) = Returned false.
Proof.
  intros Habsent. apply mem_false_iff in Habsent.
  unfold check_pk_exists, try_except, bind, path_exists, read_excel.
  cbn [disk negb].
  destruct (list_eq_dec string_dec (columns T) []) as [Hnil|Hsome].
  - now rewrite normalize_columns_none by assumption.
  - rewrite normalize_columns_some by assumption.
    cbn [columns with_columns]. now rewrite Habsent.
Qed.

Lemma check_pk_exists_finds (pk k s : string) (T : DataFrame) (scr : list widget) :
  Py.lower pk = pk ->
  In s (key_strings pk T) ->
  normalize_key k = normalize_key s ->
  check_pk_exists pk k {| disk := Sheet T; screen := scr |}
  = (Returned true, {| disk := Sheet T; screen := scr |}).
Proof.
  intros Hlow Hin Hk.
  rewrite check_pk_exists_keys by (assumption || now apply key_strings_some with (s := s)).
  f_equal. f_equal. apply mem_true_iff. rewrite Hk. now apply in_map.
Qed.

(** The date coercion leaves the keys: a primary-key label is not
    date-like. *)
Lemma key_strings_coerced (pk : string) (F : DataFrame) :
  Py.lower (Py.strip pk) = pk ->
  date_like pk = false ->
  In pk (columns F) ->
  key_strings pk (coerced F) = key_strings pk F.
Proof.
  intros Hpk Hd Hin.
  destruct (Nat.eq_dec (Py.count pk (normalize_labels (columns F))) 1) as [Hc|Hc].
  - rewrite !key_strings_unfold by exact Hc.
    cbn [coerced columns rows]. rewrite map_map_indexed.
    rewrite <- (map_indexed_const _ (rows F) 0).
    apply map_indexed_ext. intros j r. f_equal.
    rewrite !cell_at_normalized by assumption.
    rewrite cell_at_map_labelled; now rewrite Hd.
  - now rewrite !key_strings_nil by exact Hc.
Qed.

(** The keys of the table once the record is appended. *)
Lemma key_strings_appended (pk : string) (T : DataFrame) (r : record) :
  Py.count pk (normalize_labels (columns T)) = 1 ->
  key_strings pk
    {| columns := normalize_labels (columns T);
       rows := rows T ++ [map (record_get r) (normalize_labels (columns T))] |}
  = key_strings pk T ++ [astype_str (record_get r pk)].
Proof.
  intros Hc.
  assert (Hin : In pk (normalize_labels (columns T))) by (apply count_pos_iff; lia).
  rewrite (key_strings_unfold pk T Hc).
  rewrite key_strings_unfold; cbn [columns rows];
    rewrite normalize_labels_idem; [| exact Hc].
  rewrite map_app. f_equal. cbn [map]. f_equal. f_equal.
  unfold cell_at. destruct (index_of_some pk _ Hin) as [i Hi]. rewrite Hi.
  now apply nth_map_labels.
Qed.

Lemma key_strings_record (pk : string) (r : record) :
  Py.lower (Py.strip pk) = pk ->
  In pk (map fst r) ->
  Py.count pk (normalize_labels (map fst r)) = 1 ->
  key_strings pk (frame_of_record r) = [astype_str (record_get r pk)].
Proof.
  intros Hpk Hin Hc. rewrite key_strings_unfold by exact Hc.
  cbn [frame_of_record columns rows map].
  now rewrite cell_at_normalized, cell_at_record.
Qed.

End Keys.

(** ** One-row frames *)

Section OneRow.
Context `{Pandas}.

Lemma coerced_one_row (labels : list string) (row : list cell) :
  dates_unambiguous labels ->
  coerced {| columns := labels; rows := [row] |}
  = {| columns := labels; rows := [coerce_row labels row] |}.
Proof.
  intros Hu. unfold coerced, coerce_row, column_of. cbn [columns rows map_indexed map].
  apply (f_equal (Build_DataFrame labels)). f_equal.
  apply map_labelled_ext_pos. intros i l c Hl Hc.
  destruct (date_like l) eqn:Hd; [| reflexivity].
  assert (Hcell : cell_at labels row l = c).
  { unfold cell_at.
    rewrite (index_of_unique l labels i Hl
               (Hu l (nth_error_In _ _ Hl) Hd)).
    now apply nth_error_nth. }
  rewrite Hcell. destruct (datetimes [c]); reflexivity.
Qed.

End OneRow.

(** ** Update: what is persisted *)

Section UpdateWrites.
Context `{Pandas}.

(** Whatever [display_data_editor] writes is the frame the grid handed
    back, under its normalised labels, cell for cell. *)
Lemma display_data_editor_writes_edited (table_name : string)
    (data_editor : DataFrame -> option DataFrame) (save_clicked : bool) (w : world) :
  disk (snd (display_data_editor table_name data_editor save_clicked w)) = disk w
  \/ exists df edited_df,
       data_editor df = Some edited_df
       /\ disk (snd (display_data_editor table_name data_editor save_clicked w))
          = written (with_columns edited_df (normalize_labels (columns edited_df))).
Proof.
  destruct (display_data_editor table_name data_editor save_clicked w)
    as [o w'] eqn:Hrun.
  cbn [snd]. unfold display_data_editor in Hrun. unfold bind at 1 in Hrun.
  destruct (get_table_data_total table_name w) as (df & w1 & Hload & Hdisk).
  rewrite Hload in Hrun. rewrite <- Hdisk. clear Hload Hdisk w.
  unfold bind at 1, path_exists in Hrun.
  destruct (df_empty df && negb _);
    [inversion Hrun; now left |].
  unfold bind at 1 in Hrun.
  destruct ((if df_empty df && match disk w1 with Missing => false | _ => true end
             then st_info EmptyOrUnreadable else ret tt) w1) as [o2 w2] eqn:Hinfo.
  assert (Hw2 : o2 = Returned tt /\ disk w2 = disk w1).
  { destruct (df_empty df && _); inversion Hinfo; split; reflexivity. }
  destruct Hw2 as [-> Hd2]. rewrite <- Hd2. clear Hd2 Hinfo w1.
  unfold bind at 1, st_info at 1, show at 1 in Hrun.
  set (w3 := {| disk := disk w2; screen := screen w2 ++ [st_info_w EditHint] |}) in Hrun.
  change (disk w2) with (disk w3). clearbody w3. clear w2.
  destruct (data_editor df) as [edited_df|] eqn:Hedit;
    [| inversion Hrun; now left].
  destruct save_clicked; [| inversion Hrun; now left].
  destruct (df_equals edited_df df); [inversion Hrun; now left |].
  destruct (PRIMARY_KEYS table_name) as [pk_col|]; [| inversion Hrun; now left].
  unfold bind at 1 in Hrun.
  destruct (list_eq_dec string_dec (columns edited_df) []) as [Hnil|Hsome].
  { rewrite normalize_columns_none in Hrun by assumption. inversion Hrun; now left. }
  rewrite normalize_columns_some in Hrun by assumption.
  destruct (negb (Py.mem pk_col _)); [inversion Hrun; now left |].
  destruct (getitem _ pk_col) as [|pk|];
    [inversion Hrun; now left | | inversion Hrun; now left].
  destruct (existsb invalid_key pk).
  - left. unfold bind, st_error, show in Hrun. cbn [disk screen] in Hrun.
    destruct (negb _); inversion Hrun; reflexivity.
  - destruct (existsb _ _); [inversion Hrun; now left |].
    right. exists df, edited_df. split; [assumption |].
    inversion Hrun. reflexivity.
Qed.

End UpdateWrites.

(** ** Add: what is persisted *)

Section AddClaims.
Context `{Pandas}.

Lemma update_table_writes_record (table_name : string) (r : record) (d : file)
    (scr : list widget) :
  readable d = None ->
  NoDup (map fst r) ->
  update_table table_name r {| disk := d; screen := scr |}
  = (Returned tt,
     {| disk := written {| columns := map fst r;
                           rows := [coerce_row (map fst r) (map snd r)] |};
        screen := scr ++ add_messages d |}).
Proof.
  intros Hd Hnd.
  assert (Ha : appended d r = frame_of_record r) by (unfold appended; now rewrite Hd).
  rewrite update_table_writes;
    rewrite Ha; [| now apply nodup_dates_unambiguous].
  unfold frame_of_record. rewrite coerced_one_row; [reflexivity |].
  now apply nodup_dates_unambiguous.
Qed.

(** C5: when the backing file exists but cannot be parsed, [update_table]
    reports the read failure and still writes: the file becomes the
    workbook of a table of one row, the new record (its date-like cells
    coerced), under the record's own labels; nothing of the former content
    is kept. *)
Theorem update_table_overwrites_unreadable (table_name : string) (r : record)
    (scr : list widget) :
  NoDup (map fst r) ->
  update_table table_name r {| disk := Corrupt; screen := scr |}
  = (Returned tt,
     {| disk := written {| columns := map fst r;
                           rows := [coerce_row (map fst r) (map snd r)] |};
        screen := scr ++ [st_error_w AppendReadFailed;
                          st_info_w OverwriteWithNewOnly;
                          st_success_w RecordAdded] |}).
Proof.
  intros Hnd. now rewrite update_table_writes_record.
Qed.

(** C3, amended: on a readable table [T] (a sheet with columns, no
    date-like label naming two of them) [update_table] persists exactly
    [T]'s normalised columns: the rows of [T] followed by one row that
    holds the record's cell under each label the record has and [NaN]
    under the others, the record's further columns being dropped; the
    date coercion then changes neither the labels nor the number of rows.
    On the first write (no backing file), and on a sheet without any
    column, the persisted labels are the record's own. *)
Theorem update_table_keeps_table_columns (table_name : string) (r : record) :
  (forall T scr,
      columns T <> [] ->
      dates_unambiguous (normalize_labels (columns T)) ->
      update_table table_name r {| disk := Sheet T; screen := scr |}
      = (Returned tt,
         {| disk := written
              (coerced
                 {| columns := normalize_labels (columns T);
                    rows := rows T ++ [map (record_get r) (normalize_labels (columns T))] |});
            screen := scr ++ [st_success_w RecordAdded] |})
      /\ columns
           (coerced
              {| columns := normalize_labels (columns T);
                 rows := rows T ++ [map (record_get r) (normalize_labels (columns T))] |})
         = normalize_labels (columns T)
      /\ List.length
           (rows
              (coerced
                 {| columns := normalize_labels (columns T);
                    rows := rows T ++ [map (record_get r) (normalize_labels (columns T))] |}))
         = S (List.length (rows T)))
  /\ (forall l, ~ In l (map fst r) -> record_get r l = CNaN)
  /\ (forall scr,
      NoDup (map fst r) ->
      update_table table_name r {| disk := Missing; screen := scr |}
      = (Returned tt,
         {| disk := written {| columns := map fst r;
                               rows := [coerce_row (map fst r) (map snd r)] |};
            screen := scr ++ [st_info_w CreatingFile; st_success_w RecordAdded] |}))
  /\ (forall T scr,
      columns T = [] ->
      NoDup (map fst r) ->
      update_table table_name r {| disk := Sheet T; screen := scr |}
      = (Returned tt,
         {| disk := written {| columns := map fst r;
                               rows := [coerce_row (map fst r) (map snd r)] |};
            screen := scr ++ [st_error_w AppendReadFailed;
                              st_info_w OverwriteWithNewOnly;
                              st_success_w RecordAdded] |})).
Proof.
  split; [| split; [| split]].
  - intros T scr Hsome Hu.
    assert (Ha : appended (Sheet T) r
                 = {| columns := normalize_labels (columns T);
                      rows := rows T ++ [map (record_get r) (normalize_labels (columns T))] |})
      by (unfold appended; now rewrite readable_sheet).
    assert (Hm : add_messages (Sheet T) = [st_success_w RecordAdded])
      by (unfold add_messages; now rewrite readable_sheet).
    rewrite <- Ha, <- Hm. split; [| split].
    + apply update_table_writes. now rewrite Ha.
    + now rewrite Ha.
    + cbn [coerced rows]. rewrite length_map_indexed, Ha. cbn [rows].
      rewrite length_app. simpl. lia.
  - apply record_get_absent.
  - intros scr Hnd. now rewrite update_table_writes_record.
  - intros T scr Hnil Hnd.
    rewrite update_table_writes_record; [| now apply readable_empty | assumption].
    unfold add_messages. now rewrite readable_empty.
Qed.

(** C7, amended: the write of [update_table] (Add) coerces every column
    whose label contains [date] or [dob]: in each row, the cell under such
    a label is replaced by the cell [pd.to_datetime] gives at that row for
    the column as a whole, a timestamp or [NaT], and the other cells are
    written as they are; labels and number of rows stay, nothing is
    raised.  The write of [display_data_editor] (Update) coerces nothing:
    what it persists is the edited frame, cell for cell. *)
Theorem date_coercion_on_add_only (table_name : string) (r : record)
    (d : file) (scr : list widget) :
  (dates_unambiguous (columns (appended d r)) ->
   update_table table_name r {| disk := d; screen := scr |}
   = (Returned tt,
      {| disk := written (coerced (appended d r)); screen := scr ++ add_messages d |})
   /\ columns (coerced (appended d r)) = columns (appended d r)
   /\ List.length (rows (coerced (appended d r))) = List.length (rows (appended d r))
   /\ (forall j i row l c0,
         nth_error (rows (appended d r)) j = Some row ->
         nth_error (columns (appended d r)) i = Some l ->
         nth_error row i = Some c0 ->
         exists row',
           nth_error (rows (coerced (appended d r))) j = Some row'
           /\ (date_like l = false -> nth_error row' i = Some c0)
           /\ (date_like l = true ->
               exists c',
                 nth_error (datetimes (column_of (appended d r) l)) j = Some c'
                 /\ nth_error row' i = Some c'
                 /\ is_datetime c' = true)))
  /\ (forall data_editor save_clicked,
        let w' := snd (display_data_editor table_name data_editor save_clicked
                         {| disk := d; screen := scr |}) in
        disk w' = d
        \/ exists df edited_df,
             data_editor df = Some edited_df
             /\ disk w' = written (with_columns edited_df
                                     (normalize_labels (columns edited_df)))).
Proof.
  split.
  - intros Hu. set (F := appended d r) in *.
    split; [now apply update_table_writes | split; [reflexivity | split]].
    + cbn [coerced rows]. apply length_map_indexed.
    + intros j i row l c0 Hrow Hl Hc.
      eexists. split; [| split].
      * cbn [coerced rows]. rewrite (nth_error_map_indexed _ _ 0 j row Hrow).
        reflexivity.
      * intros Hd. rewrite (nth_error_map_labelled _ _ _ i l c0 Hl Hc).
        now rewrite Hd.
      * intros Hd.
        set (col := datetimes (column_of F l)).
        assert (Hj : j < List.length col).
        { subst col. rewrite length_datetimes. unfold column_of. rewrite length_map.
          apply nth_error_Some. congruence. }
        exists (nth j col c0). split; [now apply nth_error_nth' | split].
        -- rewrite (nth_error_map_labelled _ _ _ i l c0 Hl Hc).
           rewrite Hd. reflexivity.
        -- pose proof (datetimes_are_datetime (column_of F l)) as Hall.
           rewrite Forall_forall in Hall. apply Hall. now apply nth_In.
  - intros data_editor save_clicked.
    apply (display_data_editor_writes_edited table_name data_editor save_clicked
             {| disk := d; screen := scr |}).
Qed.

Lemma keeps_key_dates_unambiguous (pk : string) (d : file) (r : record) :
  keeps_key pk d r -> dates_unambiguous (columns (appended d r)).
Proof.
  unfold keeps_key, appended. destruct (readable d) as [T|]; cbn [columns];
    intros [H1 H2]; [assumption | now apply nodup_dates_unambiguous].
Qed.

(** The key of the record is among the keys of the frame [update_table]
    writes. *)
Lemma key_of_added (table_name pk : string) (r : record) (s : string) (d : file) :
  PRIMARY_KEYS table_name = Some pk ->
  record_get r pk = CStr s ->
  keeps_key pk d r ->
  In s (key_strings pk (coerced (appended d r))).
Proof.
  intros Hpk Hget Hkeep.
  assert (Hin : In pk (map fst r)).
  { destruct (in_dec string_dec pk (map fst r)) as [Hin|Hout]; [assumption |].
    apply record_get_absent in Hout. congruence. }
  destruct (primary_key_shape _ _ Hpk) as (Hlow & Hstrip & Hdate).
  assert (Hnorm : Py.lower (Py.strip pk) = pk) by now rewrite Hstrip.
  unfold keeps_key in Hkeep. unfold appended.
  destruct (readable d) as [T|]; destruct Hkeep as [H1 H2].
  - rewrite key_strings_coerced; [| assumption | assumption |].
    + rewrite key_strings_appended by assumption. rewrite Hget.
      apply in_or_app. right. now left.
    + cbn [columns]. apply count_pos_iff. lia.
  - rewrite key_strings_coerced; [| assumption | assumption | assumption].
    rewrite key_strings_record by assumption. rewrite Hget. now left.
Qed.

(** Once the record is stored and its key is read back as written, the
    existence check finds the key. *)
Lemma key_found_after_add (table_name pk : string) (r : record) (s k : string)
    (d : file) (scr : list widget) :
  PRIMARY_KEYS table_name = Some pk ->
  record_get r pk = CStr s ->
  normalize_key k = normalize_key s ->
  keeps_key pk d r ->
  keys_survive pk (coerced (appended d r)) ->
  check_pk_exists pk k {| disk := written (coerced (appended d r)); screen := scr |}
  = (Returned true, {| disk := written (coerced (appended d r)); screen := scr |}).
Proof.
  intros Hpk Hget Hk Hkeep [_ Hkeys].
  destruct (primary_key_shape _ _ Hpk) as (Hlow & _ & _).
  unfold written. apply check_pk_exists_finds with (s := s); [assumption | | assumption].
  rewrite Hkeys. now apply key_of_added with (table_name := table_name).
Qed.

(** C4, amended: for a record that carries its primary key as text, Add
    followed by the existence check on that key (however padded or cased)
    answers [True] when the key column survives the write (the backing
    file is absent or unreadable or has no column, or its table has
    exactly one primary-key column and no date-like label naming two
    columns) and the keys are read back from the written file as they were
    written.  On a table without the primary-key column the record is
    added without its key and, the header being read back as written, the
    check still answers [False]. *)
Theorem add_then_exists (table_name pk : string) (r : record) (s k : string)
    (d : file) (scr : list widget) :
  PRIMARY_KEYS table_name = Some pk ->
  record_get r pk = CStr s ->
  normalize_key k = normalize_key s ->
  (keeps_key pk d r ->
   keys_survive pk (coerced (appended d r)) ->
   exists w',
     update_table table_name r {| disk := d; screen := scr |} = (Returned tt, w')
     /\ check_pk_exists pk k w' = (Returned true, w'))
  /\ (forall T,
        d = Sheet T ->
        columns T <> [] ->
        ~ In pk (normalize_labels (columns T)) ->
        dates_unambiguous (normalize_labels (columns T)) ->
        columns (read_back (coerced (appended d r))) = columns (coerced (appended d r)) ->
        exists w',
          update_table table_name r {| disk := d; screen := scr |} = (Returned tt, w')
          /\ fst (check_pk_exists pk k w') = Returned false).
Proof.
  intros Hpk Hget Hk. split.
  - intros Hkeep Hsurv. eexists. split.
    + apply update_table_writes. now apply keeps_key_dates_unambiguous with (pk := pk).
    + now apply key_found_after_add with (table_name := table_name) (s := s).
  - intros T -> Hsome Habsent Hu Hhead.
    assert (Ha : appended (Sheet T) r
                 = {| columns := normalize_labels (columns T);
                      rows := rows T ++ [map (record_get r) (normalize_labels (columns T))] |})
      by (unfold appended; now rewrite readable_sheet).
    eexists. split; [apply update_table_writes; now rewrite Ha |].
    destruct (primary_key_shape _ _ Hpk) as (Hlow & _ & _).
    unfold written. apply check_pk_exists_absent.
    rewrite Hhead, Ha, Hlow. cbn [coerced columns].
    now rewrite normalize_labels_idem.
Qed.

End AddClaims.

(** ** Delete *)

Lemma filter_out_none {A} (key : A -> string) (k : string) (xs : list A) :
  ~ In k (map key xs) ->
  filter (fun x => negb (String.eqb (key x) k)) xs = xs.
Proof.
  induction xs as [|x xs IH]; simpl; intros Hout; [reflexivity |].
  destruct (String.eqb_spec (key x) k) as [E|Hne]; [tauto |].
  simpl. f_equal. apply IH. tauto.
Qed.

Lemma filter_out_one {A} (key : A -> string) (k : string) (xs : list A) :
  NoDup (map key xs) -> In k (map key xs) ->
  S (List.length (filter (fun x => negb (String.eqb (key x) k)) xs)) = List.length xs.
Proof.
  induction xs as [|x xs IH]; simpl; intros Hnd Hin; [contradiction |].
  inversion Hnd as [|? ? Hx Hnd']; subst.
  destruct (String.eqb_spec (key x) k) as [E|Hne]; simpl.
  - subst k. now rewrite filter_out_none.
  - f_equal. apply IH; [assumption |]. destruct Hin; [congruence | assumption].
Qed.

Lemma filter_length_lt {A} (key : A -> string) (k : string) (xs : list A) :
  In k (map key xs) ->
  List.length (filter (fun x => negb (String.eqb (key x) k)) xs) < List.length xs.
Proof.
  induction xs as [|x xs IH]; simpl; intros Hin; [contradiction |].
  destruct (String.eqb_spec (key x) k) as [E|Hne]; simpl.
  - pose proof (filter_length_le (fun x => negb (String.eqb (key x) k)) xs). lia.
  - apply -> Nat.succ_lt_mono. apply IH. destruct Hin; [congruence | assumption].
Qed.

Section Delete.
Context `{Pandas}.

(** The table [delete_record] writes for the key text [k]: the rows
    whose key text is not [k], under the normalised labels. *)
Lemma filtered_unfold (pk k : string) (T : DataFrame) :
  filter_rows (with_columns T (normalize_labels (columns T))) pk
    (fun c => negb (String.eqb (astype_str c) k))
  = {| columns := normalize_labels (columns T);
       rows := filter
                 (fun r => negb (String.eqb
                                   (astype_str (cell_at (normalize_labels (columns T)) r pk))
                                   k))
                 (rows T) |}.
Proof. reflexivity. Qed.

Lemma delete_record_one_key_column (table_name pk : string) (T : DataFrame)
    (k : string) (scr : list widget) :
  PRIMARY_KEYS table_name = Some pk ->
  Py.count pk (normalize_labels (columns T)) = 1 ->
  delete_record table_name k {| disk := Sheet T; screen := scr |}
  = (let df := with_columns T (normalize_labels (columns T)) in
     let df_filtered :=
       filter_rows df pk (fun c => negb (String.eqb (astype_str c) k)) in
     if Nat.ltb (List.length (rows df_filtered)) (List.length (rows df))
     then (Returned true,
           {| disk := written df_filtered; screen := scr ++ [st_success_w Removed] |})
     else (Returned false,
           {| disk := Sheet T; screen := scr ++ [st_warning_w NotFoundError] |})).
Proof.
  intros Hpk Hc.
  destruct (primary_key_shape _ _ Hpk) as (Hlow & _ & _).
  assert (Hm : Py.mem pk (normalize_labels (columns T)) = true).
  { apply mem_true_iff, count_pos_iff. lia. }
  unfold delete_record, try_except, bind at 1, path_exists.
  cbn [disk negb]. rewrite Hpk. unfold read_excel, bind at 1. cbn [disk screen].
  unfold bind at 1.
  rewrite normalize_columns_some by (now apply count_one_nonempty with (l := pk)).
  rewrite Hlow. cbn [columns with_columns]. rewrite Hm. cbn [negb].
  rewrite (getitem_count_one (with_columns T (normalize_labels (columns T))) pk Hc).
  cbv zeta. destruct (Nat.ltb _ _); reflexivity.
Qed.

Lemma delete_record_no_key_column (table_name pk : string) (T : DataFrame)
    (k : string) (scr : list widget) :
  PRIMARY_KEYS table_name = Some pk ->
  Py.count pk (normalize_labels (columns T)) <> 1 ->
  exists reports,
    delete_record table_name k {| disk := Sheet T; screen := scr |}
    = (Returned false, {| disk := Sheet T; screen := scr ++ reports |}).
Proof.
  intros Hpk Hc.
  destruct (primary_key_shape _ _ Hpk) as (Hlow & _ & _).
  unfold delete_record, try_except, bind at 1, path_exists.
  cbn [disk negb]. rewrite Hpk. unfold read_excel, bind at 1. cbn [disk screen].
  unfold bind at 1.
  destruct (list_eq_dec string_dec (columns T) []) as [Hnil|Hsome].
  { rewrite normalize_columns_none by assumption.
    exists [st_error_w DeleteFailed; st_error_w Traceback].
    unfold bind, st_error, show, ret; cbn [disk screen]. now rewrite <- app_assoc. }
  rewrite normalize_columns_some by assumption.
  rewrite Hlow. cbn [columns with_columns].
  destruct (Py.mem pk (normalize_labels (columns T))) eqn:Hm; cbn [negb].
  - unfold getitem. cbn [columns with_columns].
    destruct (Py.count pk (normalize_labels (columns T))) as [|[|n]] eqn:Hn.
    + apply count_zero_iff, mem_false_iff in Hn. congruence.
    + congruence.
    + exists [st_warning_w NotFoundError]. reflexivity.
  - eexists. reflexivity.
Qed.

Lemma delete_record_present (table_name pk : string) (T : DataFrame) (k : string)
    (scr : list widget) :
  PRIMARY_KEYS table_name = Some pk ->
  In k (key_strings pk T) ->
  delete_record table_name k {| disk := Sheet T; screen := scr |}
  = (Returned true,
     {| disk := written
          (filter_rows (with_columns T (normalize_labels (columns T))) pk
             (fun c => negb (String.eqb (astype_str c) k)));
        screen := scr ++ [st_success_w Removed] |}).
Proof.
  intros Hpk Hin. pose proof (key_strings_some _ _ _ Hin) as Hc.
  rewrite (key_strings_unfold pk T Hc) in Hin.
  rewrite (delete_record_one_key_column _ _ _ _ _ Hpk Hc). cbv zeta.
  cbn [filter_rows rows columns with_columns].
  pose proof (filter_length_lt _ k (rows T) Hin) as Hlt.
  apply Nat.ltb_lt in Hlt. now rewrite Hlt.
Qed.

Lemma delete_record_absent (table_name pk : string) (T : DataFrame) (k : string)
    (scr : list widget) :
  PRIMARY_KEYS table_name = Some pk ->
  Py.count pk (normalize_labels (columns T)) = 1 ->
  ~ In k (key_strings pk T) ->
  delete_record table_name k {| disk := Sheet T; screen := scr |}
  = (Returned false,
     {| disk := Sheet T; screen := scr ++ [st_warning_w NotFoundError] |}).
Proof.
  intros Hpk Hc Hout. rewrite (key_strings_unfold pk T Hc) in Hout.
  rewrite (delete_record_one_key_column _ _ _ _ _ Hpk Hc). cbv zeta.
  cbn [filter_rows rows columns with_columns].
  rewrite (filter_out_none
             (fun r => astype_str (cell_at (normalize_labels (columns T)) r pk))
             k (rows T) Hout).
  now rewrite Nat.ltb_irrefl.
Qed.

Lemma key_strings_after_delete (pk : string) (T : DataFrame) (k : string) :
  Py.count pk (normalize_labels (columns T)) = 1 ->
  key_strings pk
    (filter_rows (with_columns T (normalize_labels (columns T))) pk
       (fun c => negb (String.eqb (astype_str c) k)))
  = filter (fun t => negb (String.eqb t k)) (key_strings pk T).
Proof.
  intros Hc. rewrite filtered_unfold. rewrite (key_strings_unfold pk T Hc).
  rewrite key_strings_unfold; cbn [columns rows];
    rewrite normalize_labels_idem; [| exact Hc].
  induction (rows T) as [|r rs IH]; simpl; [reflexivity |].
  destruct (String.eqb _ k); simpl; now rewrite IH.
Qed.

(** C6: on a table whose primary-key cells are pairwise distinct as text,
    [delete_record] of a key that some row carries persists the table
    without that row (the rows whose key text is not the key, under the
    normalised labels: one row fewer, the key gone, the other rows kept)
    and answers [True]; of a key no row carries, it leaves the file as it
    is and answers [False], with the not-found warning whenever the table
    has its key column. *)
Theorem delete_record_by_key (table_name pk : string) (T : DataFrame) (k : string)
    (scr : list widget) :
  PRIMARY_KEYS table_name = Some pk ->
  NoDup (key_strings pk T) ->
  (In k (key_strings pk T) ->
   exists T',
     T' = filter_rows (with_columns T (normalize_labels (columns T))) pk
            (fun c => negb (String.eqb (astype_str c) k))
     /\ delete_record table_name k {| disk := Sheet T; screen := scr |}
        = (Returned true,
           {| disk := written T'; screen := scr ++ [st_success_w Removed] |})
     /\ columns T' = normalize_labels (columns T)
     /\ S (List.length (rows T')) = List.length (rows T)
     /\ ~ In k (key_strings pk T')
     /\ (forall row,
           In row (rows T')
           <-> In row (rows T)
               /\ astype_str (cell_at (normalize_labels (columns T)) row pk) <> k))
  /\ (~ In k (key_strings pk T) ->
      exists reports,
        delete_record table_name k {| disk := Sheet T; screen := scr |}
        = (Returned false, {| disk := Sheet T; screen := scr ++ reports |})
        /\ (Py.count pk (normalize_labels (columns T)) = 1 ->
            reports = [st_warning_w NotFoundError])).
Proof.
  intros Hpk Hnd. split.
  - intros Hin. pose proof (key_strings_some _ _ _ Hin) as Hc.
    eexists. split; [reflexivity |].
    split; [now apply delete_record_present |].
    split; [reflexivity |].
    split; [| split].
    + rewrite (key_strings_unfold pk T Hc) in Hnd, Hin.
      exact (filter_out_one _ k (rows T) Hnd Hin).
    + rewrite key_strings_after_delete by assumption.
      intros Hk. apply filter_In in Hk. destruct Hk as [_ Hk].
      now rewrite String.eqb_refl in Hk.
    + intros row. cbn [filter_rows rows columns with_columns].
      rewrite filter_In. rewrite negb_true_iff, String.eqb_neq. reflexivity.
  - intros Hout.
    destruct (Nat.eq_dec (Py.count pk (normalize_labels (columns T))) 1) as [Hc|Hc].
    + exists [st_warning_w NotFoundError]. split; [| reflexivity].
      now apply delete_record_absent with (pk := pk).
    + destruct (delete_record_no_key_column table_name pk T k scr Hpk Hc)
        as [reports Hrun].
      exists reports. split; [exact Hrun | intros Hc'; contradiction].
Qed.

(** C1: [delete_record] compares the text of the key cells as it is,
    where the existence check trims and lowercases both sides.  On a
    table that stores a key whose text is [k] once trimmed and lowercased
    but is not [k] itself (the text [" 7 "] for [k = "7"], in a column
    that holds text), the existence check finds [k], yet [delete_record]
    finds no row for [k]: it keeps the row, writes nothing and reports
    not-found. *)
Theorem delete_record_misses_padded_key (table_name pk : string) (T : DataFrame)
    (s k : string) (scr : list widget) :
  PRIMARY_KEYS table_name = Some pk ->
  In s (key_strings pk T) ->
  normalize_key s = normalize_key k ->
  ~ In k (key_strings pk T) ->
  check_pk_exists pk k {| disk := Sheet T; screen := scr |}
  = (Returned true, {| disk := Sheet T; screen := scr |})
  /\ delete_record table_name k {| disk := Sheet T; screen := scr |}
     = (Returned false,
        {| disk := Sheet T; screen := scr ++ [st_warning_w NotFoundError] |}).
Proof.
  intros Hpk Hin Hsame Hout.
  destruct (primary_key_shape _ _ Hpk) as (Hlow & _ & _).
  split.
  - now apply check_pk_exists_finds with (s := s).
  - apply delete_record_absent with (pk := pk); [assumption | | assumption].
    now apply key_strings_some with (s := s).
Qed.

End Delete.

(** ** The staff form, from submission to the existence check *)

Section StaffForm.
Context `{Pandas}.

(** The answer and the messages of the existence check depend on the file
    only. *)
Lemma check_pk_exists_effect (pk k : string) (d : file) :
  exists b msgs, forall scr,
    check_pk_exists pk k {| disk := d; screen := scr |}
    = (Returned b, {| disk := d; screen := scr ++ msgs |}).
Proof.
  unfold check_pk_exists, try_except, bind at 1, path_exists.
  destruct d as [| |T]; cbn [disk screen negb].
  - exists false, []. intros scr. now rewrite app_nil_r.
  - exists false, [st_error_w CheckFailed]. reflexivity.
  - unfold read_excel, bind at 1. cbn [disk]. unfold bind at 1.
    destruct (list_eq_dec string_dec (columns T) []) as [Hnil|Hsome].
    { exists false, [st_error_w CheckFailed]. intros scr.
      now rewrite normalize_columns_none by assumption. }
    destruct (Py.mem (Py.lower pk) (normalize_labels (columns T))) eqn:Hm.
    + destruct (getitem (with_columns T (normalize_labels (columns T))) (Py.lower pk))
        as [|cells|] eqn:Hg.
      * exists false, [st_error_w CheckFailed]. intros scr.
        rewrite normalize_columns_some by assumption.
        cbn [columns with_columns]. rewrite Hm. cbn [negb]. now rewrite Hg.
      * eexists _, []. intros scr.
        rewrite normalize_columns_some by assumption.
        cbn [columns with_columns]. rewrite Hm. cbn [negb]. rewrite Hg.
        unfold ret. now rewrite app_nil_r.
      * exists false, [st_error_w CheckFailed]. intros scr.
        rewrite normalize_columns_some by assumption.
        cbn [columns with_columns]. rewrite Hm. cbn [negb]. now rewrite Hg.
    + exists false, [st_warning_w SchemaError]. intros scr.
      rewrite normalize_columns_some by assumption.
      cbn [columns with_columns]. now rewrite Hm.
Qed.

Lemma staff_record_is_dict (f : Admin.form) (clock : string) :
  NoDup (map fst (Admin.new_record f clock))
  /\ Py.count "admin_id" (normalize_labels (map fst (Admin.new_record f clock))) = 1
  /\ In "admin_id" (map fst (Admin.new_record f clock)).
Proof.
  split; [| split; [reflexivity | now left]].
  repeat constructor; simpl; intuition discriminate.
Qed.

End StaffForm.

(** ** The student form *)

Lemma add_student_raises (pk_column table_name : string) (f : Student.form)
    (last_updated : string) (w : world) :
  add_student pk_column table_name f last_updated w
  = (Raised (NameError "student_name"), w).
Proof. reflexivity. Qed.

(** C10: a submission of the student form with a required field left
    empty ends in an error and writes nothing: line 154 reads the name
    [student_name], which nothing binds (the widget is bound to
    [student_Name]), so the submission stops there with [NameError], the
    heading and the form shown, before any check and before the file is
    touched. *)
Theorem add_student_with_empty_required_field (ui : add_input)
    (last_updated : string) (w : world) :
  submitted ui = true ->
  Student.some_required_empty (student_form ui) = true ->
  add_new_record_form "students" ui last_updated w
  = (Raised (NameError "student_name"),
     {| disk := disk w;
        screen := screen w ++ [st_subheader_w AddRecordHeading; st_info_w FormIntro] |}).
Proof.
  intros Hs _. unfold add_new_record_form, bind, st_subheader, st_info, show.
  cbn [PRIMARY_KEYS String.eqb Ascii.eqb Bool.eqb disk screen]. rewrite Hs.
  rewrite add_student_raises. now rewrite <- app_assoc.
Qed.

Lemma add_student_with_empty_required_field_witness :
  submitted {| student_form := Sample.pupil; admin_form := Sample.staff;
               submitted := true |} = true
  /\ Student.some_required_empty Sample.pupil = true
  /\ add_new_record_form "students"
       {| student_form := Sample.pupil; admin_form := Sample.staff; submitted := true |}
       Sample.clock (Sample.on_disk Missing)
     = (Raised (NameError "student_name"),
        {| disk := Missing;
           screen := [st_subheader_w AddRecordHeading; st_info_w FormIntro] |}).
Proof.
  split; [reflexivity | split; [reflexivity |]].
  apply (add_student_with_empty_required_field
           {| student_form := Sample.pupil; admin_form := Sample.staff;
              submitted := true |}); reflexivity.
Defined.

(** ** Keys that differ in padding or case *)

Lemma padded_key_stored : In " 7 " (key_strings "student_id" Sample.padded_key).
Proof. simpl. tauto. Defined.

Lemma seven_not_stored : ~ In "7" (key_strings "student_id" Sample.padded_key).
Proof. simpl. intuition discriminate. Defined.

Lemma delete_record_misses_padded_key_witness :
  PRIMARY_KEYS "students" = Some "student_id"
  /\ In " 7 " (key_strings "student_id" Sample.padded_key)
  /\ normalize_key " 7 " = normalize_key "7"
  /\ ~ In "7" (key_strings "student_id" Sample.padded_key)
  /\ valid_ids_to_delete "students" (Sample.on_disk (Sheet Sample.padded_key))
     = (Returned ["7"; "A8"], Sample.on_disk (Sheet Sample.padded_key))
  /\ check_pk_exists "student_id" "7" (Sample.on_disk (Sheet Sample.padded_key))
     = (Returned true, Sample.on_disk (Sheet Sample.padded_key))
  /\ delete_record "students" "7" (Sample.on_disk (Sheet Sample.padded_key))
     = (Returned false,
        {| disk := Sheet Sample.padded_key; screen := [st_warning_w NotFoundError] |}).
Proof.
  split; [reflexivity | split; [exact padded_key_stored | split; [reflexivity |]]].
  split; [exact seven_not_stored | split; [reflexivity |]].
  exact (delete_record_misses_padded_key "students" "student_id" Sample.padded_key
           " 7 " "7" [] eq_refl padded_key_stored eq_refl seven_not_stored).
Defined.

(** C2: an edit that leaves the keys ["A1"] and ["a1 "], equal once
    trimmed and lowercased, passes the duplicate check of
    [display_data_editor], which compares the text as it is, and is
    saved. *)
Theorem display_data_editor_saves_case_variants :
  normalize_key "A1" = normalize_key "a1 "
  /\ display_data_editor "students" (fun _ => Some Sample.case_variants) true
       (Sample.on_disk (Sheet Sample.two_students))
     = (Returned tt,
        {| disk := Sheet Sample.case_variants;
           screen := [st_info_w EditHint; st_success_w Saved] |}).
Proof. split; reflexivity. Qed.

(** ** Concrete runs *)

Lemma short_record_is_dict : NoDup (map fst Sample.short_record).
Proof.
  repeat constructor; simpl; intuition discriminate.
Defined.

Lemma update_table_overwrites_unreadable_witness :
  NoDup (map fst Sample.short_record)
  /\ update_table "students" Sample.short_record (Sample.on_disk Corrupt)
     = (Returned tt,
        {| disk := written {| columns := ["student_id"; "email"; "dob"];
                              rows := [[CStr "S2"; CStr "s2@school.org"; CNaT]] |};
           screen := [st_error_w AppendReadFailed; st_info_w OverwriteWithNewOnly;
                      st_success_w RecordAdded] |}).
Proof.
  split; [exact short_record_is_dict |].
  exact (update_table_overwrites_unreadable "students" Sample.short_record []
           short_record_is_dict).
Defined.

(** C3 as stated fails: the label [email] of the record is not among the
    columns of the table that is written. *)
Lemma update_table_drops_new_columns :
  exists T',
    update_table "students" Sample.short_record
      (Sample.on_disk (Sheet Sample.one_student))
    = (Returned tt, {| disk := written T'; screen := [st_success_w RecordAdded] |})
    /\ In "email" (columns Sample.one_student ++ map fst Sample.short_record)
    /\ ~ In "email" (columns T')
    /\ ~ In "email" (columns (read_back T')).
Proof.
  eexists. split; [reflexivity | split; [| split]].
  - simpl. tauto.
  - simpl. intros [E|[]]. discriminate E.
  - vm_compute. intros [E|[]]. discriminate E.
Qed.

Lemma one_student_has_columns : columns Sample.one_student <> [].
Proof. discriminate. Defined.

Lemma one_student_dates_unambiguous :
  dates_unambiguous (normalize_labels (columns Sample.one_student)).
Proof.
  intros l [<-|[]] Hd. discriminate Hd.
Defined.

Lemma update_table_keeps_table_columns_witness :
  columns Sample.one_student <> []
  /\ dates_unambiguous (normalize_labels (columns Sample.one_student))
  /\ update_table "students" Sample.short_record (Sample.on_disk (Sheet Sample.one_student))
     = (Returned tt,
        {| disk := written {| columns := ["student_id"];
                              rows := [[CStr "S1"]; [CStr "S2"]] |};
           screen := [st_success_w RecordAdded] |}).
Proof.
  split; [exact one_student_has_columns | split; [exact one_student_dates_unambiguous |]].
  exact (proj1 (proj1 (update_table_keeps_table_columns "students" Sample.short_record)
                  Sample.one_student [] one_student_has_columns
                  one_student_dates_unambiguous)).
Defined.

(** C4 as stated fails: the key ["A1"] is not in the table, the record is
    added, and the key is still not found. *)
Lemma add_then_exists_fails_without_key_column :
  let r := Admin.new_record Sample.staff Sample.clock in
  let w := Sample.on_disk (Sheet Sample.staff_without_key) in
  fst (check_pk_exists "admin_id" "A1" w) = Returned false
  /\ fst (update_table "college_admin_data" r w) = Returned tt
  /\ disk (snd (update_table "college_admin_data" r w))
     = written {| columns := ["full_name"; "email"];
                  rows := [[CStr "Ann Wu"; CStr "ann@school.org"];
                           [CStr "Bo Li"; CStr "bo@school.org"]] |}
  /\ fst (check_pk_exists "admin_id" "A1" (snd (update_table "college_admin_data" r w)))
     = Returned false.
Proof. repeat split. Qed.

(** It fails, too, for a key that is text of digits: the id [007] is
    written as text and read back as the number [7]. *)
Lemma add_then_exists_fails_for_digits :
  let f := {| Admin.admin_id := "007"; Admin.full_name := "Bo Li";
              Admin.email := "bo@school.org"; Admin.phone_number := "";
              Admin.gender := "Other"; Admin.dob := 0; Admin.address := "";
              Admin.position := "Clerk"; Admin.department := "Office";
              Admin.date_joined := 0; Admin.employment_status := "Active";
              Admin.salary := "1500.0"; Admin.work_shift := "Morning" |} in
  let r := Admin.new_record f Sample.clock in
  let w := Sample.on_disk Missing in
  record_get r "admin_id" = CStr "007"
  /\ fst (update_table "college_admin_data" r w) = Returned tt
  /\ key_strings "admin_id" (coerced (appended Missing r)) = ["007"]
  /\ key_strings "admin_id" (read_back (coerced (appended Missing r))) = ["7"]
  /\ fst (check_pk_exists "admin_id" "007" (snd (update_table "college_admin_data" r w)))
     = Returned false.
Proof. repeat split. Qed.

Lemma staff_with_key_keeps_key :
  keeps_key "admin_id" (Sheet Sample.staff_with_key)
    (Admin.new_record Sample.staff Sample.clock).
Proof.
  split; [reflexivity |].
  intros l [<-|[<-|[<-|[]]]] Hd; (discriminate Hd || reflexivity).
Defined.

Lemma staff_with_key_survives :
  keys_survive "admin_id"
    (coerced (appended (Sheet Sample.staff_with_key)
                (Admin.new_record Sample.staff Sample.clock))).
Proof. split; reflexivity. Defined.

Lemma add_then_exists_witness :
  PRIMARY_KEYS "college_admin_data" = Some "admin_id"
  /\ record_get (Admin.new_record Sample.staff Sample.clock) "admin_id" = CStr "A1"
  /\ normalize_key " a1 " = normalize_key "A1"
  /\ keeps_key "admin_id" (Sheet Sample.staff_with_key)
       (Admin.new_record Sample.staff Sample.clock)
  /\ keys_survive "admin_id"
       (coerced (appended (Sheet Sample.staff_with_key)
                   (Admin.new_record Sample.staff Sample.clock)))
  /\ exists w',
       update_table "college_admin_data" (Admin.new_record Sample.staff Sample.clock)
         (Sample.on_disk (Sheet Sample.staff_with_key)) = (Returned tt, w')
       /\ check_pk_exists "admin_id" " a1 " w' = (Returned true, w').
Proof.
  split; [reflexivity | split; [reflexivity | split; [reflexivity | split]]].
  - exact staff_with_key_keeps_key.
  - split; [exact staff_with_key_survives |].
    exact (proj1 (add_then_exists "college_admin_data" "admin_id"
                    (Admin.new_record Sample.staff Sample.clock) "A1" " a1 "
                    (Sheet Sample.staff_with_key) [] eq_refl eq_refl eq_refl)
             staff_with_key_keeps_key staff_with_key_survives).
Defined.

(** C7 as stated fails: Update writes the edited table as it is; the text
    ["unknown"] under [dob] is persisted, neither a timestamp nor a null. *)
Lemma display_data_editor_writes_dates_unchanged :
  date_like "dob" = true
  /\ datetimes [CStr "unknown"] = [CNaT]
  /\ is_datetime (CStr "unknown") = false
  /\ isnull (CStr "unknown") = false
  /\ display_data_editor "students" (fun _ => Some Sample.birthday_unknown) true
       (Sample.on_disk (Sheet Sample.with_birthday))
     = (Returned tt,
        {| disk := written {| columns := ["student_id"; "dob"];
                              rows := [[CStr "S1"; CStr "unknown"]] |};
           screen := [st_info_w EditHint; st_success_w Saved] |})
  /\ read_back {| columns := ["student_id"; "dob"];
                  rows := [[CStr "S1"; CStr "unknown"]] |}
     = {| columns := ["student_id"; "dob"]; rows := [[CStr "S1"; CStr "unknown"]] |}.
Proof. repeat split. Qed.

Lemma with_birthday_dates_unambiguous :
  dates_unambiguous (columns (appended (Sheet Sample.with_birthday) Sample.short_record)).
Proof.
  intros l [<-|[<-|[]]] Hd; (discriminate Hd || reflexivity).
Defined.

Lemma date_coercion_on_add_only_witness :
  dates_unambiguous (columns (appended (Sheet Sample.with_birthday) Sample.short_record))
  /\ update_table "students" Sample.short_record
       (Sample.on_disk (Sheet Sample.with_birthday))
     = (Returned tt,
        {| disk := written
             {| columns := ["student_id"; "dob"];
                rows := [[CStr "S1"; CTime 1272931200000000000]; [CStr "S2"; CNaT]] |};
           screen := [st_success_w RecordAdded] |}).
Proof.
  split; [exact with_birthday_dates_unambiguous |].
  exact (proj1 (proj1 (date_coercion_on_add_only "students" Sample.short_record
                         (Sheet Sample.with_birthday) [])
                  with_birthday_dates_unambiguous)).
Defined.

Lemma two_admins_distinct : NoDup (key_strings "admin_id" Sample.two_admins).
Proof.
  repeat constructor; simpl; intuition discriminate.
Defined.

Lemma one_is_stored : In "1" (key_strings "admin_id" Sample.two_admins).
Proof. simpl. tauto. Defined.

Lemma three_is_not_stored : ~ In "3" (key_strings "admin_id" Sample.two_admins).
Proof. simpl. intuition discriminate. Defined.

Lemma delete_record_by_key_witness :
  PRIMARY_KEYS "college_admin_data" = Some "admin_id"
  /\ NoDup (key_strings "admin_id" Sample.two_admins)
  /\ In "1" (key_strings "admin_id" Sample.two_admins)
  /\ delete_record "college_admin_data" "1" (Sample.on_disk (Sheet Sample.two_admins))
     = (Returned true,
        {| disk := written {| columns := ["admin_id"]; rows := [[CInt 2]] |};
           screen := [st_success_w Removed] |})
  /\ ~ In "3" (key_strings "admin_id" Sample.two_admins)
  /\ delete_record "college_admin_data" "3" (Sample.on_disk (Sheet Sample.two_admins))
     = (Returned false,
        {| disk := Sheet Sample.two_admins; screen := [st_warning_w NotFoundError] |}).
Proof.
  split; [reflexivity | split; [exact two_admins_distinct |]].
  split; [exact one_is_stored | split; [| split; [exact three_is_not_stored |]]].
  - destruct (proj1 (delete_record_by_key "college_admin_data" "admin_id"
                       Sample.two_admins "1" [] eq_refl two_admins_distinct)
                one_is_stored)
      as (T' & HT' & Hrun & _).
    rewrite HT' in Hrun. exact Hrun.
  - destruct (proj2 (delete_record_by_key "college_admin_data" "admin_id"
                       Sample.two_admins "3" [] eq_refl two_admins_distinct)
                three_is_not_stored)
      as (reports & Hrun & Hrep).
    rewrite (Hrep eq_refl) in Hrun. exact Hrun.
Defined.

(** * Further properties *)

(** ** The existence check and Delete together *)

Lemma nodup_map_injective {A B} (f : A -> B) (xs : list A) (a b : A) :
  NoDup (map f xs) -> In a xs -> In b xs -> f a = f b -> a = b.
Proof.
  induction xs as [|x xs IH]; simpl; intros Hnd Ha Hb Hab; [contradiction |].
  inversion Hnd as [|? ? Hx Hnd']; subst.
  destruct Ha as [<-|Ha], Hb as [<-|Hb].
  - reflexivity.
  - exfalso. apply Hx. rewrite Hab. now apply in_map.
  - exfalso. apply Hx. rewrite <- Hab. now apply in_map.
  - now apply IH.
Qed.

Section KeysTogether.
Context `{Pandas}.

(** X1: the existence check does not look at the case or at the
    surrounding white space of the candidate: two candidates equal once
    trimmed and lowercased get the same answer and the same messages,
    whatever the file. *)
Theorem check_pk_exists_ignores_case_and_padding (pk k1 k2 : string) (w : world) :
  normalize_key k1 = normalize_key k2 ->
  check_pk_exists pk k1 w = check_pk_exists pk k2 w.
Proof.
  intros Hk. destruct w as [d scr].
  unfold check_pk_exists, try_except, bind, path_exists, read_excel.
  destruct d as [| |T]; cbn [disk negb]; try reflexivity.
  destruct (normalize_columns T _) as [[df|e] w']; [| reflexivity].
  destruct (negb _); [reflexivity |].
  destruct (getitem _ _); try reflexivity.
  unfold ret. now rewrite Hk.
Qed.

(** X2: [delete_record] removes every row whose key text is [k], however
    many there are, and keeps the other rows in their order; the labels
    are written normalised. *)
Theorem delete_record_removes_every_match (table_name pk : string) (T : DataFrame)
    (k : string) (scr : list widget) :
  PRIMARY_KEYS table_name = Some pk ->
  Py.count pk (normalize_labels (columns T)) = 1 ->
  In k (key_strings pk T) ->
  exists T',
    delete_record table_name k {| disk := Sheet T; screen := scr |}
    = (Returned true, {| disk := written T'; screen := scr ++ [st_success_w Removed] |})
    /\ columns T' = normalize_labels (columns T)
    /\ rows T'
       = filter (fun r => negb (String.eqb
                                  (astype_str (cell_at (normalize_labels (columns T)) r pk))
                                  k))
                (rows T)
    /\ key_strings pk T' = filter (fun t => negb (String.eqb t k)) (key_strings pk T)
    /\ List.length (rows T') < List.length (rows T).
Proof.
  intros Hpk Hc Hin.
  eexists. split; [exact (delete_record_present table_name pk T k scr Hpk Hin) |].
  split; [reflexivity | split; [reflexivity | split]].
  - now apply key_strings_after_delete.
  - rewrite (key_strings_unfold pk T Hc) in Hin.
    now apply (filter_length_lt
                 (fun r => astype_str (cell_at (normalize_labels (columns T)) r pk))).
Qed.

(** X3: deleting the same key a second time finds nothing.  When the
    table the first call wrote is read back with the header and the keys
    it was written with, the second call answers [False], warns not-found
    and leaves the file as the first call wrote it. *)
Theorem delete_record_twice (table_name pk : string) (T : DataFrame) (k : string)
    (scr : list widget) :
  PRIMARY_KEYS table_name = Some pk ->
  Py.count pk (normalize_labels (columns T)) = 1 ->
  In k (key_strings pk T) ->
  keys_survive pk
    (filter_rows (with_columns T (normalize_labels (columns T))) pk
       (fun c => negb (String.eqb (astype_str c) k))) ->
  exists w1,
    delete_record table_name k {| disk := Sheet T; screen := scr |} = (Returned true, w1)
    /\ delete_record table_name k w1
       = (Returned false,
          {| disk := disk w1; screen := screen w1 ++ [st_warning_w NotFoundError] |}).
Proof.
  intros Hpk Hc Hin [Hhead Hkeys]. eexists.
  split; [exact (delete_record_present table_name pk T k scr Hpk Hin) |].
  cbn [disk screen]. unfold written.
  apply delete_record_absent with (pk := pk); [assumption | |].
  - rewrite Hhead. cbn [filter_rows columns with_columns].
    now rewrite normalize_labels_idem.
  - rewrite Hkeys, key_strings_after_delete by assumption.
    intros Hk. apply filter_In in Hk. destruct Hk as [_ Hk].
    now rewrite String.eqb_refl in Hk.
Qed.

(** X4: on a table whose keys are pairwise distinct once trimmed and
    lowercased, deleting a stored key makes the existence check answer
    [False] for it, and for every candidate that differs from it in
    case or padding only, when the table that is written is read back
    with the header and the keys it was written with. *)
Theorem delete_then_exists (table_name pk : string) (T : DataFrame) (k k' : string)
    (scr : list widget) :
  PRIMARY_KEYS table_name = Some pk ->
  Py.count pk (normalize_labels (columns T)) = 1 ->
  NoDup (map normalize_key (key_strings pk T)) ->
  In k (key_strings pk T) ->
  normalize_key k' = normalize_key k ->
  keys_survive pk
    (filter_rows (with_columns T (normalize_labels (columns T))) pk
       (fun c => negb (String.eqb (astype_str c) k))) ->
  exists w1,
    delete_record table_name k {| disk := Sheet T; screen := scr |} = (Returned true, w1)
    /\ check_pk_exists pk k' w1 = (Returned false, w1).
Proof.
  intros Hpk Hc Hnd Hin Hk' [Hhead Hkeys]. eexists.
  split; [exact (delete_record_present table_name pk T k scr Hpk Hin) |].
  destruct (primary_key_shape _ _ Hpk) as (Hlow & _ & _).
  unfold written. rewrite check_pk_exists_keys; [| assumption |].
  - f_equal. f_equal. apply mem_false_iff.
    rewrite Hkeys, key_strings_after_delete by assumption.
    rewrite in_map_iff. intros (t & Ht & Hin').
    apply filter_In in Hin'. destruct Hin' as [Hin' Hne].
    assert (t = k).
    { apply (nodup_map_injective normalize_key (key_strings pk T)); try assumption.
      now rewrite Ht. }
    subst t. now rewrite String.eqb_refl in Hne.
  - rewrite Hhead. cbn [filter_rows columns with_columns].
    now rewrite normalize_labels_idem.
Qed.

(** X5: [delete_record] never raises, and it changes the file only when
    it answers [True]: on a missing or unreadable file, on a table that is
    not registered, without its key column or without a matching row, the
    file is left as it was. *)
Theorem delete_record_safe (table_name k : string) (w : world) :
  exists b w',
    delete_record table_name k w = (Returned b, w')
    /\ (b = false -> disk w' = disk w)
    /\ (disk w = Missing \/ disk w = Corrupt \/ PRIMARY_KEYS table_name = None ->
        b = false).
Proof.
  destruct w as [d scr].
  unfold delete_record, try_except, bind at 1, path_exists.
  destruct d as [| |T]; cbn [disk negb].
  - do 2 eexists. split; [reflexivity |]. split; [reflexivity | reflexivity].
  - destruct (PRIMARY_KEYS table_name); do 2 eexists;
      (split; [reflexivity |]); split; reflexivity.
  - destruct (PRIMARY_KEYS table_name) as [pk|].
    + unfold read_excel, bind at 1. cbn [disk]. unfold bind at 1.
      destruct (list_eq_dec string_dec (columns T) []) as [Hnil|Hsome].
      { rewrite normalize_columns_none by assumption.
        do 2 eexists. split; [reflexivity |]. split; [reflexivity |].
        intros [E|[E|E]]; discriminate E. }
      rewrite normalize_columns_some by assumption.
      cbn [disk screen columns with_columns].
      destruct (negb (Py.mem _ _)).
      * do 2 eexists. split; [reflexivity |]. split; [reflexivity |].
        intros [E|[E|E]]; discriminate E.
      * destruct (getitem _ _).
        -- do 2 eexists. split; [reflexivity |]. split; [reflexivity |].
           intros [E|[E|E]]; discriminate E.
        -- cbv zeta. destruct (Nat.ltb _ _).
           ++ do 2 eexists. split; [reflexivity |]. split; [discriminate |].
              intros [E|[E|E]]; discriminate E.
           ++ do 2 eexists. split; [reflexivity |]. split; [reflexivity |].
              intros [E|[E|E]]; discriminate E.
        -- do 2 eexists. split; [reflexivity |]. split; [reflexivity |].
           intros [E|[E|E]]; discriminate E.
    + do 2 eexists. split; [reflexivity |]. split; reflexivity.
Qed.

End KeysTogether.

(** ** Add and Delete together *)

Lemma filter_out_last {A} (key : A -> string) (s : string) (xs : list A) :
  forall ks,
    map key xs = ks ++ [s] -> ~ In s ks ->
    filter (fun x => negb (String.eqb (key x) s)) xs = removelast xs.
Proof.
  induction xs as [|x xs IH]; intros ks Hmap Hout.
  - destruct ks; discriminate Hmap.
  - destruct ks as [|k0 ks]; simpl in Hmap; inversion Hmap as [[Hx Hrest]].
    + destruct xs; [| discriminate Hrest].
      simpl. now rewrite String.eqb_refl.
    + cbn [filter].
      destruct (String.eqb_spec (key x) s) as [E|Hne].
      * exfalso. apply Hout. left. congruence.
      * cbn [negb]. rewrite (IH ks Hrest) by (intros Hs; apply Hout; now right).
        destruct xs; [destruct ks; discriminate Hrest | reflexivity].
Qed.

Section AddRoundTrip.
Context `{Pandas}.

(** X6: Delete undoes Add.  When the record's key text is not yet a key
    of the table and the table [update_table] writes is read back with the
    header and the keys it was written with, [delete_record] of that key
    finds the record and removes the row that was appended, and no other:
    it writes the rows read back from the file but the last. *)
Theorem add_then_delete (table_name pk : string) (T : DataFrame) (r : record)
    (s : string) (scr : list widget) :
  PRIMARY_KEYS table_name = Some pk ->
  record_get r pk = CStr s ->
  Py.count pk (normalize_labels (columns T)) = 1 ->
  dates_unambiguous (normalize_labels (columns T)) ->
  ~ In s (key_strings pk T) ->
  keys_survive pk (coerced (appended (Sheet T) r)) ->
  exists w1 w2,
    update_table table_name r {| disk := Sheet T; screen := scr |} = (Returned tt, w1)
    /\ delete_record table_name s w1 = (Returned true, w2)
    /\ disk w2
       = written
           {| columns := normalize_labels (columns T);
              rows := removelast (rows (read_back (coerced (appended (Sheet T) r)))) |}.
Proof.
  intros Hpk Hget Hc Hu Hnew [Hhead Hkeys].
  destruct (primary_key_shape _ _ Hpk) as (_ & Hstrip & Hd).
  assert (Hnorm : Py.lower (Py.strip pk) = pk)
    by (rewrite Hstrip; apply (primary_key_shape _ _ Hpk)).
  assert (Hsome : columns T <> []) by (now apply count_one_nonempty with (l := pk)).
  assert (Ha : appended (Sheet T) r
               = {| columns := normalize_labels (columns T);
                    rows := rows T ++ [map (record_get r) (normalize_labels (columns T))] |})
    by (unfold appended; now rewrite readable_sheet).
  set (F := coerced (appended (Sheet T) r)) in *.
  assert (HF : key_strings pk F = key_strings pk T ++ [s]).
  { subst F. rewrite Ha. rewrite key_strings_coerced; [| assumption | assumption |].
    - rewrite key_strings_appended by assumption. now rewrite Hget.
    - cbn [columns]. apply count_pos_iff. lia. }
  assert (Hcols : columns (read_back F) = normalize_labels (columns T)).
  { rewrite Hhead. subst F. now rewrite Ha. }
  assert (Hc1 : Py.count pk (normalize_labels (columns (read_back F))) = 1).
  { rewrite Hcols. now rewrite normalize_labels_idem. }
  do 2 eexists. split; [apply update_table_writes; now rewrite Ha |].
  fold F. unfold written at 1. split.
  - apply (delete_record_present table_name pk); [assumption |].
    rewrite Hkeys, HF. apply in_or_app. right. now left.
  - cbn [disk]. f_equal. rewrite filtered_unfold.
    rewrite Hcols, normalize_labels_idem. f_equal.
    apply filter_out_last with (ks := key_strings pk T); [| assumption].
    rewrite <- HF, <- Hkeys. rewrite (key_strings_unfold pk _ Hc1).
    rewrite Hcols. now rewrite normalize_labels_idem.
Qed.

End AddRoundTrip.

(** ** The "Add New Record" tab *)

Lemma empty_text_is_blank (s : string) :
  Py.nonempty s = false -> Py.nonempty (Py.strip s) = false.
Proof.
  destruct s; [reflexivity | discriminate].
Qed.

Lemma some_text_empty (texts : list string) (rest : list pyval) :
  forallb truthy rest = true ->
  negb (forallb truthy (map PStr texts ++ rest))
  = existsb (fun s => negb (Py.nonempty s)) texts.
Proof.
  intros Hrest. induction texts as [|s texts IH]; simpl.
  - now rewrite Hrest.
  - destruct (Py.nonempty s); simpl; [exact IH | reflexivity].
Qed.

Lemma some_text_blank (texts : list string) :
  existsb (fun s => negb (Py.nonempty s)) texts = true ->
  negb (forallb str_strip_truthy (map PStr texts)) = true.
Proof.
  induction texts as [|s texts IH]; simpl; [discriminate |].
  destruct (Py.nonempty s) eqn:Hs; simpl.
  - intros Hex. rewrite negb_andb, (IH Hex). apply orb_true_r.
  - intros _. now rewrite (empty_text_is_blank s Hs).
Qed.

Lemma required_check (texts : list string) (rest : list pyval) :
  forallb truthy rest = true ->
  negb (forallb str_strip_truthy (map PStr texts))
  && negb (forallb truthy (map PStr texts ++ rest))
  = existsb (fun s => negb (Py.nonempty s)) texts.
Proof.
  intros Hrest. rewrite (some_text_empty texts rest Hrest).
  destruct (existsb _ texts) eqn:Hex.
  - now rewrite (some_text_blank texts Hex).
  - apply andb_false_r.
Qed.

Section StaffTab.
Context `{Pandas}.

(** The staff form once submitted: the required-field test of lines
    202-206 is the test "some required text is empty". *)
Lemma staff_form_run (ui : add_input) (clock : string) (d : file) (scr : list widget) :
  submitted ui = true ->
  add_new_record_form "college_admin_data" ui clock {| disk := d; screen := scr |}
  = (if existsb (fun s => negb (Py.nonempty s)) (staff_required_texts (admin_form ui))
     then st_error FillRequired
     else if negb (Py.nonempty (Py.strip (Admin.admin_id (admin_form ui)))) then
            st_error EmptyKeyError
          else
            bind (check_pk_exists "admin_id" (Admin.admin_id (admin_form ui)))
              (fun found =>
                 if found then st_error DuplicateKeyError
                 else bind (update_table "college_admin_data"
                              (Admin.new_record (admin_form ui) clock))
                        (fun _ => st_rerun)))
      {| disk := d;
         screen := scr ++ [st_subheader_w AddRecordHeading; st_info_w FormIntro] |}.
Proof.
  intros Hsub.
  unfold add_new_record_form, bind at 1, st_subheader, show.
  cbn [PRIMARY_KEYS String.eqb Ascii.eqb Bool.eqb disk screen].
  unfold bind at 1, st_info, show. cbn [disk screen]. rewrite Hsub.
  rewrite <- app_assoc. cbn [app].
  unfold add_admin. unfold bind at 1.
  cbn [load_names load_name lookup_name Admin.locals String.eqb Ascii.eqb Bool.eqb
       bind ret filter].
  set (f := admin_form ui).
  pose proof (required_check (staff_required_texts f) [PDate (Admin.date_joined f)]
                eq_refl) as Hreq.
  cbn [staff_required_texts map app] in Hreq.
  destruct (negb (forallb str_strip_truthy _)) eqn:H1;
    destruct (negb (forallb truthy _)) eqn:H2;
    cbn [andb] in Hreq; rewrite <- Hreq; try reflexivity.
Qed.

End StaffTab.

Section StaffClaims.
Context `{Pandas}.

(** X7: a submitted staff form is turned down, and the file left as it
    is, when a required text is empty (message "fill all required
    fields") and, all of them being non-empty, when the id is white space
    only (message "cannot be empty"). *)
Theorem add_admin_rejects_empty (ui : add_input) (clock : string) (d : file)
    (scr : list widget) :
  submitted ui = true ->
  (existsb (fun s => negb (Py.nonempty s)) (staff_required_texts (admin_form ui)) = true ->
   add_new_record_form "college_admin_data" ui clock {| disk := d; screen := scr |}
   = (Returned tt,
      {| disk := d; screen := scr ++ add_tab_heading ++ [st_error_w FillRequired] |}))
  /\ (existsb (fun s => negb (Py.nonempty s)) (staff_required_texts (admin_form ui)) = false ->
      Py.nonempty (Py.strip (Admin.admin_id (admin_form ui))) = false ->
      add_new_record_form "college_admin_data" ui clock {| disk := d; screen := scr |}
      = (Returned tt,
         {| disk := d; screen := scr ++ add_tab_heading ++ [st_error_w EmptyKeyError] |})).
Proof.
  intros Hsub. split.
  - intros Hempty. rewrite staff_form_run by assumption. rewrite Hempty.
    unfold st_error, show. cbn [disk screen]. now rewrite <- app_assoc.
  - intros Hfull Hblank. rewrite staff_form_run by assumption.
    rewrite Hfull, Hblank. cbn [negb].
    unfold st_error, show. cbn [disk screen]. now rewrite <- app_assoc.
Qed.

Lemma add_admin_accepted (ui : add_input) (clock : string) (d : file)
    (scr : list widget) :
  submitted ui = true ->
  existsb (fun s => negb (Py.nonempty s)) (staff_required_texts (admin_form ui)) = false ->
  Py.nonempty (Py.strip (Admin.admin_id (admin_form ui))) = true ->
  fst (check_pk_exists "admin_id" (Admin.admin_id (admin_form ui))
         {| disk := d; screen := scr |}) = Returned false ->
  dates_unambiguous (columns (appended d (Admin.new_record (admin_form ui) clock))) ->
  exists msgs,
    add_new_record_form "college_admin_data" ui clock {| disk := d; screen := scr |}
    = (Returned tt,
       {| disk := written (coerced (appended d (Admin.new_record (admin_form ui) clock)));
          screen := scr ++ add_tab_heading ++ msgs ++ add_messages d ++ [st_rerun_w] |}).
Proof.
  intros Hsub Hfull Hid Hnew Hu.
  destruct (check_pk_exists_effect "admin_id" (Admin.admin_id (admin_form ui)) d)
    as (b & msgs & Hcheck).
  rewrite Hcheck in Hnew. simpl in Hnew. injection Hnew as ->.
  exists msgs. rewrite staff_form_run by assumption.
  rewrite Hfull, Hid. cbn [negb]. unfold bind at 1. rewrite Hcheck.
  unfold bind at 1. rewrite update_table_writes by assumption.
  unfold st_rerun, show. cbn [disk screen].
  now rewrite <- !app_assoc.
Qed.

Lemma add_admin_duplicate (ui : add_input) (clock : string) (d : file)
    (scr : list widget) :
  submitted ui = true ->
  existsb (fun s => negb (Py.nonempty s)) (staff_required_texts (admin_form ui)) = false ->
  Py.nonempty (Py.strip (Admin.admin_id (admin_form ui))) = true ->
  fst (check_pk_exists "admin_id" (Admin.admin_id (admin_form ui))
         {| disk := d; screen := scr |}) = Returned true ->
  exists msgs,
    add_new_record_form "college_admin_data" ui clock {| disk := d; screen := scr |}
    = (Returned tt,
       {| disk := d; screen := scr ++ add_tab_heading ++ msgs ++ [st_error_w DuplicateKeyError] |}).
Proof.
  intros Hsub Hfull Hid Hold.
  destruct (check_pk_exists_effect "admin_id" (Admin.admin_id (admin_form ui)) d)
    as (b & msgs & Hcheck).
  rewrite Hcheck in Hold. simpl in Hold. injection Hold as ->.
  exists msgs. rewrite staff_form_run by assumption.
  rewrite Hfull, Hid. cbn [negb]. unfold bind at 1. rewrite Hcheck.
  unfold st_error, show. cbn [disk screen].
  now rewrite <- !app_assoc.
Qed.

(** X8: the required-field test of the staff form looks for empty texts,
    not for blank ones.  A submission whose required texts are all
    non-empty, whose id is not blank and is not found by the existence
    check is stored, each text trimmed: a name of white space only is
    accepted and stored as the empty text.  What is written is the table
    read from the file with the record appended or, when no table can be
    read (no file, an unreadable one, a sheet without columns), the record
    alone. *)
Theorem add_admin_accepts_nonempty (ui : add_input) (clock : string) (d : file)
    (scr : list widget) :
  submitted ui = true ->
  existsb (fun s => negb (Py.nonempty s)) (staff_required_texts (admin_form ui)) = false ->
  Py.nonempty (Py.strip (Admin.admin_id (admin_form ui))) = true ->
  fst (check_pk_exists "admin_id" (Admin.admin_id (admin_form ui))
         {| disk := d; screen := scr |}) = Returned false ->
  dates_unambiguous (columns (appended d (Admin.new_record (admin_form ui) clock))) ->
  exists w',
    add_new_record_form "college_admin_data" ui clock {| disk := d; screen := scr |}
    = (Returned tt, w')
    /\ disk w' = written (coerced (appended d (Admin.new_record (admin_form ui) clock)))
    /\ record_get (Admin.new_record (admin_form ui) clock) "full_name"
       = CStr (Py.strip (Admin.full_name (admin_form ui))).
Proof.
  intros Hsub Hfull Hid Hnew Hu.
  destruct (add_admin_accepted ui clock d scr Hsub Hfull Hid Hnew Hu) as [msgs Hrun].
  eexists. split; [exact Hrun |]. split; reflexivity.
Qed.

(** X9: a submitted staff form whose id the existence check finds (the
    comparison being on the trimmed, lowercased text) is turned down as a
    duplicate and the file is left as it is. *)
Theorem add_admin_rejects_existing_key (ui : add_input) (clock : string) (d : file)
    (scr : list widget) :
  submitted ui = true ->
  existsb (fun s => negb (Py.nonempty s)) (staff_required_texts (admin_form ui)) = false ->
  Py.nonempty (Py.strip (Admin.admin_id (admin_form ui))) = true ->
  fst (check_pk_exists "admin_id" (Admin.admin_id (admin_form ui))
         {| disk := d; screen := scr |}) = Returned true ->
  exists w' shown,
    add_new_record_form "college_admin_data" ui clock {| disk := d; screen := scr |}
    = (Returned tt, w')
    /\ disk w' = d
    /\ screen w' = shown ++ [st_error_w DuplicateKeyError].
Proof.
  intros Hsub Hfull Hid Hold.
  destruct (add_admin_duplicate ui clock d scr Hsub Hfull Hid Hold) as [msgs Hrun].
  do 2 eexists. split; [exact Hrun |]. split; [reflexivity |].
  cbn [screen]. rewrite !app_assoc. reflexivity.
Qed.

(** X10: submitting the same staff form twice stores it once.  After a
    first submission that is accepted (first write, unreadable file, or a
    table with its [admin_id] column) and whose table is read back with
    the header and the keys it was written with, the same submission, or
    one whose id differs in case or padding only, is turned down as a
    duplicate and leaves the file as the first one wrote it. *)
Theorem add_admin_twice (ui ui2 : add_input) (clock clock2 : string) (d : file)
    (scr : list widget) :
  submitted ui = true ->
  existsb (fun s => negb (Py.nonempty s)) (staff_required_texts (admin_form ui)) = false ->
  Py.nonempty (Py.strip (Admin.admin_id (admin_form ui))) = true ->
  fst (check_pk_exists "admin_id" (Admin.admin_id (admin_form ui))
         {| disk := d; screen := scr |}) = Returned false ->
  match readable d with
  | Some T =>
      Py.count "admin_id" (normalize_labels (columns T)) = 1
      /\ dates_unambiguous (normalize_labels (columns T))
  | None => True
  end ->
  keys_survive "admin_id"
    (coerced (appended d (Admin.new_record (admin_form ui) clock))) ->
  submitted ui2 = true ->
  existsb (fun s => negb (Py.nonempty s)) (staff_required_texts (admin_form ui2)) = false ->
  normalize_key (Admin.admin_id (admin_form ui2))
  = normalize_key (Admin.admin_id (admin_form ui)) ->
  exists w1 w2 shown,
    add_new_record_form "college_admin_data" ui clock {| disk := d; screen := scr |}
    = (Returned tt, w1)
    /\ add_new_record_form "college_admin_data" ui2 clock2 w1 = (Returned tt, w2)
    /\ disk w2 = disk w1
    /\ screen w2 = shown ++ [st_error_w DuplicateKeyError].
Proof.
  intros Hsub Hfull Hid Hnew Hd Hsurv Hsub2 Hfull2 Hsame.
  set (f := admin_form ui) in *. set (r := Admin.new_record f clock) in *.
  destruct (staff_record_is_dict f clock) as (Hnd & Hcount & Hin).
  assert (Hkeep : keeps_key "admin_id" d r)
    by (unfold keeps_key; destruct (readable d); tauto).
  pose proof (keeps_key_dates_unambiguous _ _ _ Hkeep) as Hu.
  destruct (add_admin_accepted ui clock d scr Hsub Hfull Hid Hnew Hu) as [msgs Hrun].
  fold f r in Hrun.
  assert (Hid2 : Py.nonempty (Py.strip (Admin.admin_id (admin_form ui2))) = true).
  { unfold normalize_key in Hsame.
    destruct (Py.strip (Admin.admin_id (admin_form ui2))) eqn:E2; [| reflexivity].
    destruct (Py.strip (Admin.admin_id f)) eqn:E1; [discriminate Hid |].
    discriminate Hsame. }
  assert (Hfound : forall scr',
    check_pk_exists "admin_id" (Admin.admin_id (admin_form ui2))
      {| disk := written (coerced (appended d r)); screen := scr' |}
    = (Returned true, {| disk := written (coerced (appended d r)); screen := scr' |})).
  { intros scr'.
    apply key_found_after_add
      with (table_name := "college_admin_data") (s := Py.strip (Admin.admin_id f));
      [reflexivity | reflexivity | | assumption | assumption].
    rewrite Hsame. symmetry. apply normalize_key_strip. }
  destruct (add_admin_duplicate ui2 clock2 (written (coerced (appended d r)))
              (scr ++ add_tab_heading ++ msgs ++ add_messages d ++ [st_rerun_w])
              Hsub2 Hfull2 Hid2 ltac:(now rewrite Hfound)) as [msgs2 Hrun2].
  do 3 eexists. split; [exact Hrun |]. split; [exact Hrun2 |].
  split; [reflexivity |]. cbn [screen]. rewrite !app_assoc. reflexivity.
Qed.

End StaffClaims.

(** ** The student form and the tab as a whole *)

Section AddTab.
Context `{Pandas}.

Lemma add_student_stops (pk_column table_name : string) (f : Student.form)
    (last_updated : string) (w : world) :
  add_student pk_column table_name f last_updated w
  = (Raised (NameError "student_name"), w).
Proof. reflexivity. Qed.

(** X11: no submission of the student form adds a record.  Whatever the
    form holds, line 154 reads the unbound name [student_name] and the
    run stops with [NameError], after the add_tab_heading and the form and before
    any check or write. *)
Theorem add_student_never_adds (ui : add_input) (last_updated : string) (w : world) :
  submitted ui = true ->
  add_new_record_form "students" ui last_updated w
  = (Raised (NameError "student_name"),
     {| disk := disk w;
        screen := screen w ++ [st_subheader_w AddRecordHeading; st_info_w FormIntro] |}).
Proof.
  intros Hs. unfold add_new_record_form, bind, st_subheader, st_info, show.
  cbn [PRIMARY_KEYS String.eqb Ascii.eqb Bool.eqb disk screen]. rewrite Hs.
  rewrite add_student_stops. now rewrite <- app_assoc.
Qed.

(** X12: the "Add New Record" tab changes the file only through a
    submitted staff form whose required texts are non-empty and whose id
    is not blank: a form that is not submitted, the student form, and a
    table that is not registered leave the file as it is. *)
Theorem add_new_record_form_writes_only_staff (table_name : string) (ui : add_input)
    (last_updated : string) (w : world) :
  disk (snd (add_new_record_form table_name ui last_updated w)) <> disk w ->
  table_name = "college_admin_data"
  /\ submitted ui = true
  /\ existsb (fun s => negb (Py.nonempty s)) (staff_required_texts (admin_form ui)) = false
  /\ Py.nonempty (Py.strip (Admin.admin_id (admin_form ui))) = true.
Proof.
  intros Hchanged.
  destruct (String.eqb_spec table_name "college_admin_data") as [->|Hother].
  - destruct (submitted ui) eqn:Hsub.
    + destruct w as [d scr]. rewrite staff_form_run in Hchanged by assumption.
      destruct (existsb _ _); [exfalso; now apply Hchanged |].
      destruct (Py.nonempty _); [| exfalso; now apply Hchanged].
      repeat split.
    + exfalso. apply Hchanged.
      unfold add_new_record_form, bind, st_subheader, st_info, show.
      cbn [PRIMARY_KEYS String.eqb Ascii.eqb Bool.eqb disk screen]. now rewrite Hsub.
  - exfalso. apply Hchanged.
    unfold add_new_record_form, bind at 1, st_subheader, show. cbn [disk screen].
    unfold PRIMARY_KEYS.
    destruct (String.eqb_spec table_name "students") as [->|Hns].
    + unfold bind, st_info, show. cbn [disk screen].
      destruct (submitted ui); [now rewrite add_student_stops | reflexivity].
    + apply String.eqb_neq in Hother. rewrite Hother. reflexivity.
Qed.

End AddTab.

(** ** Loading: the view the tabs work on *)

Lemma str_strip_idem (c : cell) : str_strip (str_strip c) = str_strip c.
Proof.
  destruct c; simpl; try reflexivity. now rewrite strip_idem.
Qed.

Lemma column_of_mapped (g : string -> cell -> cell) (labels : list string)
    (rs : list (list cell)) (l : string) :
  g l CNaN = CNaN ->
  map (fun r => cell_at labels r l) (map (map_labelled g labels) rs)
  = map (fun r => g l (cell_at labels r l)) rs.
Proof.
  intros Hg. rewrite map_map. apply map_ext. intros r.
  now apply cell_at_map_labelled.
Qed.

Lemma filter_combine_ext {A B} (f : A * B -> bool) (g : B -> bool) :
  forall (xs : list A) (ys : list B),
    List.length xs = List.length ys ->
    (forall x y, In (x, y) (combine xs ys) -> f (x, y) = g y) ->
    map snd (filter f (combine xs ys)) = filter g ys.
Proof.
  induction xs as [|x xs IH]; intros [|y ys] Hlen Hfg; try discriminate Hlen;
    [reflexivity |].
  cbn [combine filter]. rewrite (Hfg x y (or_introl eq_refl)).
  rewrite <- (IH ys); [destruct (g y); reflexivity | simpl in Hlen; lia |].
  intros x' y' Hin. apply Hfg. now right.
Qed.

Lemma in_combine_seq {B} (ys : list B) :
  forall a i y, In (i, y) (combine (seq a (List.length ys)) ys) ->
                a <= i /\ nth_error ys (i - a) = Some y.
Proof.
  induction ys as [|y0 ys IH]; intros a i y Hin; [contradiction |].
  cbn [List.length seq combine] in Hin. destruct Hin as [E|Hin].
  - inversion E; subst. split; [lia |]. now rewrite Nat.sub_diag.
  - destruct (IH (S a) i y Hin) as [Hle Hnth]. split; [lia |].
    replace (i - a) with (S (i - S a)) by lia. exact Hnth.
Qed.

(** On a header that names each column once, the columns of dtype
    [object] are found by their labels. *)
Lemma object_labels_by_label (df : DataFrame) :
  NoDup (columns df) ->
  object_labels df
  = filter (fun l => is_object (map (fun r => cell_at (columns df) r l) (rows df)))
           (columns df).
Proof.
  intros Hnd. unfold object_labels.
  apply (filter_combine_ext
           (fun il => is_object (column df (fst il)))
           (fun l => is_object (map (fun r => cell_at (columns df) r l) (rows df)))).
  - apply length_seq.
  - intros i l Hin. apply in_combine_seq in Hin. destruct Hin as [_ Hnth].
    rewrite Nat.sub_0_r in Hnth. cbn [fst]. f_equal. unfold column.
    apply map_ext. intros r. unfold cell_at.
    rewrite (index_of_unique l (columns df) i Hnth); [reflexivity |].
    apply nodup_count_one; [assumption |]. eapply nth_error_In; eassumption.
Qed.

Lemma strip_loop (ls : list string) :
  forall df w,
    NoDup ls ->
    (forall l, In l ls ->
       Py.count l (columns df) = 1
       /\ is_object (map (fun r => cell_at (columns df) r l) (rows df)) = true) ->
    for_each ls strip_object_column df w
    = (Returned
         {| columns := columns df;
            rows := map (map_labelled
                           (fun l c => if Py.mem l ls then str_strip c else c)
                           (columns df)) (rows df) |}, w).
Proof.
  induction ls as [|l ls IH]; intros df w Hnd Hls.
  - simpl. unfold ret. destruct df as [cs rs]; simpl.
    rewrite map_rows_id; [reflexivity | reflexivity].
  - inversion Hnd as [|? ? Hl Hnd']; subst.
    destruct (Hls l (or_introl eq_refl)) as [Hc Hobj].
    cbn [for_each]. unfold bind at 1, strip_object_column at 1.
    rewrite (getitem_count_one df l Hc), Hobj. unfold ret at 1.
    rewrite IH; [| assumption |].
    + same_frame. rewrite map_map. apply map_ext. intros row.
      rewrite map_labelled_compose. apply map_labelled_ext_in.
      intros l0 c _. cbn [Py.mem existsb]. fold (Py.mem l0 ls).
      destruct (String.eqb_spec l0 l) as [->|Hne]; simpl; [| reflexivity].
      apply mem_false_iff in Hl. now rewrite Hl.
    + intros l' Hl'. destruct (Hls l' (or_intror Hl')) as [Hc' Hobj'].
      cbn [columns rows assign]. split; [assumption |].
      rewrite column_of_mapped.
      * rewrite <- Hobj'. f_equal. apply map_ext. intros r.
        destruct (String.eqb_spec l' l) as [->|Hne]; [contradiction | reflexivity].
      * destruct (String.eqb l' l); reflexivity.
Qed.

Lemma get_table_data_loaded (table_name : string) (T : DataFrame) (scr : list widget) :
  columns T <> [] ->
  NoDup (normalize_labels (columns T)) ->
  get_table_data table_name {| disk := Sheet T; screen := scr |}
  = (Returned (loaded T), {| disk := Sheet T; screen := scr |}).
Proof.
  intros Hsome Hnd. unfold get_table_data, try_except, bind at 1, path_exists.
  cbn [disk]. unfold bind at 1, read_excel. cbn [disk].
  unfold bind at 1. rewrite normalize_columns_some by assumption.
  set (df := with_columns T (normalize_labels (columns T))).
  assert (Hobj : object_labels df
                 = filter (fun l => is_object (map (fun r => cell_at (columns df) r l)
                                                   (rows df)))
                          (columns df))
    by (apply object_labels_by_label; exact Hnd).
  unfold bind at 1. rewrite strip_loop.
  - reflexivity.
  - rewrite Hobj. apply NoDup_filter. exact Hnd.
  - intros l Hl. rewrite Hobj in Hl. apply filter_In in Hl.
    destruct Hl as [Hin Hisobj]. split; [| exact Hisobj].
    now apply nodup_count_one.
Qed.

(** On a sheet without columns the labels cannot be normalised: the
    read error is shown and the empty frame returned. *)
Lemma get_table_data_empty_sheet (table_name : string) (T : DataFrame)
    (scr : list widget) :
  columns T = [] ->
  get_table_data table_name {| disk := Sheet T; screen := scr |}
  = (Returned empty_frame,
     {| disk := Sheet T; screen := scr ++ [st_error_w ReadError] |}).
Proof.
  intros Hnil. unfold get_table_data, try_except, bind at 1, path_exists.
  cbn [disk]. unfold bind at 1, read_excel. cbn [disk].
  unfold bind at 1. now rewrite normalize_columns_none by assumption.
Qed.

Lemma loaded_idem (T : DataFrame) :
  NoDup (normalize_labels (columns T)) -> loaded (loaded T) = loaded T.
Proof.
  intros Hnd.
  set (labels := normalize_labels (columns T)) in *.
  set (T0 := with_columns T labels).
  set (f := fun l c => if Py.mem l (object_labels T0) then str_strip c else c).
  assert (HL : loaded T = {| columns := labels; rows := map (map_labelled f labels) (rows T) |})
    by reflexivity.
  set (L := loaded T) in *.
  assert (Hdf : with_columns L (normalize_labels (columns L)) = L).
  { rewrite HL. cbn [columns]. unfold labels. rewrite normalize_labels_idem.
    reflexivity. }
  assert (Hc : columns L = labels) by (rewrite HL; reflexivity).
  assert (Hr : rows L = map (map_labelled f labels) (rows T)) by (rewrite HL; reflexivity).
  assert (HO0 : object_labels T0
                = filter (fun l => is_object (map (fun r => cell_at labels r l) (rows T)))
                         labels)
    by (apply (object_labels_by_label T0); exact Hnd).
  assert (HOL : object_labels L
                = filter (fun l => is_object (map (fun r => cell_at labels r l) (rows L)))
                         labels).
  { pose proof (object_labels_by_label L) as HO. rewrite Hc in HO. now apply HO. }
  unfold loaded. rewrite Hdf. fold L. rewrite Hc, Hr.
  etransitivity; [| symmetry; exact HL].
  apply (f_equal (Build_DataFrame _)).
  rewrite map_map. apply map_ext. intros row.
  rewrite map_labelled_compose.
  rewrite <- (map_labelled_ext_in f) with (labels := labels); [reflexivity |].
  intros l c Hin. cbv beta. unfold f.
  destruct (Py.mem l (object_labels T0)) eqn:HO.
  - destruct (Py.mem l (object_labels L)); [now rewrite str_strip_idem | reflexivity].
  - replace (Py.mem l (object_labels L)) with false; [reflexivity |].
    symmetry. apply mem_false_iff. intros Hl.
    rewrite HOL in Hl. apply filter_In in Hl. destruct Hl as [_ Hobj].
    rewrite Hr in Hobj.
    rewrite column_of_mapped in Hobj by (unfold f; destruct (Py.mem l _); reflexivity).
    apply mem_false_iff in HO. apply HO.
    rewrite HO0. apply filter_In. split; [exact Hin |].
    rewrite <- Hobj. f_equal. apply map_ext.
    intros r. unfold f. apply mem_false_iff in HO. now rewrite HO.
Qed.

Section Loading.
Context `{Pandas}.

(** X13: what [get_table_data] hands out for a readable file whose sheet
    has columns and whose header names each of them once (after
    normalisation): the labels trimmed and lowercased, as many rows as the
    sheet has, and under each label of a text ([object]) column the text
    trimmed and whatever is not text replaced by [NaN]; the cells of the
    other columns as stored.  The file is not touched and nothing is
    shown. *)
Theorem get_table_data_view (table_name : string) (T : DataFrame) (scr : list widget) :
  columns T <> [] ->
  NoDup (normalize_labels (columns T)) ->
  exists df,
    get_table_data table_name {| disk := Sheet T; screen := scr |}
    = (Returned df, {| disk := Sheet T; screen := scr |})
    /\ columns df = normalize_labels (columns T)
    /\ Forall2
         (fun before after =>
            forall l,
              cell_at (columns df) after l
              = if Py.mem l (object_labels (with_columns T (normalize_labels (columns T))))
                then str_strip (cell_at (columns df) before l)
                else cell_at (columns df) before l)
         (rows T) (rows df).
Proof.
  intros Hsome Hnd. exists (loaded T).
  split; [now apply get_table_data_loaded | split; [reflexivity |]].
  unfold loaded. cbn [columns rows with_columns].
  induction (rows T) as [|row rs IH]; simpl; constructor; [| exact IH].
  intros l. rewrite cell_at_map_labelled; [reflexivity |].
  destruct (Py.mem l _); reflexivity.
Qed.

(** X14: loading is idempotent.  A file that holds a frame
    [get_table_data] handed out is loaded back as that same frame, with
    the same messages (none, unless the sheet has no column): the
    normalisation of labels and text changes nothing the second time. *)
Theorem get_table_data_idempotent (table_name : string) (T : DataFrame)
    (scr scr' : list widget) :
  NoDup (normalize_labels (columns T)) ->
  exists df msgs,
    get_table_data table_name {| disk := Sheet T; screen := scr |}
    = (Returned df, {| disk := Sheet T; screen := scr ++ msgs |})
    /\ get_table_data table_name {| disk := Sheet df; screen := scr' |}
       = (Returned df, {| disk := Sheet df; screen := scr' ++ msgs |})
    /\ (columns T <> [] -> msgs = []).
Proof.
  intros Hnd.
  destruct (list_eq_dec string_dec (columns T) []) as [Hnil|Hsome].
  - exists empty_frame, [st_error_w ReadError].
    split; [now apply get_table_data_empty_sheet |].
    split; [now apply get_table_data_empty_sheet | congruence].
  - exists (loaded T), []. rewrite !app_nil_r.
    split; [now apply get_table_data_loaded |]. split; [| reflexivity].
    rewrite get_table_data_loaded.
    + now rewrite loaded_idem.
    + change (columns (loaded T)) with (normalize_labels (columns T)).
      unfold normalize_labels. destruct (columns T); [congruence | discriminate].
    + change (columns (loaded T)) with (normalize_labels (columns T)).
      now rewrite normalize_labels_idem.
Qed.

End Loading.

(** ** The "Delete Record" tab: the ids it offers *)

Lemma unique_incl (xs : list string) :
  forall seen x, In x (unique seen xs) -> In x xs /\ ~ In x seen.
Proof.
  induction xs as [|y ys IH]; intros seen x Hx; simpl in Hx; [contradiction |].
  destruct (Py.mem y seen) eqn:Hy.
  - destruct (IH seen x Hx). split; [now right | assumption].
  - destruct Hx as [<-|Hx].
    + split; [now left | now apply mem_false_iff].
    + destruct (IH (y :: seen) x Hx) as [Hin Hout]. split; [now right |].
      intros Hs. apply Hout. now right.
Qed.

Lemma unique_nodup (xs : list string) : forall seen, NoDup (unique seen xs).
Proof.
  induction xs as [|y ys IH]; intros seen; simpl; [constructor |].
  destruct (Py.mem y seen); [apply IH |].
  constructor; [| apply IH].
  intros Hy. apply unique_incl in Hy. destruct Hy as [_ Hy]. apply Hy. now left.
Qed.



Section DeleteTab.
Context `{Pandas}.

(** X15: every id the "Delete Record" tab offers is offered once, is not
    blank and is not the text of a null ([nan], [nat] in any case),
    whatever the file. *)
Theorem valid_ids_to_delete_well_formed (table_name : string) (w w' : world)
    (ids : list string) :
  valid_ids_to_delete table_name w = (Returned ids, w') ->
  NoDup ids
  /\ forall i, In i ids ->
       Py.strip i <> ""
       /\ Py.lower i <> "nan" /\ Py.lower i <> "nat".
Proof.
  intros Hrun. unfold valid_ids_to_delete in Hrun. unfold bind at 1 in Hrun.
  destruct (get_table_data_total table_name w) as (df & w1 & Hload & _).
  rewrite Hload in Hrun.
  assert (Hnil : NoDup (@nil string)
                 /\ forall i, In i (@nil string) ->
                      Py.strip i <> "" /\ Py.lower i <> "nan" /\ Py.lower i <> "nat").
  { split; [constructor | intros i []]. }
  destruct (PRIMARY_KEYS table_name) as [pk|]; [| now inversion Hrun; subst].
  destruct (negb (df_empty df)); [| now inversion Hrun; subst].
  destruct (find _ (columns df)) as [actual|]; [| now inversion Hrun; subst].
  destruct (getitem df actual) as [|cells|]; try discriminate Hrun.
  inversion Hrun; subst. clear Hrun Hnil. split.
  - apply NoDup_filter, unique_nodup.
  - intros i Hi. apply filter_In in Hi. destruct Hi as [_ Hq].
    apply andb_true_iff in Hq. destruct Hq as [Hblank Hnull].
    split; [| split].
    + intros E. rewrite E in Hblank. discriminate.
    + intros E. rewrite E in Hnull. discriminate.
    + intros E. rewrite E in Hnull. discriminate.
Qed.


End DeleteTab.

(** ** Update: what is refused and what is written *)

Lemma mask_rows_map (p : list cell -> bool) (rs : list (list cell)) :
  mask_rows (map p rs) rs = filter p rs.
Proof.
  induction rs as [|r rs IH]; simpl; [reflexivity |].
  destruct (p r); now rewrite IH.
Qed.

Lemma duplicated_none (xs : list string) :
  forall seen,
    existsb (fun b => b) (duplicated seen xs) = false
    <-> NoDup xs /\ forall x, In x xs -> ~ In x seen.
Proof.
  induction xs as [|x xs IH]; intros seen; simpl.
  - split; [intros _; split; [constructor | intros x []] | reflexivity].
  - rewrite orb_false_iff, IH, mem_false_iff. split.
    + intros (Hx & Hnd & Hout). split.
      * constructor; [| assumption]. intros Hin. apply (Hout x Hin). now left.
      * intros y [<-|Hy]; [assumption |]. intros Hs. apply (Hout y Hy). now right.
    + intros (Hnd & Hout). inversion Hnd as [|? ? Hx Hnd']; subst.
      split; [apply Hout; now left | split; [assumption |]].
      intros y Hy [<-|Hs]; [contradiction | apply (Hout y); [now right | assumption]].
Qed.

Lemma duplicated_some (xs : list string) :
  existsb (fun b => b) (duplicated [] xs) = true <-> ~ NoDup xs.
Proof.
  destruct (existsb (fun b => b) (duplicated [] xs)) eqn:E.
  - split; [intros _ Hnd | reflexivity].
    assert (E' : existsb (fun b => b) (duplicated [] xs) = false).
    { apply duplicated_none. split; [assumption | intros x _ []]. }
    congruence.
  - apply duplicated_none in E. destruct E as [Hnd _].
    split; [discriminate | intros Hn; contradiction].
Qed.

Lemma df_equals_false (a b : DataFrame) : a <> b -> df_equals a b = false.
Proof.
  intros Hne. unfold df_equals. destruct (frame_eq_dec a b); [contradiction | reflexivity].
Qed.

Section UpdateClaims.
Context `{Pandas}.

(** The run of [display_data_editor] on an existing file once "Save" is
    pressed on a frame that differs from the one loaded: what remains is
    the checks of lines 87-108. *)
Lemma save_pressed (table_name pk : string) (data_editor : DataFrame -> option DataFrame)
    (w w1 : world) (df edited_df : DataFrame) :
  disk w <> Missing ->
  get_table_data table_name w = (Returned df, w1) ->
  data_editor df = Some edited_df ->
  edited_df <> df ->
  PRIMARY_KEYS table_name = Some pk ->
  columns edited_df <> [] ->
  exists shown,
    display_data_editor table_name data_editor true w
    = (let edited_df := with_columns edited_df (normalize_labels (columns edited_df)) in
       if negb (Py.mem pk (columns edited_df)) then st_error SchemaError
       else
         match getitem edited_df pk with
         | Series cells =>
             if existsb invalid_key cells then
               bind (st_error EmptyKeyError)
                 (fun _ =>
                    let invalid_rows :=
                      {| columns := columns edited_df;
                         rows := mask_rows (map invalid_key cells) (rows edited_df) |} in
                    if negb (df_empty invalid_rows) then st_dataframe invalid_rows
                    else ret tt)
             else if existsb (fun b => b) (duplicated [] (map astype_str cells)) then
               bind (st_error DuplicateKeyError)
                 (fun _ =>
                    st_dataframe
                      {| columns := columns edited_df;
                         rows := mask_rows (duplicated_all (map astype_str cells))
                                   (rows edited_df) |})
             else
               try_except
                 (bind (to_excel edited_df) (fun _ => st_success Saved))
                 (fun _ => st_error WriteError)
         | SubFrame => raise ValueError
         | NoColumn => raise (KeyError pk)
         end)
        {| disk := disk w; screen := shown |}.
Proof.
  intros Hexists Hload Hedit Hneq Hpk Hsome.
  destruct (get_table_data_total table_name w) as (df' & w1' & Hload' & Hdisk).
  rewrite Hload in Hload'. inversion Hload'; subst df' w1'. clear Hload'.
  unfold display_data_editor. unfold bind at 1. rewrite Hload.
  unfold bind at 1, path_exists. rewrite Hdisk.
  destruct (disk w) as [| |T] eqn:Hd; [contradiction | |];
    rewrite andb_false_r; unfold bind at 1;
    (destruct (df_empty df && true);
     unfold st_info at 1, show at 1, ret at 1, bind at 1, st_info at 1, show at 1;
     cbn [disk screen]; rewrite Hedit, (df_equals_false _ _ Hneq), Hpk;
     unfold bind at 1; rewrite normalize_columns_some by assumption;
     rewrite Hdisk; eexists; reflexivity).
Qed.

Lemma series_has_columns (edited_df : DataFrame) (pk : string) (cells : list cell) :
  getitem (with_columns edited_df (normalize_labels (columns edited_df))) pk
  = Series cells ->
  columns edited_df <> [].
Proof.
  intros Hg E. unfold getitem in Hg. cbn [columns with_columns] in Hg.
  rewrite E in Hg. discriminate Hg.
Qed.

(** X17: an edit that leaves a null, empty, [nan] or [NaT] key is refused:
    the error is shown with the offending rows and the file is left as it
    is. *)
Theorem update_rejects_invalid_key (table_name pk : string)
    (data_editor : DataFrame -> option DataFrame) (w w1 : world)
    (df edited_df : DataFrame) (cells : list cell) :
  disk w <> Missing ->
  get_table_data table_name w = (Returned df, w1) ->
  data_editor df = Some edited_df ->
  edited_df <> df ->
  PRIMARY_KEYS table_name = Some pk ->
  getitem (with_columns edited_df (normalize_labels (columns edited_df))) pk = Series cells ->
  existsb invalid_key cells = true ->
  exists shown,
    display_data_editor table_name data_editor true w
    = (Returned tt,
       {| disk := disk w;
          screen := shown ++
            [st_error_w EmptyKeyError;
             st_dataframe_w
               {| columns := normalize_labels (columns edited_df);
                  rows := filter
                            (fun r => invalid_key
                                        (cell_at (normalize_labels (columns edited_df)) r pk))
                            (rows edited_df) |}] |}).
Proof.
  intros Hexists Hload Hedit Hneq Hpk Hg Hbad.
  destruct (save_pressed table_name pk data_editor w w1 df edited_df
              Hexists Hload Hedit Hneq Hpk (series_has_columns _ _ _ Hg))
    as [shown Hrun].
  exists shown. rewrite Hrun. cbv zeta.
  rewrite (getitem_series_mem _ _ _ Hg), Hg, Hbad. cbn [negb].
  pose proof (getitem_series_mem _ _ _ Hg) as Hmem.
  assert (Hcells : cells
                   = map (fun r => cell_at (normalize_labels (columns edited_df)) r pk)
                         (rows edited_df)).
  { unfold getitem in Hg. cbn [columns rows with_columns] in Hg.
    destruct (Py.count _ _) as [|[|n]]; congruence. }
  replace (map invalid_key cells)
    with (map (fun r => invalid_key (cell_at (normalize_labels (columns edited_df)) r pk))
              (rows edited_df))
    by (rewrite Hcells, map_map; reflexivity).
  cbn [columns rows with_columns].
  rewrite (mask_rows_map
             (fun r => invalid_key (cell_at (normalize_labels (columns edited_df)) r pk))).
  assert (Hshown : df_empty
            {| columns := normalize_labels (columns edited_df);
               rows := filter
                         (fun r => invalid_key
                                     (cell_at (normalize_labels (columns edited_df)) r pk))
                         (rows edited_df) |} = false).
  { unfold df_empty. cbn [columns rows].
    cbn [columns with_columns] in Hmem.
    destruct (normalize_labels (columns edited_df)) as [|l ls] eqn:Hls;
      [discriminate Hmem |].
    rewrite Hcells in Hbad. rewrite existsb_exists in Hbad.
    destruct Hbad as (c & Hc & Hinv). apply in_map_iff in Hc.
    destruct Hc as (r & <- & Hr).
    assert (Hin : In r (filter (fun r => invalid_key (cell_at (l :: ls) r pk))
                          (rows edited_df)))
      by (apply filter_In; split; assumption).
    destruct (filter _ (rows edited_df)); [contradiction | reflexivity]. }
  unfold bind, st_error, st_dataframe, show. cbn [disk screen].
  rewrite Hshown. cbn [negb disk screen]. now rewrite <- app_assoc.
Qed.

(** X18: an edit that leaves two keys with the same text is refused: the
    error is shown with every row whose key occurs more than once, and the
    file is left as it is. *)
Theorem update_rejects_repeated_key (table_name pk : string)
    (data_editor : DataFrame -> option DataFrame) (w w1 : world)
    (df edited_df : DataFrame) (cells : list cell) :
  disk w <> Missing ->
  get_table_data table_name w = (Returned df, w1) ->
  data_editor df = Some edited_df ->
  edited_df <> df ->
  PRIMARY_KEYS table_name = Some pk ->
  getitem (with_columns edited_df (normalize_labels (columns edited_df))) pk = Series cells ->
  existsb invalid_key cells = false ->
  ~ NoDup (map astype_str cells) ->
  exists shown,
    display_data_editor table_name data_editor true w
    = (Returned tt,
       {| disk := disk w;
          screen := shown ++
            [st_error_w DuplicateKeyError;
             st_dataframe_w
               {| columns := normalize_labels (columns edited_df);
                  rows := filter
                            (fun r =>
                               Nat.ltb 1
                                 (Py.count
                                    (astype_str
                                       (cell_at (normalize_labels (columns edited_df)) r pk))
                                    (map astype_str cells)))
                            (rows edited_df) |}] |}).
Proof.
  intros Hexists Hload Hedit Hneq Hpk Hg Hvalid Hdup.
  destruct (save_pressed table_name pk data_editor w w1 df edited_df
              Hexists Hload Hedit Hneq Hpk (series_has_columns _ _ _ Hg))
    as [shown Hrun].
  exists shown. rewrite Hrun. cbv zeta.
  rewrite (getitem_series_mem _ _ _ Hg), Hg, Hvalid. cbn [negb].
  rewrite (proj2 (duplicated_some _) Hdup).
  assert (Hcells : cells
                   = map (fun r => cell_at (normalize_labels (columns edited_df)) r pk)
                         (rows edited_df)).
  { unfold getitem in Hg. cbn [columns rows with_columns] in Hg.
    destruct (Py.count _ _) as [|[|n]]; congruence. }
  assert (Hmask : duplicated_all (map astype_str cells)
                  = map (fun r =>
                           Nat.ltb 1
                             (Py.count
                                (astype_str
                                   (cell_at (normalize_labels (columns edited_df)) r pk))
                                (map astype_str cells)))
                        (rows edited_df)).
  { unfold duplicated_all.
    set (P := fun x => Nat.ltb 1 (Py.count x (map astype_str cells))).
    change (map P (map astype_str cells)
            = map (fun r => P (astype_str
                                 (cell_at (normalize_labels (columns edited_df)) r pk)))
                  (rows edited_df)).
    rewrite Hcells, !map_map. reflexivity. }
  rewrite Hmask. cbn [columns rows with_columns].
  rewrite (mask_rows_map
             (fun r => Nat.ltb 1
                         (Py.count
                            (astype_str
                               (cell_at (normalize_labels (columns edited_df)) r pk))
                            (map astype_str cells)))).
  unfold bind, st_error, st_dataframe, show. cbn [disk screen].
  now rewrite <- app_assoc.
Qed.

Lemma save_accepted (table_name pk : string)
    (data_editor : DataFrame -> option DataFrame) (w w1 : world)
    (df edited_df : DataFrame) (cells : list cell) :
  disk w <> Missing ->
  get_table_data table_name w = (Returned df, w1) ->
  data_editor df = Some edited_df ->
  edited_df <> df ->
  PRIMARY_KEYS table_name = Some pk ->
  getitem (with_columns edited_df (normalize_labels (columns edited_df))) pk = Series cells ->
  existsb invalid_key cells = false ->
  NoDup (map astype_str cells) ->
  exists shown,
    display_data_editor table_name data_editor true w
    = (Returned tt,
       {| disk := written (with_columns edited_df (normalize_labels (columns edited_df)));
          screen := shown ++ [st_success_w Saved] |}).
Proof.
  intros Hexists Hload Hedit Hneq Hpk Hg Hvalid Hnd.
  destruct (save_pressed table_name pk data_editor w w1 df edited_df
              Hexists Hload Hedit Hneq Hpk (series_has_columns _ _ _ Hg))
    as [shown Hrun].
  exists shown. rewrite Hrun. cbv zeta.
  rewrite (getitem_series_mem _ _ _ Hg), Hg, Hvalid. cbn [negb].
  destruct (existsb (fun b => b) (duplicated [] (map astype_str cells))) eqn:Hdup.
  - apply duplicated_some in Hdup. contradiction.
  - reflexivity.
Qed.

(** X19: an edit whose keys are all valid and pairwise distinct as text is
    saved: the file becomes the workbook of the grid's frame under its
    normalised labels, whatever it held before. *)
Theorem update_saves_valid_edit (table_name pk : string)
    (data_editor : DataFrame -> option DataFrame) (w w1 : world)
    (df edited_df : DataFrame) (cells : list cell) :
  disk w <> Missing ->
  get_table_data table_name w = (Returned df, w1) ->
  data_editor df = Some edited_df ->
  edited_df <> df ->
  PRIMARY_KEYS table_name = Some pk ->
  getitem (with_columns edited_df (normalize_labels (columns edited_df))) pk = Series cells ->
  existsb invalid_key cells = false ->
  NoDup (map astype_str cells) ->
  exists shown,
    display_data_editor table_name data_editor true w
    = (Returned tt,
       {| disk := written (with_columns edited_df (normalize_labels (columns edited_df)));
          screen := shown ++ [st_success_w Saved] |}).
Proof.
  apply save_accepted.
Qed.

(** X25: after an edit is saved and its table read back with the header
    and the keys it was written with, the existence check finds every key
    of the grid's frame, whatever the case and the padding of the
    candidate. *)
Theorem update_then_exists (table_name pk : string)
    (data_editor : DataFrame -> option DataFrame) (w w1 : world)
    (df edited_df : DataFrame) (cells : list cell) (c : cell) (k : string) :
  disk w <> Missing ->
  get_table_data table_name w = (Returned df, w1) ->
  data_editor df = Some edited_df ->
  edited_df <> df ->
  PRIMARY_KEYS table_name = Some pk ->
  getitem (with_columns edited_df (normalize_labels (columns edited_df))) pk = Series cells ->
  existsb invalid_key cells = false ->
  NoDup (map astype_str cells) ->
  In c cells ->
  normalize_key k = normalize_key (astype_str c) ->
  keys_survive pk (with_columns edited_df (normalize_labels (columns edited_df))) ->
  exists w',
    display_data_editor table_name data_editor true w = (Returned tt, w')
    /\ check_pk_exists pk k w' = (Returned true, w').
Proof.
  intros Hexists Hload Hedit Hneq Hpk Hg Hvalid Hnd Hc Hk [_ Hkeys].
  destruct (save_accepted table_name pk data_editor w w1 df edited_df cells
              Hexists Hload Hedit Hneq Hpk Hg Hvalid Hnd) as [shown Hrun].
  destruct (primary_key_shape _ _ Hpk) as (Hlow & _ & _).
  eexists. split; [exact Hrun |].
  unfold written.
  apply check_pk_exists_finds with (s := astype_str c); [assumption | | assumption].
  rewrite Hkeys. unfold key_strings. cbn [columns with_columns].
  rewrite normalize_labels_idem.
  change (with_columns (with_columns edited_df (normalize_labels (columns edited_df)))
            (normalize_labels (columns edited_df)))
    with (with_columns edited_df (normalize_labels (columns edited_df))).
  rewrite Hg. now apply in_map.
Qed.

End UpdateClaims.

Section UpdateInvariant.
Context `{Pandas}.

(** X20: whenever [display_data_editor] changes the file, "Save" was
    pressed on an existing file, the grid's frame differs from the frame
    loaded, and what is written is that frame under its normalised labels,
    with exactly one primary-key column whose cells are neither null, empty,
    [nan] nor [NaT] and pairwise distinct as text. *)
Theorem update_writes_only_valid_keys (table_name : string)
    (data_editor : DataFrame -> option DataFrame) (save_clicked : bool) (w : world) :
  disk (snd (display_data_editor table_name data_editor save_clicked w)) <> disk w ->
  save_clicked = true
  /\ disk w <> Missing
  /\ exists df edited_df pk cells,
       fst (get_table_data table_name w) = Returned df
       /\ data_editor df = Some edited_df
       /\ edited_df <> df
       /\ PRIMARY_KEYS table_name = Some pk
       /\ disk (snd (display_data_editor table_name data_editor save_clicked w))
          = written (with_columns edited_df (normalize_labels (columns edited_df)))
       /\ getitem (with_columns edited_df (normalize_labels (columns edited_df))) pk
          = Series cells
       /\ existsb invalid_key cells = false
       /\ NoDup (map astype_str cells).
Proof.
  intros Hch.
  assert (Hex : disk w <> Missing).
  { intros Hm. apply Hch. destruct w as [d scr]. simpl in Hm. subst d. reflexivity. }
  destruct (get_table_data_total table_name w) as (df & w1 & Hload & Hdisk).
  destruct (display_data_editor table_name data_editor save_clicked w)
    as [o w'] eqn:Hrun.
  cbn [snd] in *. unfold display_data_editor in Hrun. unfold bind at 1 in Hrun.
  rewrite Hload in Hrun. rewrite <- Hdisk in Hch.
  unfold bind at 1, path_exists in Hrun.
  destruct (df_empty df && negb _);
    [exfalso; apply Hch; now inversion Hrun |].
  unfold bind at 1 in Hrun.
  destruct ((if df_empty df && match disk w1 with Missing => false | _ => true end
             then st_info EmptyOrUnreadable else ret tt) w1) as [o2 w2] eqn:Hinfo.
  assert (Hw2 : o2 = Returned tt /\ disk w2 = disk w1).
  { destruct (df_empty df && _); inversion Hinfo; split; reflexivity. }
  destruct Hw2 as [-> Hd2]. rewrite <- Hd2 in Hch. clear Hd2 Hinfo.
  unfold bind at 1, st_info at 1, show at 1 in Hrun.
  set (w3 := {| disk := disk w2; screen := screen w2 ++ [st_info_w EditHint] |}) in Hrun.
  change (disk w2) with (disk w3) in Hch. clearbody w3. clear w2.
  destruct (data_editor df) as [edited_df|] eqn:Hedit;
    [| exfalso; apply Hch; now inversion Hrun].
  destruct save_clicked; [| exfalso; apply Hch; now inversion Hrun].
  destruct (df_equals edited_df df) eqn:Heq;
    [exfalso; apply Hch; now inversion Hrun |].
  destruct (PRIMARY_KEYS table_name) as [pk_col|] eqn:Hpk;
    [| exfalso; apply Hch; now inversion Hrun].
  unfold bind at 1 in Hrun.
  destruct (list_eq_dec string_dec (columns edited_df) []) as [Hnil|Hsome].
  { rewrite normalize_columns_none in Hrun by assumption.
    exfalso; apply Hch; now inversion Hrun. }
  rewrite normalize_columns_some in Hrun by assumption.
  destruct (negb (Py.mem pk_col _));
    [exfalso; apply Hch; now inversion Hrun |].
  destruct (getitem _ pk_col) as [|cells|] eqn:Hg;
    [exfalso; apply Hch; now inversion Hrun | | exfalso; apply Hch; now inversion Hrun].
  destruct (existsb invalid_key cells) eqn:Hvalid.
  { exfalso. apply Hch. unfold bind, st_error, show in Hrun. cbn [disk screen] in Hrun.
    destruct (negb _); now inversion Hrun. }
  destruct (existsb (fun b => b) _) eqn:Hdup;
    [exfalso; apply Hch; now inversion Hrun |].
  split; [reflexivity | split; [assumption |]].
  exists df, edited_df, pk_col, cells. rewrite Hload. cbn [fst].
  split; [reflexivity | split; [exact Hedit | split]].
  - intros ->. unfold df_equals in Heq.
    destruct (frame_eq_dec df df); [discriminate | contradiction].
  - split; [reflexivity | split; [now inversion Hrun | split; [exact Hg | split]]].
    + exact Hvalid.
    + apply duplicated_none in Hdup. tauto.
Qed.

End UpdateInvariant.

(** ** The session *)

Lemma dict_get_in (d : list (string * string)) (k v : string) :
  NoDup (map fst d) ->
  (Session.dict_get d k = Some v <-> In (k, v) d).
Proof.
  induction d as [|[k' v'] d IH]; simpl; intros Hnd.
  - split; [discriminate | intros []].
  - inversion Hnd as [|? ? Hk Hnd']; subst.
    destruct (String.eqb_spec k k') as [->|Hne].
    + split.
      * intros E. inversion E. now left.
      * intros [E|Hin]; [now inversion E |].
        exfalso. apply Hk. now apply (in_map fst) in Hin.
    + rewrite (IH Hnd'). split; [now right |].
      intros [E|Hin]; [inversion E; congruence | assumption].
Qed.

Lemma users_distinct : NoDup (map fst Session.USERS).
Proof.
  repeat constructor; simpl; intuition discriminate.
Qed.

(** X21: the login form opens a session exactly for a pair listed in
    [USERS], compared as typed (no trimming, case-sensitive): then the
    session is marked logged in under the typed name and the script
    reruns; any other pair is refused and the session stays as it was. *)
Theorem login_form_exact (ui : Session.login_input) (s : Session.state) :
  Session.login_clicked ui = true ->
  (In (Session.typed_username ui, Session.typed_password ui) Session.USERS ->
   Session.login_form ui s
   = (Session.Rerun,
      {| Session.logged_in := Some true;
         Session.username := Some (Session.typed_username ui) |},
      [Session.LoginTitle; Session.LoggedIn]))
  /\ (~ In (Session.typed_username ui, Session.typed_password ui) Session.USERS ->
      Session.login_form ui s
      = (Session.Completed, s, [Session.LoginTitle; Session.IncorrectLogin])).
Proof.
  intros Hclick. unfold Session.login_form. rewrite Hclick.
  pose proof (dict_get_in Session.USERS (Session.typed_username ui)) as Hget.
  destruct (Session.dict_get Session.USERS (Session.typed_username ui)) as [p|].
  - destruct (String.eqb_spec p (Session.typed_password ui)) as [<-|Hne].
    + split; [reflexivity |]. intros Hout. exfalso. apply Hout.
      now apply (Hget p users_distinct).
    + split; [| reflexivity]. intros Hin. exfalso. apply Hne.
      apply (Hget _ users_distinct) in Hin. congruence.
  - split; [| reflexivity]. intros Hin.
    apply (Hget _ users_distinct) in Hin. discriminate.
Qed.

Lemma main_keeps_authentic (ui : Session.input) (tabs : Session.state -> Session.result)
    (s : Session.state) :
  Session.authentic s -> Session.authentic (snd (fst (Session.main ui tabs s))).
Proof.
  intros Hs. unfold Session.main.
  destruct s as [[[|]|] u]; cbn [Session.logged_in Session.username negb].
  - unfold Session.show_main_app. destruct (Session.logout_clicked ui).
    + cbn. intros E. discriminate E.
    + cbn [Py.mem existsb Session.module_names String.eqb Ascii.eqb Bool.eqb orb snd fst].
      exact Hs.
  - unfold Session.login_form. destruct (Session.login_clicked _); [| exact Hs].
    destruct (Session.dict_get Session.USERS _) as [p|] eqn:Hp; [| exact Hs].
    destruct (String.eqb p _); [| exact Hs].
    cbn [snd fst]. intros _. do 2 eexists. split; [reflexivity |].
    apply (dict_get_in _ _ _ users_distinct). exact Hp.
  - unfold Session.login_form. destruct (Session.login_clicked _);
      [| cbn; intros E; discriminate E].
    destruct (Session.dict_get Session.USERS _) as [p|] eqn:Hp;
      [| cbn; intros E; discriminate E].
    destruct (String.eqb p _); [| cbn; intros E; discriminate E].
    cbn [snd fst]. intros _. do 2 eexists. split; [reflexivity |].
    apply (dict_get_in _ _ _ users_distinct). exact Hp.
Qed.

(** X22: whatever the user does, run after run from a fresh session, a
    session marked logged in carries the name of a user listed in
    [USERS]. *)
Theorem session_stays_authentic (uis : list Session.input)
    (tabs : Session.state -> Session.result) :
  Session.authentic (Session.session_after uis tabs Session.fresh).
Proof.
  assert (Hall : forall s, Session.authentic s ->
                   Session.authentic (Session.session_after uis tabs s)).
  { induction uis as [|ui uis IH]; intros s Hs; [exact Hs |].
    cbn [Session.session_after]. apply IH. now apply main_keeps_authentic. }
  apply Hall. intros E. discriminate E.
Qed.

(** X23: once logged in, a run in which "Logout" is not pressed never
    reaches the three tabs: after the sidebar heading and the welcome
    line, line 353 reads the name [excel_folder], which the module does
    not bind, and the run ends with [NameError]; the session is left as it
    is. *)
Theorem show_main_app_stops (ui : Session.input) (tabs : Session.state -> Session.result)
    (s : Session.state) :
  Session.logged_in s = Some true ->
  Session.logout_clicked ui = false ->
  Session.main ui tabs s
  = (Session.Uncaught (NameError "excel_folder"), s,
     [Session.DatasetSelection;
      Session.Welcome (match Session.username s with Some u => u | None => "User" end)]).
Proof.
  intros Hin Hout. destruct s as [li u]. cbn [Session.logged_in] in Hin. subst li.
  unfold Session.main. cbn [Session.logged_in negb].
  unfold Session.show_main_app. rewrite Hout. reflexivity.
Qed.

(** X24: logging in and out is a round trip.  A listed pair opens the
    session; pressing "Logout" in the next run clears both keys and
    reruns; the run after that shows the login form again, with the
    session marked not logged in. *)
Theorem login_then_logout (ui_in ui_out ui_next : Session.input)
    (tabs : Session.state -> Session.result) :
  Session.login_clicked (Session.login ui_in) = true ->
  In (Session.typed_username (Session.login ui_in),
      Session.typed_password (Session.login ui_in)) Session.USERS ->
  Session.logout_clicked ui_out = true ->
  Session.login_clicked (Session.login ui_next) = false ->
  let s1 := Session.session_after [ui_in] tabs Session.fresh in
  let s2 := Session.session_after [ui_in; ui_out] tabs Session.fresh in
  s1 = {| Session.logged_in := Some true;
          Session.username := Some (Session.typed_username (Session.login ui_in)) |}
  /\ s2 = Session.fresh
  /\ Session.main ui_next tabs s2
     = (Session.Completed,
        {| Session.logged_in := Some false; Session.username := None |},
        [Session.LoginTitle]).
Proof.
  intros Hclick Hin Hout Hnext.
  assert (Hs1 : Session.session_after [ui_in] tabs Session.fresh
                = {| Session.logged_in := Some true;
                     Session.username := Some (Session.typed_username (Session.login ui_in)) |}).
  { cbn [Session.session_after]. unfold Session.main, Session.fresh.
    cbn [Session.logged_in Session.username negb].
    unfold Session.login_form. rewrite Hclick.
    apply (dict_get_in _ _ _ users_distinct) in Hin. rewrite Hin.
    now rewrite String.eqb_refl. }
  assert (Hs2 : Session.session_after [ui_in; ui_out] tabs Session.fresh = Session.fresh).
  { change (Session.session_after [ui_in; ui_out] tabs Session.fresh)
      with (Session.session_after [ui_out] tabs
              (Session.session_after [ui_in] tabs Session.fresh)).
    rewrite Hs1. cbn [Session.session_after]. unfold Session.main.
    cbn [Session.logged_in negb]. unfold Session.show_main_app. now rewrite Hout. }
  cbv zeta. rewrite Hs1, Hs2. split; [reflexivity | split; [reflexivity |]].
  unfold Session.main, Session.fresh. cbn [Session.logged_in Session.username negb].
  unfold Session.login_form. now rewrite Hnext.
Qed.

(** ** Add and the keys already stored *)

Section AddKeepsKeys.
Context `{Pandas}.

(** X26: Add loses no key.  Every key text of the stored table is still
    found by the existence check after [update_table] has appended a
    record, whatever the record, when the table that is written is read
    back with the header and the keys it was written with. *)
Theorem add_keeps_old_keys (table_name pk : string) (T : DataFrame) (r : record)
    (t k : string) (scr : list widget) :
  PRIMARY_KEYS table_name = Some pk ->
  Py.count pk (normalize_labels (columns T)) = 1 ->
  dates_unambiguous (normalize_labels (columns T)) ->
  In t (key_strings pk T) ->
  normalize_key k = normalize_key t ->
  keys_survive pk (coerced (appended (Sheet T) r)) ->
  exists w',
    update_table table_name r {| disk := Sheet T; screen := scr |} = (Returned tt, w')
    /\ check_pk_exists pk k w' = (Returned true, w').
Proof.
  intros Hpk Hc Hu Hin Hk [_ Hkeys].
  destruct (primary_key_shape _ _ Hpk) as (Hlow & Hstrip & Hd).
  assert (Hnorm : Py.lower (Py.strip pk) = pk) by now rewrite Hstrip.
  assert (Hsome : columns T <> []) by (now apply count_one_nonempty with (l := pk)).
  assert (Ha : appended (Sheet T) r
               = {| columns := normalize_labels (columns T);
                    rows := rows T ++ [map (record_get r) (normalize_labels (columns T))] |})
    by (unfold appended; now rewrite readable_sheet).
  eexists. split; [apply update_table_writes; now rewrite Ha |].
  unfold written.
  apply check_pk_exists_finds with (s := t); [assumption | | assumption].
  rewrite Hkeys, Ha. rewrite key_strings_coerced; [| assumption | assumption |].
  - rewrite key_strings_appended by assumption. apply in_or_app. now left.
  - cbn [columns]. apply count_pos_iff. lia.
Qed.

End AddKeepsKeys.

(** ** Concrete runs of the further properties *)

Lemma check_pk_exists_ignores_case_and_padding_witness :
  normalize_key " A1 " = normalize_key "a1"
  /\ check_pk_exists "admin_id" " A1 " (Sample.on_disk (Sheet Cases.three_admins))
     = check_pk_exists "admin_id" "a1" (Sample.on_disk (Sheet Cases.three_admins)).
Proof.
  split; [reflexivity |].
  apply (check_pk_exists_ignores_case_and_padding "admin_id" " A1 " "a1"). reflexivity.
Defined.

Lemma repeated_key_present : In "A1" (key_strings "admin_id" Cases.repeated_keys).
Proof. simpl. tauto. Defined.

Lemma delete_record_removes_every_match_witness :
  PRIMARY_KEYS "college_admin_data" = Some "admin_id"
  /\ Py.count "admin_id" (normalize_labels (columns Cases.repeated_keys)) = 1
  /\ In "A1" (key_strings "admin_id" Cases.repeated_keys)
  /\ exists T',
       delete_record "college_admin_data" "A1" (Sample.on_disk (Sheet Cases.repeated_keys))
       = (Returned true, {| disk := written T'; screen := [st_success_w Removed] |})
       /\ rows T' = [[CStr "B2"; CStr "Bob"]].
Proof.
  split; [reflexivity | split; [reflexivity | split; [exact repeated_key_present |]]].
  destruct (delete_record_removes_every_match "college_admin_data" "admin_id"
              Cases.repeated_keys "A1" [] eq_refl eq_refl repeated_key_present)
    as (T' & Hrun & _ & Hrows & _).
  exists T'. split; [exact Hrun | exact Hrows].
Defined.

Lemma repeated_keys_survive :
  keys_survive "admin_id"
    (filter_rows
       (with_columns Cases.repeated_keys (normalize_labels (columns Cases.repeated_keys)))
       "admin_id" (fun c => negb (String.eqb (astype_str c) "A1"))).
Proof. split; reflexivity. Defined.

Lemma delete_record_twice_witness :
  PRIMARY_KEYS "college_admin_data" = Some "admin_id"
  /\ Py.count "admin_id" (normalize_labels (columns Cases.repeated_keys)) = 1
  /\ In "A1" (key_strings "admin_id" Cases.repeated_keys)
  /\ keys_survive "admin_id"
       (filter_rows
          (with_columns Cases.repeated_keys
             (normalize_labels (columns Cases.repeated_keys)))
          "admin_id" (fun c => negb (String.eqb (astype_str c) "A1")))
  /\ exists w1,
       delete_record "college_admin_data" "A1" (Sample.on_disk (Sheet Cases.repeated_keys))
       = (Returned true, w1)
       /\ delete_record "college_admin_data" "A1" w1
          = (Returned false,
             {| disk := disk w1; screen := screen w1 ++ [st_warning_w NotFoundError] |}).
Proof.
  split; [reflexivity | split; [reflexivity | split; [exact repeated_key_present |]]].
  split; [exact repeated_keys_survive |].
  exact (delete_record_twice "college_admin_data" "admin_id" Cases.repeated_keys "A1" []
           eq_refl eq_refl repeated_key_present repeated_keys_survive).
Defined.

Lemma three_admins_distinct :
  NoDup (map normalize_key (key_strings "admin_id" Cases.three_admins)).
Proof. repeat constructor; simpl; intuition discriminate. Defined.

Lemma seven_present : In "7" (key_strings "admin_id" Cases.three_admins).
Proof. simpl. tauto. Defined.

Lemma three_admins_survive :
  keys_survive "admin_id"
    (filter_rows
       (with_columns Cases.three_admins (normalize_labels (columns Cases.three_admins)))
       "admin_id" (fun c => negb (String.eqb (astype_str c) "7"))).
Proof. split; reflexivity. Defined.

Lemma delete_then_exists_witness :
  PRIMARY_KEYS "college_admin_data" = Some "admin_id"
  /\ Py.count "admin_id" (normalize_labels (columns Cases.three_admins)) = 1
  /\ NoDup (map normalize_key (key_strings "admin_id" Cases.three_admins))
  /\ In "7" (key_strings "admin_id" Cases.three_admins)
  /\ normalize_key " 7 " = normalize_key "7"
  /\ keys_survive "admin_id"
       (filter_rows
          (with_columns Cases.three_admins (normalize_labels (columns Cases.three_admins)))
          "admin_id" (fun c => negb (String.eqb (astype_str c) "7")))
  /\ exists w1,
       delete_record "college_admin_data" "7" (Sample.on_disk (Sheet Cases.three_admins))
       = (Returned true, w1)
       /\ check_pk_exists "admin_id" " 7 " w1 = (Returned false, w1).
Proof.
  split; [reflexivity | split; [reflexivity | split; [exact three_admins_distinct |]]].
  split; [exact seven_present | split; [reflexivity |]].
  split; [exact three_admins_survive |].
  exact (delete_then_exists "college_admin_data" "admin_id" Cases.three_admins "7" " 7 " []
           eq_refl eq_refl three_admins_distinct seven_present eq_refl
           three_admins_survive).
Defined.

Lemma delete_record_safe_witness :
  exists b w',
    delete_record "students" "S1" (Sample.on_disk Corrupt) = (Returned b, w')
    /\ b = false /\ disk w' = Corrupt.
Proof.
  destruct (delete_record_safe "students" "S1" (Sample.on_disk Corrupt))
    as (b & w' & Hrun & Hkeep & Hfalse).
  exists b, w'. split; [exact Hrun |].
  assert (Hb : b = false) by (apply Hfalse; right; left; reflexivity).
  split; [exact Hb | exact (Hkeep Hb)].
Defined.

Lemma staff_key_is_new : ~ In "A1" (key_strings "admin_id" Sample.staff_with_key).
Proof. simpl. intuition discriminate. Defined.

Lemma add_then_delete_witness :
  PRIMARY_KEYS "college_admin_data" = Some "admin_id"
  /\ record_get (Admin.new_record Sample.staff Sample.clock) "admin_id" = CStr "A1"
  /\ Py.count "admin_id" (normalize_labels (columns Sample.staff_with_key)) = 1
  /\ dates_unambiguous (normalize_labels (columns Sample.staff_with_key))
  /\ ~ In "A1" (key_strings "admin_id" Sample.staff_with_key)
  /\ keys_survive "admin_id"
       (coerced (appended (Sheet Sample.staff_with_key)
                   (Admin.new_record Sample.staff Sample.clock)))
  /\ exists w1 w2,
       update_table "college_admin_data" (Admin.new_record Sample.staff Sample.clock)
         (Sample.on_disk (Sheet Sample.staff_with_key)) = (Returned tt, w1)
       /\ delete_record "college_admin_data" "A1" w1 = (Returned true, w2)
       /\ disk w2
          = written {| columns := ["admin_id"; "full_name"; "date_joined"];
                       rows := [[CStr "A0"; CStr "Ann Wu"; CTime 1598918400000000000]] |}.
Proof.
  split; [reflexivity | split; [reflexivity | split; [reflexivity |]]].
  split; [exact (proj2 staff_with_key_keeps_key) | split; [exact staff_key_is_new |]].
  split; [exact staff_with_key_survives |].
  exact (add_then_delete "college_admin_data" "admin_id" Sample.staff_with_key
           (Admin.new_record Sample.staff Sample.clock) "A1" []
           eq_refl eq_refl eq_refl (proj2 staff_with_key_keeps_key) staff_key_is_new
           staff_with_key_survives).
Defined.

Lemma add_admin_rejects_empty_witness :
  submitted (Cases.submit_staff Cases.empty_email) = true
  /\ existsb (fun s => negb (Py.nonempty s)) (staff_required_texts Cases.empty_email) = true
  /\ add_new_record_form "college_admin_data" (Cases.submit_staff Cases.empty_email)
       Sample.clock (Sample.on_disk Missing)
     = (Returned tt,
        {| disk := Missing; screen := add_tab_heading ++ [st_error_w FillRequired] |})
  /\ existsb (fun s => negb (Py.nonempty s)) (staff_required_texts Cases.blank_id) = false
  /\ Py.nonempty (Py.strip (Admin.admin_id Cases.blank_id)) = false
  /\ add_new_record_form "college_admin_data" (Cases.submit_staff Cases.blank_id)
       Sample.clock (Sample.on_disk Missing)
     = (Returned tt,
        {| disk := Missing; screen := add_tab_heading ++ [st_error_w EmptyKeyError] |}).
Proof.
  split; [reflexivity | split; [reflexivity | split]].
  - exact (proj1 (add_admin_rejects_empty (Cases.submit_staff Cases.empty_email)
                    Sample.clock Missing [] eq_refl) eq_refl).
  - split; [reflexivity | split; [reflexivity |]].
    exact (proj2 (add_admin_rejects_empty (Cases.submit_staff Cases.blank_id)
                    Sample.clock Missing [] eq_refl) eq_refl eq_refl).
Defined.

Lemma blank_name_dates_unambiguous :
  dates_unambiguous
    (columns (appended Missing (Admin.new_record Cases.blank_name Sample.clock))).
Proof.
  apply nodup_dates_unambiguous. repeat constructor; simpl; intuition discriminate.
Defined.

Lemma add_admin_accepts_nonempty_witness :
  submitted (Cases.submit_staff Cases.blank_name) = true
  /\ existsb (fun s => negb (Py.nonempty s)) (staff_required_texts Cases.blank_name) = false
  /\ Py.nonempty (Py.strip (Admin.admin_id Cases.blank_name)) = true
  /\ fst (check_pk_exists "admin_id" (Admin.admin_id Cases.blank_name)
            (Sample.on_disk Missing)) = Returned false
  /\ dates_unambiguous
       (columns (appended Missing (Admin.new_record Cases.blank_name Sample.clock)))
  /\ exists w',
       add_new_record_form "college_admin_data" (Cases.submit_staff Cases.blank_name)
         Sample.clock (Sample.on_disk Missing) = (Returned tt, w')
       /\ record_get (Admin.new_record Cases.blank_name Sample.clock) "full_name" = CStr "".
Proof.
  split; [reflexivity | split; [reflexivity | split; [reflexivity | split; [reflexivity |]]]].
  split; [exact blank_name_dates_unambiguous |].
  destruct (add_admin_accepts_nonempty (Cases.submit_staff Cases.blank_name) Sample.clock
              Missing [] eq_refl eq_refl eq_refl eq_refl blank_name_dates_unambiguous)
    as (w' & Hrun & _ & Hname).
  exists w'. split; [exact Hrun | exact Hname].
Defined.

Lemma add_admin_rejects_existing_key_witness :
  submitted (Cases.submit_staff Cases.existing_id) = true
  /\ existsb (fun s => negb (Py.nonempty s)) (staff_required_texts Cases.existing_id) = false
  /\ Py.nonempty (Py.strip (Admin.admin_id Cases.existing_id)) = true
  /\ fst (check_pk_exists "admin_id" (Admin.admin_id Cases.existing_id)
            (Sample.on_disk (Sheet Sample.staff_with_key))) = Returned true
  /\ exists w' shown,
       add_new_record_form "college_admin_data" (Cases.submit_staff Cases.existing_id)
         Sample.clock (Sample.on_disk (Sheet Sample.staff_with_key)) = (Returned tt, w')
       /\ disk w' = Sheet Sample.staff_with_key
       /\ screen w' = shown ++ [st_error_w DuplicateKeyError].
Proof.
  split; [reflexivity | split; [reflexivity | split; [reflexivity | split; [reflexivity |]]]].
  exact (add_admin_rejects_existing_key (Cases.submit_staff Cases.existing_id) Sample.clock
           (Sheet Sample.staff_with_key) [] eq_refl eq_refl eq_refl eq_refl).
Defined.

Lemma first_staff_survives :
  keys_survive "admin_id"
    (coerced (appended Missing (Admin.new_record Sample.staff Sample.clock))).
Proof. split; reflexivity. Defined.

Lemma add_admin_twice_witness :
  submitted (Cases.submit_staff Sample.staff) = true
  /\ existsb (fun s => negb (Py.nonempty s)) (staff_required_texts Sample.staff) = false
  /\ Py.nonempty (Py.strip (Admin.admin_id Sample.staff)) = true
  /\ fst (check_pk_exists "admin_id" (Admin.admin_id Sample.staff)
            (Sample.on_disk Missing)) = Returned false
  /\ keys_survive "admin_id"
       (coerced (appended Missing (Admin.new_record Sample.staff Sample.clock)))
  /\ exists w1 w2 shown,
       add_new_record_form "college_admin_data" (Cases.submit_staff Sample.staff)
         Sample.clock (Sample.on_disk Missing) = (Returned tt, w1)
       /\ add_new_record_form "college_admin_data" (Cases.submit_staff Sample.staff)
            Sample.clock w1 = (Returned tt, w2)
       /\ disk w2 = disk w1
       /\ screen w2 = shown ++ [st_error_w DuplicateKeyError].
Proof.
  split; [reflexivity | split; [reflexivity | split; [reflexivity | split; [reflexivity |]]]].
  split; [exact first_staff_survives |].
  exact (add_admin_twice (Cases.submit_staff Sample.staff) (Cases.submit_staff Sample.staff)
           Sample.clock Sample.clock Missing []
           eq_refl eq_refl eq_refl eq_refl I first_staff_survives eq_refl eq_refl eq_refl).
Defined.

Lemma add_student_never_adds_witness :
  submitted (Cases.submit_pupil Cases.valid_pupil) = true
  /\ Student.some_required_empty Cases.valid_pupil = false
  /\ add_new_record_form "students" (Cases.submit_pupil Cases.valid_pupil) Sample.clock
       (Sample.on_disk Missing)
     = (Raised (NameError "student_name"),
        {| disk := Missing; screen := add_tab_heading |}).
Proof.
  split; [reflexivity | split; [reflexivity |]].
  exact (add_student_never_adds (Cases.submit_pupil Cases.valid_pupil) Sample.clock
           (Sample.on_disk Missing) eq_refl).
Defined.

Lemma staff_submission_changes_file :
  disk (snd (add_new_record_form "college_admin_data" (Cases.submit_staff Sample.staff)
               Sample.clock (Sample.on_disk Missing)))
  <> disk (Sample.on_disk Missing).
Proof. vm_compute. discriminate. Defined.

Lemma add_new_record_form_writes_only_staff_witness :
  disk (snd (add_new_record_form "college_admin_data" (Cases.submit_staff Sample.staff)
               Sample.clock (Sample.on_disk Missing)))
  <> disk (Sample.on_disk Missing)
  /\ submitted (Cases.submit_staff Sample.staff) = true
  /\ Py.nonempty (Py.strip (Admin.admin_id Sample.staff)) = true.
Proof.
  split; [exact staff_submission_changes_file |].
  destruct (add_new_record_form_writes_only_staff "college_admin_data"
              (Cases.submit_staff Sample.staff) Sample.clock (Sample.on_disk Missing)
              staff_submission_changes_file) as (_ & Hsub & _ & Hid).
  split; [exact Hsub | exact Hid].
Defined.

Lemma three_admins_labels_distinct :
  NoDup (normalize_labels (columns Cases.three_admins)).
Proof. repeat constructor; simpl; intuition discriminate. Defined.

Lemma three_admins_has_columns : columns Cases.three_admins <> [].
Proof. discriminate. Defined.

Lemma get_table_data_view_witness :
  columns Cases.three_admins <> []
  /\ NoDup (normalize_labels (columns Cases.three_admins))
  /\ exists df,
       get_table_data "college_admin_data" (Sample.on_disk (Sheet Cases.three_admins))
       = (Returned df, Sample.on_disk (Sheet Cases.three_admins))
       /\ columns df = ["admin_id"; "full_name"].
Proof.
  split; [exact three_admins_has_columns | split; [exact three_admins_labels_distinct |]].
  destruct (get_table_data_view "college_admin_data" Cases.three_admins []
              three_admins_has_columns three_admins_labels_distinct)
    as (df & Hrun & Hcols & _).
  exists df. split; [exact Hrun | exact Hcols].
Defined.

Lemma get_table_data_idempotent_witness :
  NoDup (normalize_labels (columns Cases.three_admins))
  /\ exists df,
       get_table_data "college_admin_data" (Sample.on_disk (Sheet Cases.three_admins))
       = (Returned df, Sample.on_disk (Sheet Cases.three_admins))
       /\ get_table_data "college_admin_data" (Sample.on_disk (Sheet df))
          = (Returned df, Sample.on_disk (Sheet df)).
Proof.
  split; [exact three_admins_labels_distinct |].
  destruct (get_table_data_idempotent "college_admin_data" Cases.three_admins [] []
              three_admins_labels_distinct) as (df & msgs & Hrun & Hagain & Hmsgs).
  rewrite (Hmsgs three_admins_has_columns) in Hrun, Hagain.
  exists df. split; [exact Hrun | exact Hagain].
Defined.

Lemma valid_ids_to_delete_well_formed_witness :
  valid_ids_to_delete "college_admin_data" (Sample.on_disk (Sheet Cases.three_admins))
  = (Returned ["A1"; "c3"], Sample.on_disk (Sheet Cases.three_admins))
  /\ NoDup ["A1"; "c3"].
Proof.
  split; [reflexivity |].
  exact (proj1 (valid_ids_to_delete_well_formed "college_admin_data"
                  (Sample.on_disk (Sheet Cases.three_admins))
                  (Sample.on_disk (Sheet Cases.three_admins)) ["A1"; "c3"] eq_refl)).
Defined.



Lemma two_students_exists : disk (Sample.on_disk (Sheet Sample.two_students)) <> Missing.
Proof. discriminate. Defined.

Lemma null_key_is_an_edit : Cases.null_key <> Sample.two_students.
Proof. discriminate. Defined.

Lemma same_key_twice_is_an_edit : Cases.same_key_twice <> Sample.two_students.
Proof. discriminate. Defined.

Lemma case_variants_is_an_edit : Sample.case_variants <> Sample.two_students.
Proof. discriminate. Defined.

Lemma update_rejects_invalid_key_witness :
  disk (Sample.on_disk (Sheet Sample.two_students)) <> Missing
  /\ get_table_data "students" (Sample.on_disk (Sheet Sample.two_students))
     = (Returned Sample.two_students, Sample.on_disk (Sheet Sample.two_students))
  /\ Cases.null_key <> Sample.two_students
  /\ PRIMARY_KEYS "students" = Some "student_id"
  /\ getitem (with_columns Cases.null_key (normalize_labels (columns Cases.null_key)))
       "student_id" = Series [CStr "A1"; CNaN]
  /\ existsb invalid_key [CStr "A1"; CNaN] = true
  /\ exists shown,
       display_data_editor "students" (fun _ => Some Cases.null_key) true
         (Sample.on_disk (Sheet Sample.two_students))
       = (Returned tt,
          {| disk := Sheet Sample.two_students;
             screen := shown ++
               [st_error_w EmptyKeyError;
                st_dataframe_w {| columns := ["student_id"]; rows := [[CNaN]] |}] |}).
Proof.
  split; [exact two_students_exists | split; [reflexivity |]].
  split; [exact null_key_is_an_edit | split; [reflexivity | split; [reflexivity |]]].
  split; [reflexivity |].
  exact (update_rejects_invalid_key "students" "student_id" (fun _ => Some Cases.null_key)
           (Sample.on_disk (Sheet Sample.two_students))
           (Sample.on_disk (Sheet Sample.two_students))
           Sample.two_students Cases.null_key [CStr "A1"; CNaN]
           two_students_exists eq_refl eq_refl null_key_is_an_edit eq_refl eq_refl eq_refl).
Defined.

Lemma same_key_twice_repeats : ~ NoDup (map astype_str [CStr "A1"; CStr "A1"]).
Proof.
  intros Hnd. inversion Hnd as [|? ? Hout _]. apply Hout. now left.
Defined.

Lemma update_rejects_repeated_key_witness :
  disk (Sample.on_disk (Sheet Sample.two_students)) <> Missing
  /\ get_table_data "students" (Sample.on_disk (Sheet Sample.two_students))
     = (Returned Sample.two_students, Sample.on_disk (Sheet Sample.two_students))
  /\ Cases.same_key_twice <> Sample.two_students
  /\ PRIMARY_KEYS "students" = Some "student_id"
  /\ getitem (with_columns Cases.same_key_twice
                (normalize_labels (columns Cases.same_key_twice)))
       "student_id" = Series [CStr "A1"; CStr "A1"]
  /\ existsb invalid_key [CStr "A1"; CStr "A1"] = false
  /\ ~ NoDup (map astype_str [CStr "A1"; CStr "A1"])
  /\ exists shown,
       display_data_editor "students" (fun _ => Some Cases.same_key_twice) true
         (Sample.on_disk (Sheet Sample.two_students))
       = (Returned tt,
          {| disk := Sheet Sample.two_students;
             screen := shown ++
               [st_error_w DuplicateKeyError;
                st_dataframe_w {| columns := ["student_id"];
                                  rows := [[CStr "A1"]; [CStr "A1"]] |}] |}).
Proof.
  split; [exact two_students_exists | split; [reflexivity |]].
  split; [exact same_key_twice_is_an_edit | split; [reflexivity | split; [reflexivity |]]].
  split; [reflexivity | split; [exact same_key_twice_repeats |]].
  exact (update_rejects_repeated_key "students" "student_id"
           (fun _ => Some Cases.same_key_twice)
           (Sample.on_disk (Sheet Sample.two_students))
           (Sample.on_disk (Sheet Sample.two_students))
           Sample.two_students Cases.same_key_twice [CStr "A1"; CStr "A1"]
           two_students_exists eq_refl eq_refl same_key_twice_is_an_edit eq_refl eq_refl
           eq_refl same_key_twice_repeats).
Defined.

Lemma case_variants_distinct : NoDup (map astype_str [CStr "A1"; CStr "a1 "]).
Proof. repeat constructor; simpl; intuition discriminate. Defined.

Lemma update_saves_valid_edit_witness :
  disk (Sample.on_disk (Sheet Sample.two_students)) <> Missing
  /\ get_table_data "students" (Sample.on_disk (Sheet Sample.two_students))
     = (Returned Sample.two_students, Sample.on_disk (Sheet Sample.two_students))
  /\ Sample.case_variants <> Sample.two_students
  /\ PRIMARY_KEYS "students" = Some "student_id"
  /\ getitem (with_columns Sample.case_variants
                (normalize_labels (columns Sample.case_variants)))
       "student_id" = Series [CStr "A1"; CStr "a1 "]
  /\ existsb invalid_key [CStr "A1"; CStr "a1 "] = false
  /\ NoDup (map astype_str [CStr "A1"; CStr "a1 "])
  /\ exists shown,
       display_data_editor "students" (fun _ => Some Sample.case_variants) true
         (Sample.on_disk (Sheet Sample.two_students))
       = (Returned tt,
          {| disk := written Sample.case_variants;
             screen := shown ++ [st_success_w Saved] |}).
Proof.
  split; [exact two_students_exists | split; [reflexivity |]].
  split; [exact case_variants_is_an_edit | split; [reflexivity | split; [reflexivity |]]].
  split; [reflexivity | split; [exact case_variants_distinct |]].
  exact (update_saves_valid_edit "students" "student_id"
           (fun _ => Some Sample.case_variants)
           (Sample.on_disk (Sheet Sample.two_students))
           (Sample.on_disk (Sheet Sample.two_students))
           Sample.two_students Sample.case_variants [CStr "A1"; CStr "a1 "]
           two_students_exists eq_refl eq_refl case_variants_is_an_edit eq_refl eq_refl
           eq_refl case_variants_distinct).
Defined.

Lemma case_variants_survive :
  keys_survive "student_id"
    (with_columns Sample.case_variants (normalize_labels (columns Sample.case_variants))).
Proof. split; reflexivity. Defined.

Lemma update_then_exists_witness :
  disk (Sample.on_disk (Sheet Sample.two_students)) <> Missing
  /\ Sample.case_variants <> Sample.two_students
  /\ NoDup (map astype_str [CStr "A1"; CStr "a1 "])
  /\ In (CStr "a1 ") [CStr "A1"; CStr "a1 "]
  /\ normalize_key "A1" = normalize_key (astype_str (CStr "a1 "))
  /\ keys_survive "student_id"
       (with_columns Sample.case_variants
          (normalize_labels (columns Sample.case_variants)))
  /\ exists w',
       display_data_editor "students" (fun _ => Some Sample.case_variants) true
         (Sample.on_disk (Sheet Sample.two_students)) = (Returned tt, w')
       /\ check_pk_exists "student_id" "A1" w' = (Returned true, w').
Proof.
  split; [exact two_students_exists | split; [exact case_variants_is_an_edit |]].
  split; [exact case_variants_distinct | split; [simpl; tauto | split; [reflexivity |]]].
  split; [exact case_variants_survive |].
  exact (update_then_exists "students" "student_id"
           (fun _ => Some Sample.case_variants)
           (Sample.on_disk (Sheet Sample.two_students))
           (Sample.on_disk (Sheet Sample.two_students))
           Sample.two_students Sample.case_variants [CStr "A1"; CStr "a1 "]
           (CStr "a1 ") "A1"
           two_students_exists eq_refl eq_refl case_variants_is_an_edit eq_refl eq_refl
           eq_refl case_variants_distinct (or_intror (or_introl eq_refl)) eq_refl
           case_variants_survive).
Defined.

Lemma saved_edit_changes_file :
  disk (snd (display_data_editor "students" (fun _ => Some Sample.case_variants) true
               (Sample.on_disk (Sheet Sample.two_students))))
  <> disk (Sample.on_disk (Sheet Sample.two_students)).
Proof. vm_compute. discriminate. Defined.

Lemma update_writes_only_valid_keys_witness :
  disk (snd (display_data_editor "students" (fun _ => Some Sample.case_variants) true
               (Sample.on_disk (Sheet Sample.two_students))))
  <> disk (Sample.on_disk (Sheet Sample.two_students))
  /\ disk (Sample.on_disk (Sheet Sample.two_students)) <> Missing.
Proof.
  split; [exact saved_edit_changes_file |].
  exact (proj1 (proj2 (update_writes_only_valid_keys "students"
                         (fun _ => Some Sample.case_variants) true
                         (Sample.on_disk (Sheet Sample.two_students))
                         saved_edit_changes_file))).
Defined.

Lemma old_staff_key_present : In "A0" (key_strings "admin_id" Sample.staff_with_key).
Proof. simpl. tauto. Defined.

Lemma add_keeps_old_keys_witness :
  PRIMARY_KEYS "college_admin_data" = Some "admin_id"
  /\ Py.count "admin_id" (normalize_labels (columns Sample.staff_with_key)) = 1
  /\ dates_unambiguous (normalize_labels (columns Sample.staff_with_key))
  /\ In "A0" (key_strings "admin_id" Sample.staff_with_key)
  /\ normalize_key "a0 " = normalize_key "A0"
  /\ keys_survive "admin_id"
       (coerced (appended (Sheet Sample.staff_with_key)
                   (Admin.new_record Sample.staff Sample.clock)))
  /\ exists w',
       update_table "college_admin_data" (Admin.new_record Sample.staff Sample.clock)
         (Sample.on_disk (Sheet Sample.staff_with_key)) = (Returned tt, w')
       /\ check_pk_exists "admin_id" "a0 " w' = (Returned true, w').
Proof.
  split; [reflexivity | split; [reflexivity |]].
  split; [exact (proj2 staff_with_key_keeps_key) | split; [exact old_staff_key_present |]].
  split; [reflexivity | split; [exact staff_with_key_survives |]].
  exact (add_keeps_old_keys "college_admin_data" "admin_id" Sample.staff_with_key
           (Admin.new_record Sample.staff Sample.clock) "A0" "a0 " []
           eq_refl eq_refl (proj2 staff_with_key_keeps_key) old_staff_key_present eq_refl
           staff_with_key_survives).
Defined.

Lemma admin_is_listed : In ("admin", "password123") Session.USERS.
Proof. now left. Defined.

Lemma wrong_case_not_listed : ~ In ("Admin", "password123") Session.USERS.
Proof. simpl. intuition discriminate. Defined.

Lemma login_form_exact_witness :
  In ("admin", "password123") Session.USERS
  /\ Session.login_form (Session.login (Cases.type_login "admin" "password123"))
       Session.fresh
     = (Session.Rerun,
        {| Session.logged_in := Some true; Session.username := Some "admin" |},
        [Session.LoginTitle; Session.LoggedIn])
  /\ ~ In ("Admin", "password123") Session.USERS
  /\ Session.login_form (Session.login (Cases.type_login "Admin" "password123"))
       Session.fresh
     = (Session.Completed, Session.fresh, [Session.LoginTitle; Session.IncorrectLogin]).
Proof.
  split; [exact admin_is_listed | split].
  - exact (proj1 (login_form_exact (Session.login (Cases.type_login "admin" "password123"))
                    Session.fresh eq_refl) admin_is_listed).
  - split; [exact wrong_case_not_listed |].
    exact (proj2 (login_form_exact (Session.login (Cases.type_login "Admin" "password123"))
                    Session.fresh eq_refl) wrong_case_not_listed).
Defined.

Lemma show_main_app_stops_witness :
  Session.logged_in {| Session.logged_in := Some true; Session.username := Some "admin" |}
  = Some true
  /\ Session.logout_clicked Cases.just_look = false
  /\ Session.main Cases.just_look Cases.no_tabs
       {| Session.logged_in := Some true; Session.username := Some "admin" |}
     = (Session.Uncaught (NameError "excel_folder"),
        {| Session.logged_in := Some true; Session.username := Some "admin" |},
        [Session.DatasetSelection; Session.Welcome "admin"]).
Proof.
  split; [reflexivity | split; [reflexivity |]].
  exact (show_main_app_stops Cases.just_look Cases.no_tabs
           {| Session.logged_in := Some true; Session.username := Some "admin" |}
           eq_refl eq_refl).
Defined.

Lemma login_then_logout_witness :
  In ("admin", "password123") Session.USERS
  /\ Session.session_after
       [Cases.type_login "admin" "password123"; Cases.press_logout]
       Cases.no_tabs Session.fresh
     = Session.fresh.
Proof.
  split; [exact admin_is_listed |].
  exact (proj1 (proj2 (login_then_logout (Cases.type_login "admin" "password123")
                         Cases.press_logout Cases.just_look Cases.no_tabs
                         eq_refl admin_is_listed eq_refl eq_refl))).
Defined.
